(** * Igloo API: access control, listing queries, rating aggregate, messaging

    A shallow embedding of the request handlers of [main.py] together with
    the document schemas of [schemas.py].  The handlers run against a
    document store; here the store is an explicit state, threaded through a
    small state-and-exception monad, so that what a handler has already
    written is still visible when a later line of the same handler raises. *)

From Stdlib Require Import String Ascii List Bool ZArith NArith QArith Lia.
From Stdlib Require Import Sorting.Sorted Sorting.Permutation.
From Stdlib Require Import Floats.PrimFloat.
From Stdlib Require Numbers.Cyclic.Int63.Uint63.
Import ListNotations.

Close Scope Q_scope.
Open Scope string_scope.
Open Scope list_scope.

(* ================================================================== *)
(** ** Identifiers of the store: [bson.ObjectId] *)

(** An ObjectId is a 12-byte value; it is kept here as the number those
    bytes spell out.  [str] prints it as 24 lower-case hexadecimal digits,
    and the constructor [ObjectId] reads the strings of 24 hexadecimal
    digits, in either letter case, and raises [InvalidId] on the others.
    (The package also lets a 24-character string through when white space
    stands between its digit pairs.  Here such a string is refused, and
    the statements that rest on a refusal are made for strings the package
    refuses as well, see [never_an_id].) *)
Definition oid := N.

Definition hex_val (c : ascii) : option N :=
  let n := N_of_ascii c in
  if ((48 <=? n) && (n <=? 57))%N then Some (n - 48)%N
  else if ((97 <=? n) && (n <=? 102))%N then Some (n - 87)%N
  else if ((65 <=? n) && (n <=? 70))%N then Some (n - 55)%N
  else None.

Fixpoint from_hex (s : string) (acc : N) : option N :=
  match s with
  | EmptyString => Some acc
  | String c s' =>
      match hex_val c with
      | Some d => from_hex s' (16 * acc + d)%N
      | None => None
      end
  end.

Definition hex_digit (d : N) : ascii :=
  if (d <? 10)%N then ascii_of_N (48 + d) else ascii_of_N (87 + d).

Fixpoint to_hex (digits : nat) (n : N) (acc : string) : string :=
  match digits with
  | O => acc
  | S k => to_hex k (n / 16)%N (String (hex_digit (n mod 16)%N) acc)
  end.

(** [str(oid)] *)
Definition str (o : oid) : string := to_hex 24 o EmptyString.
Arguments str o : simpl never.

(* ================================================================== *)
(** ** Exceptions and results *)

(** [HTTPException] is what the handlers raise on purpose; [InvalidId] is
    the exception of the [bson] package, which no handler catches. *)
Inductive exn : Type :=
| HTTPException (status_code : Z) (detail : string)
| InvalidId (given : string).

Inductive result (A : Type) : Type :=
| Return (a : A)
| Raise (e : exn).
Arguments Return {A} a.
Arguments Raise {A} e.

Definition ObjectId (s : string) : result oid :=
  if (String.length s =? 24)%nat then
    match from_hex s 0%N with
    | Some n => Return n
    | None => Raise (InvalidId s)
    end
  else Raise (InvalidId s).

(* ================================================================== *)
(** ** Schemas ([schemas.py]) *)

Module User.
Record t : Type := mk {
  role : string;
  full_name : string;
  email : string;
  password_hash : string;
  phone : option string;
  school : option string;
  avatar_url : option string;
  is_verified : bool
}.
End User.

(** [price_monthly] and [distance_km] are floats in the source that the
    handlers only compare and copy; they are kept as exact rationals.
    [rating_avg] is computed, so it is a binary64 float as in the source. *)
Module Apartment.
Record t : Type := mk {
  vendor_id : string;
  title : string;
  description : option string;
  school : string;
  location : string;
  price_monthly : Q;
  type : string;
  distance_km : Q;
  amenities : list string;
  photos : list string;
  video_url : option string;
  is_available : bool;
  rating_avg : float;
  rating_count : Z
}.

(** [{"$set": {"rating_avg": avg, "rating_count": count}}] *)
Definition set_rating (avg : float) (count : Z) (a : t) : t :=
  mk (vendor_id a) (title a) (description a) (school a) (location a)
     (price_monthly a) (type a) (distance_km a) (amenities a) (photos a)
     (video_url a) (is_available a) avg count.

(** [{"$set": {"is_available": b}}] *)
Definition set_available (b : bool) (a : t) : t :=
  mk (vendor_id a) (title a) (description a) (school a) (location a)
     (price_monthly a) (type a) (distance_km a) (amenities a) (photos a)
     (video_url a) b (rating_avg a) (rating_count a).
End Apartment.

Module Review.
Record t : Type := mk {
  apartment_id : string;
  user_id : string;
  rating : Z;
  comment : option string
}.

(** [entry.update({"user_id": uid})] *)
Definition set_user_id (uid : string) (r : t) : t :=
  mk (apartment_id r) uid (rating r) (comment r).
End Review.

Module Message.
Record t : Type := mk {
  thread_id : string;
  from_user_id : string;
  to_user_id : string;
  body : string
}.
End Message.

Module MessageThread.
Record t : Type := mk {
  student_id : string;
  vendor_id : string;
  last_message : option string;
  last_time : option Z
}.

(** [{"$set": {"last_message": body, "last_time": now}}] *)
Definition set_last (body : string) (now : Z) (th : t) : t :=
  mk (student_id th) (vendor_id th) (Some body) (Some now).
End MessageThread.

(* ================================================================== *)
(** ** The document store *)

(** A stored document: the [_id] the store gave it, the [created_at] key
    when the document carries one, and the fields of its schema.  The
    schemas declare no [created_at] field, so a document has the key only
    if whoever inserted it added it. *)
Record doc (A : Type) : Type := mkdoc {
  _id : oid;
  created_at : option Z;
  fields : A
}.
Arguments mkdoc {A} _ _ _.
Arguments _id {A} d.
Arguments created_at {A} d.
Arguments fields {A} d.

(** A collection lists its documents in natural (insertion) order.
    [next_oid] is the state of the ObjectId generator. *)
Record DB : Type := mkDB {
  user : list (doc User.t);
  apartment : list (doc Apartment.t);
  review : list (doc Review.t);
  messagethread : list (doc MessageThread.t);
  message : list (doc Message.t);
  next_oid : oid
}.

Definition empty_db : DB := mkDB [] [] [] [] [] 1%N.

(** [db[name]]: a collection is reached through a getter and a setter. *)
Record collection (A : Type) : Type := mkcol {
  docs : DB -> list (doc A);
  set_docs : list (doc A) -> DB -> DB
}.
Arguments docs {A} c db.
Arguments set_docs {A} c l db.

Definition db_user : collection User.t :=
  mkcol _ user (fun l db =>
    mkDB l (apartment db) (review db) (messagethread db) (message db) (next_oid db)).
Definition db_apartment : collection Apartment.t :=
  mkcol _ apartment (fun l db =>
    mkDB (user db) l (review db) (messagethread db) (message db) (next_oid db)).
Definition db_review : collection Review.t :=
  mkcol _ review (fun l db =>
    mkDB (user db) (apartment db) l (messagethread db) (message db) (next_oid db)).
Definition db_messagethread : collection MessageThread.t :=
  mkcol _ messagethread (fun l db =>
    mkDB (user db) (apartment db) (review db) l (message db) (next_oid db)).
Definition db_message : collection Message.t :=
  mkcol _ message (fun l db =>
    mkDB (user db) (apartment db) (review db) (messagethread db) l (next_oid db)).

Definition bump_oid (db : DB) : DB :=
  mkDB (user db) (apartment db) (review db) (messagethread db) (message db)
       (N.succ (next_oid db)).

(* ================================================================== *)
(** ** Handlers as state-and-exception computations *)

(** A handler maps the store to a result and the store it leaves behind.
    There is no transaction: when a step raises, the writes of the steps
    before it stay. *)
Definition M (A : Type) : Type := DB -> result A * DB.

Definition ret {A} (a : A) : M A := fun db => (Return a, db).
Definition raise {A} (e : exn) : M A := fun db => (Raise e, db).
Definition bind {A B} (m : M A) (f : A -> M B) : M B :=
  fun db =>
    match m db with
    | (Return a, db') => f a db'
    | (Raise e, db') => (Raise e, db')
    end.
Definition lift {A} (r : result A) : M A := fun db => (r, db).
Definition gets {A} (f : DB -> A) : M A := fun db => (Return (f db), db).
Definition modify (f : DB -> DB) : M unit := fun db => (Return tt, f db).

Declare Scope handler_scope.
Delimit Scope handler_scope with handler.
Notation "x <- m ;; k" := (bind m (fun x => k))
  (at level 100, m at next level, right associativity) : handler_scope.
Notation "m ;;; k" := (bind m (fun _ => k))
  (at level 100, right associativity) : handler_scope.
Open Scope handler_scope.

(** *** Store operations

    A filter document is given as the predicate it denotes. *)
Section StoreOps.
Context {A : Type} (c : collection A).

Definition find_one (filter : doc A -> bool) : M (option (doc A)) :=
  gets (fun db => List.find filter (docs c db)).

Definition find (filter : doc A -> bool) : M (list (doc A)) :=
  gets (fun db => List.filter filter (docs c db)).

Definition insert_one (x : A) : M oid :=
    fun db =>
      let n := next_oid db in
      (Return n, bump_oid (set_docs c (docs c db ++ [mkdoc n None x]) db)).

Fixpoint update_first (filter : doc A -> bool) (upd : A -> A)
           (l : list (doc A)) : list (doc A) :=
    match l with
    | [] => []
    | d :: l' =>
        if filter d then mkdoc (_id d) (created_at d) (upd (fields d)) :: l'
        else d :: update_first filter upd l'
    end.

Definition update_one (filter : doc A -> bool) (upd : A -> A) : M unit :=
    modify (fun db => set_docs c (update_first filter upd (docs c db)) db).
End StoreOps.

(** [{"_id": o}] *)
Definition by_id {A} (o : oid) (d : doc A) : bool := (_id d =? o)%N.

(** What a handler sends back for a document: [_id] is popped and its
    string form is stored under [id]. *)
Record with_id (A : Type) : Type := mkpub {
  id : string;
  pub_created_at : option Z;
  pub_fields : A
}.
Arguments mkpub {A} _ _ _.
Arguments id {A} w.
Arguments pub_created_at {A} w.
Arguments pub_fields {A} w.

Definition pop_id {A} (d : doc A) : with_id A :=
  mkpub (str (_id d)) (created_at d) (fields d).

Definition list_with_id {A} (cursor : list (doc A)) : list (with_id A) :=
  List.map pop_id cursor.

(** *** [get_apartment] *)
Definition get_apartment (apt_id : string) : M (with_id Apartment.t) :=
  o <- lift (ObjectId apt_id) ;;
  doc <- find_one db_apartment (by_id o) ;;
  match doc with
  | None => raise (HTTPException 404 "Not found")
  | Some d => ret (pop_id d)
  end.

(* ================================================================== *)
(** ** Tokens and the access-control guard *)

(** The claims [create_access_token] signs.  A signed token is kept as its
    claims with the secret and algorithm it was signed with; decoding
    checks both and the expiry.  Time is in whole seconds. *)
Module Claims.
Record t : Type := mk {
  sub : string;
  role : string;
  email : string;
  name : string
}.
End Claims.

Record Jwt : Type := mkJwt {
  payload : Claims.t;
  exp : Z;
  signed_with : string;
  algorithm : string
}.

Definition JWT_ALG : string := "HS256".
Definition ACCESS_TOKEN_EXPIRE_MINUTES : Z := 60 * 24 * 7.

(** [timedelta(minutes=m)] in seconds *)
Definition minutes (m : Z) : Z := 60 * m.

Module AuthUser.
Record t : Type := mk {
  id : string;
  role : string;
  email : string;
  full_name : string
}.
End AuthUser.

Definition contains (x : string) (l : list string) : bool :=
  existsb (String.eqb x) l.

(** [require_role(required)] returns the checker applied to the principal
    that [get_current_user] produced. *)
Definition require_role (required : list string) (user : AuthUser.t)
  : result AuthUser.t :=
  if negb (contains (AuthUser.role user) required)
  then Raise (HTTPException 403 "Insufficient permissions")
  else Return user.

(** The password capability [pwd_context]: hashing and verification are
    opaque, and a password verifies against its own hash. *)
Class CryptContext : Type := {
  hash : string -> string;
  verify : string -> string -> bool;
  verify_hash : forall password, verify password (hash password) = true
}.

Module RegisterRequest.
Record t : Type := mk {
  role : string;
  full_name : string;
  email : string;
  password : string;
  phone : option string;
  school : option string
}.
End RegisterRequest.

Module LoginRequest.
Record t : Type := mk {
  email : string;
  password : string
}.
End LoginRequest.

Section Auth.
(** [os.getenv("JWT_SECRET", "devsecret")] *)
Variable JWT_SECRET : string.
Context {pwd_context : CryptContext}.

(** [expires_delta or timedelta(minutes=...)]: a zero delta is falsy. *)
Definition create_access_token (now : Z) (data : Claims.t)
           (expires_delta : option Z) : Jwt :=
  let delta :=
    match expires_delta with
    | Some d => if (d =? 0)%Z then minutes ACCESS_TOKEN_EXPIRE_MINUTES else d
    | None => minutes ACCESS_TOKEN_EXPIRE_MINUTES
    end in
  mkJwt data (now + delta) JWT_SECRET JWT_ALG.

(** [jwt.decode(token, JWT_SECRET, algorithms=[JWT_ALG])] *)
Definition jwt_decode (now : Z) (token : Jwt) : option Claims.t :=
  if String.eqb (signed_with token) JWT_SECRET
     && contains (algorithm token) [JWT_ALG]
     && (now <? exp token)%Z
  then Some (payload token) else None.

Definition get_current_user (now : Z) (token : Jwt) : result AuthUser.t :=
  match jwt_decode now token with
  | Some p =>
      Return (AuthUser.mk (Claims.sub p) (Claims.role p) (Claims.email p)
                          (Claims.name p))
  | None => Raise (HTTPException 401 "Invalid or expired token")
  end.

(** [{"email": e}] *)
Definition by_email (e : string) (d : doc User.t) : bool :=
  String.eqb (User.email (fields d)) e.

Definition register (now : Z) (data : RegisterRequest.t) : M Jwt :=
  existing <- find_one db_user (by_email (RegisterRequest.email data)) ;;
  match existing with
  | Some _ => raise (HTTPException 400 "Email already registered")
  | None =>
      let hashed := hash (RegisterRequest.password data) in
      let user :=
        User.mk (RegisterRequest.role data) (RegisterRequest.full_name data)
                (RegisterRequest.email data) hashed
                (RegisterRequest.phone data) (RegisterRequest.school data)
                None false in
      user_id <- insert_one db_user user ;;
      ret (create_access_token now
             (Claims.mk (str user_id) (User.role user) (User.email user)
                        (User.full_name user))
             None)
  end.

Definition login (now : Z) (data : LoginRequest.t) : M Jwt :=
  user <- find_one db_user (by_email (LoginRequest.email data)) ;;
  match user with
  | None => raise (HTTPException 401 "Invalid credentials")
  | Some u =>
      if negb (verify (LoginRequest.password data)
                      (User.password_hash (fields u)))
      then raise (HTTPException 401 "Invalid credentials")
      else
        ret (create_access_token now
               (Claims.mk (str (_id u)) (User.role (fields u))
                          (User.email (fields u)) (User.full_name (fields u)))
               None)
  end.
(** The [checker] that [require_role(required)] returns, run on the
    principal it depends on. *)
Definition checker (required : list string) (now : Z) (token : Jwt)
  : result AuthUser.t :=
  match get_current_user now token with
  | Return user => require_role required user
  | Raise e => Raise e
  end.
End Auth.

(* ================================================================== *)
(** ** Sorting a cursor: [.sort("created_at", direction)] *)

(** A missing key compares as null, below every value.  Documents with
    equal keys stay in natural order. *)
Definition key_le (a b : option Z) : bool :=
  match a, b with
  | None, _ => true
  | Some _, None => false
  | Some x, Some y => (x <=? y)%Z
  end.

Section Sort.
Context {A : Type}.

Definition before (direction : Z) (d e : doc A) : bool :=
  if (direction =? 1)%Z then key_le (created_at d) (created_at e)
  else key_le (created_at e) (created_at d).

Fixpoint insert_sorted (direction : Z) (d : doc A) (l : list (doc A))
  : list (doc A) :=
  match l with
  | [] => [d]
  | e :: l' =>
      if before direction d e then d :: l
      else e :: insert_sorted direction d l'
  end.

Definition sort (direction : Z) (l : list (doc A)) : list (doc A) :=
  fold_right (insert_sorted direction) [] l.
End Sort.

(* ================================================================== *)
(** ** Text matching *)

Definition lower (c : ascii) : ascii :=
  let n := N_of_ascii c in
  if ((65 <=? n) && (n <=? 90))%N then ascii_of_N (n + 32) else c.

Definition ci_eqb (a b : ascii) : bool := Ascii.eqb (lower a) (lower b).

Fixpoint ci_prefix (p t : string) : bool :=
  match p, t with
  | EmptyString, _ => true
  | String _ _, EmptyString => false
  | String a p', String b t' => ci_eqb a b && ci_prefix p' t'
  end.

(** [p] occurs in [t] when letter case is ignored. *)
Fixpoint ci_substring (p t : string) : bool :=
  ci_prefix p t ||
  match t with
  | EmptyString => false
  | String _ t' => ci_substring p t'
  end.

(** The characters a regular expression gives a meaning of their own. *)
Definition metachar (c : ascii) : bool :=
  existsb (Ascii.eqb c)
    ["\"; "^"; "$"; "."; "|"; "?"; "*"; "+"; "("; ")"; "["; "]"; "{"; "}"]%char.

Fixpoint plain (p : string) : bool :=
  match p with
  | EmptyString => true
  | String c p' => negb (metachar c) && plain p'
  end.

(** The store evaluates [{"$regex": p, "$options": o}] on a text with its
    own regular-expression engine, [regex_search p o text].  What is asked
    of an engine, where it matters, is [searches_plain_text]: with option
    ["i"], a pattern free of metacharacters is found in a text exactly when
    it occurs in it, letter case ignored. *)
Class RegexEngine : Type := {
  regex_search : string -> string -> string -> bool
}.

Definition searches_plain_text (engine : RegexEngine) : Prop :=
  forall p t, plain p = true -> regex_search p "i" t = ci_substring p t.

(* ================================================================== *)
(** ** Apartments *)

Module ApartmentCreate.
Record t : Type := mk {
  title : string;
  description : option string;
  school : string;
  location : string;
  price_monthly : Q;
  type : string;
  distance_km : Q;
  amenities : list string;
  photos : list string;
  video_url : option string
}.
End ApartmentCreate.

Record SimpleOK : Type := mkSimpleOK { ok : bool }.

Definition create_apartment (data : ApartmentCreate.t) (user : AuthUser.t)
  : M string :=
  user <- lift (require_role ["vendor"] user) ;;
  let apt :=
    Apartment.mk (AuthUser.id user) (ApartmentCreate.title data)
      (ApartmentCreate.description data) (ApartmentCreate.school data)
      (ApartmentCreate.location data) (ApartmentCreate.price_monthly data)
      (ApartmentCreate.type data) (ApartmentCreate.distance_km data)
      (ApartmentCreate.amenities data) (ApartmentCreate.photos data)
      (ApartmentCreate.video_url data) true 0%float 0%Z in
  inserted_id <- insert_one db_apartment apt ;;
  ret (str inserted_id).

Module ListingDecision.
Record t : Type := mk {
  id : string;
  is_available : bool
}.
End ListingDecision.

Definition admin_toggle_listing (payload : ListingDecision.t)
           (user : AuthUser.t) : M SimpleOK :=
  user <- lift (require_role ["admin"] user) ;;
  o <- lift (ObjectId (ListingDecision.id payload)) ;;
  update_one db_apartment (by_id o)
             (Apartment.set_available (ListingDecision.is_available payload)) ;;;
  ret (mkSimpleOK true).

(** *** The listing query *)

(** [s.split(",")] *)
Fixpoint split (sep : ascii) (s : string) : list string :=
  match s with
  | EmptyString => [EmptyString]
  | String c s' =>
      if Ascii.eqb c sep then EmptyString :: split sep s'
      else
        match split sep s' with
        | w :: ws => String c w :: ws
        | [] => [String c EmptyString]
        end
  end.

Inductive text_field : Type := title | location | description.

Definition text_of (f : text_field) (a : Apartment.t) : option string :=
  match f with
  | title => Some (Apartment.title a)
  | location => Some (Apartment.location a)
  | description => Apartment.description a
  end.

(** [{field: {"$regex": pattern, "$options": options}}] *)
Record regex_clause : Type := mkregex {
  field : text_field;
  pattern : string;
  options : string
}.

(** [{"$gte": ..., "$lte": ...}], either key possibly missing *)
Record range : Type := mkrange {
  gte : option Q;
  lte : option Q
}.

(** The filter document [list_apartments] builds: each key is present or
    not. *)
Record query : Type := mkquery {
  q_school : option string;
  q_or : option (list regex_clause);
  q_price_monthly : option range;
  q_amenities_all : option (list string)
}.

(** Python truthiness of an optional string: [None] and [""] are false. *)
Definition truthy (o : option string) : option string :=
  match o with
  | Some EmptyString => None
  | _ => o
  end.

Definition build_query (school q : option string) (min_price max_price : option Q)
           (amenities : option string) : query :=
  let query := mkquery None None None None in
  let query :=
    match truthy school with
    | Some s => mkquery (Some s) (q_or query) (q_price_monthly query)
                        (q_amenities_all query)
    | None => query
    end in
  let query :=
    match truthy q with
    | Some q =>
        mkquery (q_school query)
                (Some [mkregex title q "i"; mkregex location q "i";
                       mkregex description q "i"])
                (q_price_monthly query) (q_amenities_all query)
    | None => query
    end in
  let price_range := mkrange min_price max_price in
  let query :=
    match price_range with
    | mkrange None None => query
    | _ => mkquery (q_school query) (q_or query) (Some price_range)
                   (q_amenities_all query)
    end in
  match truthy amenities with
  | Some s => mkquery (q_school query) (q_or query) (q_price_monthly query)
                      (Some (split "," s))
  | None => query
  end.

Section Listing.
Context {engine : RegexEngine}.

Definition clause_matches (a : Apartment.t) (c : regex_clause) : bool :=
  match text_of (field c) a with
  | Some t => regex_search (pattern c) (options c) t
  | None => false
  end.

Definition in_range (r : range) (x : Q) : bool :=
  match gte r with Some m => Qle_bool m x | None => true end
  && match lte r with Some m => Qle_bool x m | None => true end.

(** How the store reads the filter document: every key present must hold.
    [$all] over no value matches nothing. *)
Definition matches (qr : query) (a : Apartment.t) : bool :=
  match q_school qr with
  | Some s => String.eqb (Apartment.school a) s
  | None => true
  end
  && match q_or qr with
     | Some clauses => existsb (clause_matches a) clauses
     | None => true
     end
  && match q_price_monthly qr with
     | Some r => in_range r (Apartment.price_monthly a)
     | None => true
     end
  && match q_amenities_all qr with
     | Some [] => false
     | Some vs => forallb (fun v => contains v (Apartment.amenities a)) vs
     | None => true
     end.

Definition list_apartments (school q : option string)
           (min_price max_price : option Q) (amenities : option string)
  : M (list (with_id Apartment.t)) :=
  let query := build_query school q min_price max_price amenities in
  cursor <- find db_apartment (fun d => matches query (fields d)) ;;
  ret (list_with_id (sort (-1) cursor)).
End Listing.

(* ================================================================== *)
(** ** Reviews and the rating aggregate *)

Definition sum (l : list Z) : Z := fold_right Z.add 0%Z l.

(** An integer of the store (at most 64 bits) as a double. *)
Definition float_of_Z (z : Z) : float :=
  match z with
  | Z0 => 0%float
  | Zpos _ => PrimFloat.of_uint63 (Uint63.of_Z z)
  | Zneg _ => PrimFloat.opp (PrimFloat.of_uint63 (Uint63.of_Z (- z)))
  end.

(** [$avg] over a non-empty list of integers: the sum divided by the
    count in double arithmetic, so the quotient is rounded to the nearest
    double. *)
Definition mean (l : list Z) : float :=
  PrimFloat.div (float_of_Z (sum l))
                (float_of_Z (Z.of_nat (List.length l))).

(** [{"apartment_id": a}] *)
Definition by_apartment (a : string) (d : doc Review.t) : bool :=
  String.eqb (Review.apartment_id (fields d)) a.

Definition ratings_of (apt_id : string) (reviews : list (doc Review.t))
  : list Z :=
  List.map (fun d => Review.rating (fields d))
           (List.filter (by_apartment apt_id) reviews).

(** One row of the [$group] stage. *)
Record stats_row : Type := mkstats {
  group_id : string;
  avg : float;
  count : Z
}.

(** [db["review"].aggregate([{"$match": ...}, {"$group": ...}])]: the
    matched reviews all carry [apt_id], so there is one group, or none when
    nothing matched. *)
Definition aggregate_rating (apt_id : string) : M (list stats_row) :=
  gets (fun db =>
    match ratings_of apt_id (review db) with
    | [] => []
    | rs => [mkstats apt_id (mean rs) (Z.of_nat (List.length rs))]
    end).

Definition add_review (apt_id : string) (payload : Review.t)
           (user : AuthUser.t) : M SimpleOK :=
  user <- lift (require_role ["user"; "vendor"] user) ;;
  if negb (String.eqb (Review.apartment_id payload) apt_id)
  then raise (HTTPException 400 "Mismatched apartment id")
  else
    let entry := Review.set_user_id (AuthUser.id user) payload in
    _ <- insert_one db_review entry ;;
    stats <- aggregate_rating apt_id ;;
    match stats with
    | s :: _ =>
        o <- lift (ObjectId apt_id) ;;
        update_one db_apartment (by_id o)
                   (Apartment.set_rating (avg s) (count s)) ;;;
        ret (mkSimpleOK true)
    | [] => ret (mkSimpleOK true)
    end.

(* ================================================================== *)
(** ** Messaging *)

(** [{"student_id": s, "vendor_id": v}] *)
Definition by_pair (s v : string) (d : doc MessageThread.t) : bool :=
  String.eqb (MessageThread.student_id (fields d)) s
  && String.eqb (MessageThread.vendor_id (fields d)) v.

Definition create_thread (vendor_id : string) (user : AuthUser.t) : M string :=
  user <- lift (require_role ["user"] user) ;;
  existing <- find_one db_messagethread (by_pair (AuthUser.id user) vendor_id) ;;
  match existing with
  | Some e => ret (str (_id e))
  | None =>
      let thread := MessageThread.mk (AuthUser.id user) vendor_id None None in
      inserted_id <- insert_one db_messagethread thread ;;
      ret (str inserted_id)
  end.

Module SendMessage.
Record t : Type := mk {
  thread_id : string;
  body : string
}.
End SendMessage.

(** [{"thread_id": t}] *)
Definition by_thread (t : string) (d : doc Message.t) : bool :=
  String.eqb (Message.thread_id (fields d)) t.

Definition send_message (now : Z) (payload : SendMessage.t)
           (user : AuthUser.t) : M SimpleOK :=
  user <- lift (require_role ["user"; "vendor"] user) ;;
  o <- lift (ObjectId (SendMessage.thread_id payload)) ;;
  thread <- find_one db_messagethread (by_id o) ;;
  match thread with
  | None => raise (HTTPException 404 "Thread not found")
  | Some thread =>
      let th := fields thread in
      if String.eqb (AuthUser.role user) "user"
         && negb (String.eqb (MessageThread.student_id th) (AuthUser.id user))
      then raise (HTTPException 403 "Not participant")
      else if String.eqb (AuthUser.role user) "vendor"
         && negb (String.eqb (MessageThread.vendor_id th) (AuthUser.id user))
      then raise (HTTPException 403 "Not participant")
      else
        let msg :=
          Message.mk (SendMessage.thread_id payload) (AuthUser.id user)
            (if String.eqb (AuthUser.role user) "user"
             then MessageThread.vendor_id th
             else MessageThread.student_id th)
            (SendMessage.body payload) in
        _ <- insert_one db_message msg ;;
        o' <- lift (ObjectId (SendMessage.thread_id payload)) ;;
        update_one db_messagethread (by_id o')
                   (MessageThread.set_last (SendMessage.body payload) now) ;;;
        ret (mkSimpleOK true)
  end.

Definition thread_messages (thread_id : string) (user : AuthUser.t)
  : M (list (with_id Message.t)) :=
  user <- lift (require_role ["user"; "vendor"] user) ;;
  o <- lift (ObjectId thread_id) ;;
  thread <- find_one db_messagethread (by_id o) ;;
  match thread with
  | None => raise (HTTPException 404 "Thread not found")
  | Some thread =>
      let th := fields thread in
      if String.eqb (AuthUser.role user) "user"
         && negb (String.eqb (MessageThread.student_id th) (AuthUser.id user))
      then raise (HTTPException 403 "Not participant")
      else if String.eqb (AuthUser.role user) "vendor"
         && negb (String.eqb (MessageThread.vendor_id th) (AuthUser.id user))
      then raise (HTTPException 403 "Not participant")
      else
        cursor <- find db_message (by_thread thread_id) ;;
        ret (list_with_id (sort 1 cursor))
  end.


(* ================================================================== *)
(** ** Vocabulary of the properties *)

(** The failure kinds of the handlers, by status code. *)
Definition Forbidden {A} (r : result A) : Prop :=
  exists detail, r = Raise (HTTPException 403 detail).

Definition NotFound {A} (r : result A) : Prop :=
  exists detail, r = Raise (HTTPException 404 detail).

Definition BadRequest {A} (r : result A) : Prop :=
  exists detail, r = Raise (HTTPException 400 detail).

Definition Succeeds {A} (r : result A) : Prop :=
  exists a, r = Return a.

(** The principal is the thread's student acting as user, or its vendor
    acting as vendor. *)
Definition participant (user : AuthUser.t) (th : MessageThread.t) : Prop :=
  (AuthUser.role user = "user"
   /\ AuthUser.id user = MessageThread.student_id th)
  \/ (AuthUser.role user = "vendor"
      /\ AuthUser.id user = MessageThread.vendor_id th).

(** The review [add_review] stores: the payload with its [user_id]
    replaced by the principal's id. *)
Definition stored_review (payload : Review.t) (user : AuthUser.t) (db : DB)
  : doc Review.t :=
  mkdoc (next_oid db) None
    (Review.mk (Review.apartment_id payload) (AuthUser.id user)
               (Review.rating payload) (Review.comment payload)).

(* ================================================================== *)
(** ** Sample principals and stores *)

(** A store with one thread, between student [alice] and vendor [bob]. *)
Definition alice : AuthUser.t :=
  AuthUser.mk "00000000000000000000000a" "user" "alice@uni.edu" "Alice".
Definition bob : AuthUser.t :=
  AuthUser.mk "00000000000000000000000b" "vendor" "bob@rooms.com" "Bob".
Definition mallory : AuthUser.t :=
  AuthUser.mk "00000000000000000000000c" "user" "mallory@uni.edu" "Mallory".

Definition thread_ab : doc MessageThread.t :=
  mkdoc 1%N None
    (MessageThread.mk (AuthUser.id alice) (AuthUser.id bob) None None).

Definition db_one_thread : DB := mkDB [] [] [] [thread_ab] [] 2%N.


(** A password context good enough to run the handlers on examples. *)
Definition toy_context : CryptContext :=
  {| hash := fun password => String.append "$2b$" password;
     verify := fun password digest =>
       String.eqb digest (String.append "$2b$" password);
     verify_hash := fun password =>
       String.eqb_refl (String.append "$2b$" password) |}.

Definition admin_request : RegisterRequest.t :=
  RegisterRequest.mk "admin" "Eve" "eve@example.com" "hunter2" None None.

(** The user document [register] inserts for a request. *)
Definition registered_user {pwd_context : CryptContext}
           (data : RegisterRequest.t) : User.t :=
  User.mk (RegisterRequest.role data) (RegisterRequest.full_name data)
          (RegisterRequest.email data) (hash (RegisterRequest.password data))
          (RegisterRequest.phone data) (RegisterRequest.school data)
          None false.

(* ================================================================== *)
(** ** Threads per pair, and the stores the handlers can produce *)

Definition threads_of (student vendor : string) (db : DB)
  : list (doc MessageThread.t) :=
  List.filter (by_pair student vendor) (messagethread db).

Definition one_thread_per_pair (db : DB) : Prop :=
  forall student vendor,
    (List.length (threads_of student vendor db) <= 1)%nat.

(** One request served by a handler that writes to one of the five
    collections above. *)
Inductive step (db : DB) : DB -> Prop :=
| step_register secret (ctx : CryptContext) now data :
    step db (snd (register secret now data db))
| step_create_apartment data user :
    step db (snd (create_apartment data user db))
| step_add_review apt_id payload user :
    step db (snd (add_review apt_id payload user db))
| step_create_thread vendor_id user :
    step db (snd (create_thread vendor_id user db))
| step_send_message now payload user :
    step db (snd (send_message now payload user db))
| step_admin_toggle_listing payload user :
    step db (snd (admin_toggle_listing payload user db)).

(** The stores reached from the empty store by serving requests. *)
Inductive reachable : DB -> Prop :=
| reach_empty : reachable empty_db
| reach_step db db' : reachable db -> step db db' -> reachable db'.

(** The store [add_review] leaves when every step goes through: the review
    is appended and the apartment with id [o] gets the aggregate of the
    reviews that carry [apt_id]. *)
Definition reviewed (apt_id : string) (payload : Review.t)
           (principal : AuthUser.t) (o : oid) (db : DB) : DB :=
  let rs := ratings_of apt_id (review db) ++ [Review.rating payload] in
  mkDB (user db)
       (update_first (by_id o)
          (Apartment.set_rating (mean rs) (Z.of_nat (List.length rs)))
          (apartment db))
       (review db ++ [stored_review payload principal db])
       (messagethread db) (message db) (N.succ (next_oid db)).

Definition review_of (apt_id : string) (rating : Z) : Review.t :=
  Review.mk apt_id "someone-else" rating None.

Definition flat : doc Apartment.t :=
  mkdoc 7%N None
    (Apartment.mk (AuthUser.id bob) "Sunny flat" None "MIT" "Cambridge"
       (1000 # 1) "studio" (3 # 2) ["wifi"; "ac"] [] None true 0%float 0%Z).

Definition db_one_flat : DB := mkDB [] [flat] [] [] [] 8%N.

Definition listing (name : string) : ApartmentCreate.t :=
  ApartmentCreate.mk name None "MIT" "Cambridge" (1000 # 1) "studio" (3 # 2)
    [] [] None.

(** No document of the store carries a [created_at] key. *)
Definition no_created_at (db : DB) : Prop :=
  Forall (fun d => created_at d = None) (user db)
  /\ Forall (fun d => created_at d = None) (apartment db)
  /\ Forall (fun d => created_at d = None) (review db)
  /\ Forall (fun d => created_at d = None) (messagethread db)
  /\ Forall (fun d => created_at d = None) (message db).

(* ================================================================== *)
(** ** The listing filters, as predicates on an apartment *)

Definition text_term (found_in : string -> bool) (a : Apartment.t) : bool :=
  found_in (Apartment.title a)
  || found_in (Apartment.location a)
  || match Apartment.description a with
     | Some d => found_in d
     | None => false
     end.

Definition when_present {V : Type} (filter : option V) (term : V -> bool)
  : bool :=
  match filter with
  | Some v => term v
  | None => true
  end.

Definition has_all (wanted : list string) (a : Apartment.t) : bool :=
  forallb (fun v => contains v (Apartment.amenities a)) wanted.

(** The predicate in the words of the specification: every filter given
    contributes its term, the free text as a substring test. *)
Definition stated_predicate (school q : option string)
           (min_price max_price : option Q) (amenities : option string)
           (a : Apartment.t) : bool :=
  when_present school (fun s => String.eqb (Apartment.school a) s)
  && when_present q (fun q => text_term (ci_substring q) a)
  && when_present min_price (fun m => Qle_bool m (Apartment.price_monthly a))
  && when_present max_price (fun m => Qle_bool (Apartment.price_monthly a) m)
  && when_present amenities (fun s => has_all (split "," s) a).

(** The predicate the handler's query denotes: an empty string counts as
    no filter, and the free text is searched as a regular expression. *)
Definition listing_predicate {engine : RegexEngine} (school q : option string)
           (min_price max_price : option Q) (amenities : option string)
           (a : Apartment.t) : bool :=
  when_present (truthy school) (fun s => String.eqb (Apartment.school a) s)
  && when_present (truthy q) (fun q => text_term (regex_search q "i") a)
  && when_present min_price (fun m => Qle_bool m (Apartment.price_monthly a))
  && when_present max_price (fun m => Qle_bool (Apartment.price_monthly a) m)
  && when_present (truthy amenities) (fun s => has_all (split "," s) a).

(** An engine for the patterns built from ordinary characters and [.],
    which stands for any character but a line feed. *)
Definition atom_matches (ignore_case : bool) (a c : ascii) : bool :=
  if Ascii.eqb a "." then negb (Ascii.eqb c "010")
  else if ignore_case then ci_eqb a c else Ascii.eqb a c.

Fixpoint dot_prefix (ignore_case : bool) (p t : string) : bool :=
  match p, t with
  | EmptyString, _ => true
  | String _ _, EmptyString => false
  | String a p', String c t' =>
      atom_matches ignore_case a c && dot_prefix ignore_case p' t'
  end.

Fixpoint dot_search (ignore_case : bool) (p t : string) : bool :=
  dot_prefix ignore_case p t ||
  match t with
  | EmptyString => false
  | String _ t' => dot_search ignore_case p t'
  end.

Definition dot_engine : RegexEngine :=
  {| regex_search := fun p o t => dot_search (String.eqb o "i") p t |}.

Definition priced (n : N) (price : Z) (amenities : list string)
  : doc Apartment.t :=
  mkdoc n None
    (Apartment.mk (AuthUser.id bob) "Room" None "MIT" "Cambridge"
       (price # 1) "studio" (1 # 1) amenities [] None true 0%float 0%Z).

Definition db_three_prices : DB :=
  mkDB [] [priced 1 500 ["wifi"]; priced 2 1000 ["wifi"; "ac"];
           priced 3 1500 ["ac"]] [] [] [] 4%N.




(* ================================================================== *)
(** * The remaining handlers *)

(** ** Sorting a cursor on any key

    [.sort(key, direction)] for a key other than [created_at]; the
    ordering is the one of [sort]. *)
Section SortOn.
Context {A : Type} (key : doc A -> option Z).

Definition before_on (direction : Z) (d e : doc A) : bool :=
  if (direction =? 1)%Z then key_le (key d) (key e)
  else key_le (key e) (key d).

Fixpoint insert_on (direction : Z) (d : doc A) (l : list (doc A))
  : list (doc A) :=
  match l with
  | [] => [d]
  | e :: l' =>
      if before_on direction d e then d :: l
      else e :: insert_on direction d l'
  end.

Definition sort_on (direction : Z) (l : list (doc A)) : list (doc A) :=
  fold_right (insert_on direction) [] l.
End SortOn.

(** ** The current user and the threads of a principal *)

(** The utility [find_one(collection, query)] of [main.py]; the name
    [find_one] is taken by the store operation it wraps. *)
Definition find_one_with_id {A} (c : collection A) (query : doc A -> bool)
  : M (option (with_id A)) :=
  doc <- find_one c query ;;
  ret (option_map pop_id doc).

Definition me (user : AuthUser.t) : M (option (with_id User.t)) :=
  o <- lift (ObjectId (AuthUser.id user)) ;;
  find_one_with_id db_user (by_id o).

(** [{"student_id": u}] and [{"vendor_id": u}] *)
Definition by_student (u : string) (d : doc MessageThread.t) : bool :=
  String.eqb (MessageThread.student_id (fields d)) u.
Definition by_vendor (u : string) (d : doc MessageThread.t) : bool :=
  String.eqb (MessageThread.vendor_id (fields d)) u.

Definition last_time_of (d : doc MessageThread.t) : option Z :=
  MessageThread.last_time (fields d).

Definition my_threads (user : AuthUser.t)
  : M (list (with_id MessageThread.t)) :=
  user <- lift (require_role ["user"; "vendor"] user) ;;
  let filt :=
    if String.eqb (AuthUser.role user) "user"
    then by_student (AuthUser.id user)
    else by_vendor (AuthUser.id user) in
  cursor <- find db_messagethread filt ;;
  ret (list_with_id (sort_on last_time_of (-1) cursor)).

(** ** Vocabulary *)

Definition Unauthenticated {A} (r : result A) : Prop :=
  exists detail, r = Raise (HTTPException 401 detail).

(** Twelve bytes hold the numbers below [2^96]. *)
Definition oid_bound : N := (2 ^ 96)%N.

(** Every identifier in the store was handed out by the generator. *)
Definition ids_below {A} (n : oid) (l : list (doc A)) : Prop :=
  Forall (fun d => (_id d < n)%N) l.

Definition ids_issued (db : DB) : Prop :=
  ids_below (next_oid db) (user db)
  /\ ids_below (next_oid db) (apartment db)
  /\ ids_below (next_oid db) (review db)
  /\ ids_below (next_oid db) (messagethread db)
  /\ ids_below (next_oid db) (message db).

(** No two users of the store share an email. *)
Definition emails_unique (db : DB) : Prop :=
  NoDup (List.map (fun d => User.email (fields d)) (user db)).

Definition carol : AuthUser.t :=
  AuthUser.mk "00000000000000000000000d" "admin" "carol@igloo.app" "Carol".

(** Everything a handler can do to the store in one request: nothing, or
    append one document (with a rating or thread-summary update after it),
    or update one listing in place. *)
Inductive write (db : DB) : DB -> Prop :=
| write_nothing : write db db
| write_user x :
    List.find (by_email (User.email x)) (user db) = None ->
    write db (bump_oid (set_docs db_user
                          (user db ++ [mkdoc (next_oid db) None x]) db))
| write_apartment x :
    write db (bump_oid (set_docs db_apartment
                          (apartment db ++ [mkdoc (next_oid db) None x]) db))
| write_review x :
    write db (bump_oid (set_docs db_review
                          (review db ++ [mkdoc (next_oid db) None x]) db))
| write_review_rated x o average number :
    write db
      (set_docs db_apartment
         (update_first (by_id o) (Apartment.set_rating average number)
            (apartment db))
         (bump_oid (set_docs db_review
                      (review db ++ [mkdoc (next_oid db) None x]) db)))
| write_thread x :
    write db (bump_oid (set_docs db_messagethread
                          (messagethread db ++ [mkdoc (next_oid db) None x])
                          db))
| write_message x o body now :
    write db
      (set_docs db_messagethread
         (update_first (by_id o) (MessageThread.set_last body now)
            (messagethread db))
         (bump_oid (set_docs db_message
                      (message db ++ [mkdoc (next_oid db) None x]) db)))
| write_availability o b :
    write db
      (set_docs db_apartment
         (update_first (by_id o) (Apartment.set_available b) (apartment db))
         db).

(** No two documents of a collection share an identifier. *)
Definition ids_distinct (db : DB) : Prop :=
  NoDup (List.map _id (user db))
  /\ NoDup (List.map _id (apartment db))
  /\ NoDup (List.map _id (review db))
  /\ NoDup (List.map _id (messagethread db))
  /\ NoDup (List.map _id (message db)).

(** The identifiers of a collection, in natural order. *)
Definition ids_of {A} (l : list (doc A)) : list oid := List.map _id l.

Definition eve_login : LoginRequest.t :=
  LoginRequest.mk "eve@example.com" "hunter2".

(** What a listing request returns, the empty list when it raises. *)
Definition items {A} (r : result (list A)) : list A :=
  match r with
  | Return l => l
  | Raise _ => []
  end.

(** The listing [create_apartment] stores for a request of a vendor. *)
Definition created_listing (data : ApartmentCreate.t) (vendor : AuthUser.t)
  : Apartment.t :=
  Apartment.mk (AuthUser.id vendor) (ApartmentCreate.title data)
    (ApartmentCreate.description data) (ApartmentCreate.school data)
    (ApartmentCreate.location data) (ApartmentCreate.price_monthly data)
    (ApartmentCreate.type data) (ApartmentCreate.distance_km data)
    (ApartmentCreate.amenities data) (ApartmentCreate.photos data)
    (ApartmentCreate.video_url data) true 0%float 0%Z.

Definition forbidden : exn := HTTPException 403 "Insufficient permissions".

(** The store [send_message] leaves when the post goes through: the
    message is appended and the thread with id [o] gets its summary. *)
Definition posted (msg : Message.t) (o : oid) (now : Z) (db : DB) : DB :=
  mkDB (user db) (apartment db) (review db)
       (update_first (by_id o) (MessageThread.set_last (Message.body msg) now)
          (messagethread db))
       (message db ++ [mkdoc (next_oid db) None msg])
       (N.succ (next_oid db)).

(** The message a participant posts to a thread: from the participant, to
    the thread's other side. *)
Definition message_from (user : AuthUser.t) (th : MessageThread.t)
           (payload : SendMessage.t) : Message.t :=
  Message.mk (SendMessage.thread_id payload) (AuthUser.id user)
    (if String.eqb (AuthUser.role user) "user"
     then MessageThread.vendor_id th else MessageThread.student_id th)
    (SendMessage.body payload).

Definition hi_from_bob : SendMessage.t :=
  SendMessage.mk "000000000000000000000001" "hi".

Definition db_one_message : DB :=
  snd (send_message 1700000000 hi_from_bob bob db_one_thread).

(** A listing with its two rating fields blanked. *)
Definition without_rating (d : doc Apartment.t) : doc Apartment.t :=
  mkdoc (_id d) (created_at d) (Apartment.set_rating 0%float 0%Z (fields d)).

Definition unknown_flat_review : Review.t :=
  review_of "0000000000000000000000ff" 4.

Definition hide_flat : ListingDecision.t :=
  ListingDecision.mk "000000000000000000000007" false.

(** What the ordering and the public id of a document depend on. *)
Definition sort_key {A} (d : doc A) : oid * option Z := (_id d, created_at d).

(** A collection only grew: its identifiers start with the old ones. *)
Definition grown_from {A} (old new : list (doc A)) : Prop :=
  exists added, ids_of new = ids_of old ++ added /\ (List.length added <= 1)%nat.

(* ================================================================== *)
(** ** The other collections: KYC records, favorites, bookings *)

Module VendorKYC.
Record t : Type := mk {
  user_id : string;
  business_name : option string;
  gov_id_type : option string;
  gov_id_number : option string;
  cac_number : option string;
  address : option string;
  status : string;
  notes : option string
}.

(** [payload_dict.update({"user_id": uid, "status": "pending"})] *)
Definition set_submitted (uid : string) (k : t) : t :=
  mk uid (business_name k) (gov_id_type k) (gov_id_number k) (cac_number k)
     (address k) "pending" (notes k).

(** [{"$set": {"status": s, "notes": n}}] *)
Definition set_decision (s : string) (n : option string) (k : t) : t :=
  mk (user_id k) (business_name k) (gov_id_type k) (gov_id_number k)
     (cac_number k) (address k) s n.
End VendorKYC.

Module Favorite.
Record t : Type := mk {
  apartment_id : string;
  user_id : string
}.
End Favorite.

Module BookingInterest.
Record t : Type := mk {
  apartment_id : string;
  user_id : string;
  vendor_id : string;
  message : option string;
  status : string
}.
End BookingInterest.

Module BookingCreate.
Record t : Type := mk {
  apartment_id : string;
  message : option string
}.
End BookingCreate.

Module AdminAction.
Record t : Type := mk {
  id : string;
  approve : bool;
  notes : option string
}.
End AdminAction.

(** The whole store: the five collections above and the three that the
    handlers below add to them.  Identifiers still come from the one
    generator. *)
Record Store : Type := mkStore {
  core : DB;
  vendorkyc : list (doc VendorKYC.t);
  favorite : list (doc Favorite.t);
  bookinginterest : list (doc BookingInterest.t)
}.

Definition empty_store : Store := mkStore empty_db [] [] [].

Definition set_core (db : DB) (s : Store) : Store :=
  mkStore db (vendorkyc s) (favorite s) (bookinginterest s).

Record wide_collection (A : Type) : Type := mkwide {
  wdocs : Store -> list (doc A);
  wset_docs : list (doc A) -> Store -> Store
}.
Arguments wdocs {A} _ _.
Arguments wset_docs {A} _ _ _.

Definition db_vendorkyc : wide_collection VendorKYC.t :=
  mkwide _ vendorkyc (fun l s =>
    mkStore (core s) l (favorite s) (bookinginterest s)).
Definition db_favorite : wide_collection Favorite.t :=
  mkwide _ favorite (fun l s =>
    mkStore (core s) (vendorkyc s) l (bookinginterest s)).
Definition db_bookinginterest : wide_collection BookingInterest.t :=
  mkwide _ bookinginterest (fun l s =>
    mkStore (core s) (vendorkyc s) (favorite s) l).

(** Handlers over the whole store. *)
Definition W (A : Type) : Type := Store -> result A * Store.

Definition wret {A} (a : A) : W A := fun s => (Return a, s).
Definition wraise {A} (e : exn) : W A := fun s => (Raise e, s).
Definition wbind {A B} (m : W A) (f : A -> W B) : W B :=
  fun s =>
    match m s with
    | (Return a, s') => f a s'
    | (Raise e, s') => (Raise e, s')
    end.
Definition wlift {A} (r : result A) : W A := fun s => (r, s).

(** A computation on the five collections, run inside the whole store. *)
Definition in_core {A} (m : M A) : W A :=
  fun s =>
    match m (core s) with
    | (r, db') => (r, set_core db' s)
    end.

Declare Scope wide_scope.
Delimit Scope wide_scope with wide.
Notation "x <- m ;; k" := (wbind m (fun x => k))
  (at level 100, m at next level, right associativity) : wide_scope.
Notation "m ;;; k" := (wbind m (fun _ => k))
  (at level 100, right associativity) : wide_scope.

Section WideOps.
Context {A : Type} (c : wide_collection A).

Definition wfind_one (filter : doc A -> bool) : W (option (doc A)) :=
  fun s => (Return (List.find filter (wdocs c s)), s).

Definition wfind (filter : doc A -> bool) : W (list (doc A)) :=
  fun s => (Return (List.filter filter (wdocs c s)), s).

Definition winsert_one (x : A) : W oid :=
  fun s =>
    let n := next_oid (core s) in
    let s' := wset_docs c (wdocs c s ++ [mkdoc n None x]) s in
    (Return n, set_core (bump_oid (core s')) s').

Definition wupdate_one (filter : doc A -> bool) (upd : A -> A) : W unit :=
  fun s =>
    (Return tt, wset_docs c (update_first filter upd (wdocs c s)) s).
End WideOps.

(** [[f(x) for x in xs]] where [f] may raise: the first failure ends it. *)
Fixpoint traverse {X Y} (f : X -> result Y) (xs : list X) : result (list Y) :=
  match xs with
  | [] => Return []
  | x :: xs' =>
      match f x with
      | Raise e => Raise e
      | Return y =>
          match traverse f xs' with
          | Raise e => Raise e
          | Return ys => Return (y :: ys)
          end
      end
  end.

Open Scope wide_scope.

(** *** Vendor KYC *)

(** [{"user_id": u}] on KYC records *)
Definition kyc_of (u : string) (d : doc VendorKYC.t) : bool :=
  String.eqb (VendorKYC.user_id (fields d)) u.

(** [{"status": "pending"}] *)
Definition kyc_pending (d : doc VendorKYC.t) : bool :=
  String.eqb (VendorKYC.status (fields d)) "pending".

Definition submit_kyc (payload : VendorKYC.t) (user : AuthUser.t)
  : W SimpleOK :=
  user <- wlift (require_role ["vendor"] user) ;;
  let payload_dict := VendorKYC.set_submitted (AuthUser.id user) payload in
  _ <- winsert_one db_vendorkyc payload_dict ;;
  wret (mkSimpleOK true).

Definition get_my_kyc (user : AuthUser.t) : W (list (with_id VendorKYC.t)) :=
  user <- wlift (require_role ["vendor"] user) ;;
  cursor <- wfind db_vendorkyc (kyc_of (AuthUser.id user)) ;;
  wret (list_with_id cursor).

(** *** Favorites *)

(** [{"apartment_id": a, "user_id": u}] *)
Definition favorite_of (a u : string) (d : doc Favorite.t) : bool :=
  String.eqb (Favorite.apartment_id (fields d)) a
  && String.eqb (Favorite.user_id (fields d)) u.

(** [{"user_id": u}] on favorites *)
Definition favorites_of (u : string) (d : doc Favorite.t) : bool :=
  String.eqb (Favorite.user_id (fields d)) u.

(** [{"_id": {"$in": ids}}] *)
Definition id_in {A} (ids : list oid) (d : doc A) : bool :=
  existsb (N.eqb (_id d)) ids.

Definition save_favorite (apt_id : string) (user : AuthUser.t) : W SimpleOK :=
  user <- wlift (require_role ["user"; "vendor"] user) ;;
  existing <- wfind_one db_favorite (favorite_of apt_id (AuthUser.id user)) ;;
  match existing with
  | None =>
      _ <- winsert_one db_favorite (Favorite.mk apt_id (AuthUser.id user)) ;;
      wret (mkSimpleOK true)
  | Some _ => wret (mkSimpleOK true)
  end.

Definition my_favorites (user : AuthUser.t) : W (list (with_id Apartment.t)) :=
  user <- wlift (require_role ["user"; "vendor"] user) ;;
  cursor <- wfind db_favorite (favorites_of (AuthUser.id user)) ;;
  let favs := list_with_id cursor in
  apt_ids <- wlift (traverse
                      (fun f => ObjectId (Favorite.apartment_id (pub_fields f)))
                      favs) ;;
  match apt_ids with
  | [] => wret []
  | _ =>
      found <- in_core (find db_apartment (id_in apt_ids)) ;;
      wret (list_with_id found)
  end.

(** *** Booking interests *)

(** [{"user_id": u}] and [{"vendor_id": u}] on bookings *)
Definition booked_by (u : string) (d : doc BookingInterest.t) : bool :=
  String.eqb (BookingInterest.user_id (fields d)) u.
Definition booked_with (u : string) (d : doc BookingInterest.t) : bool :=
  String.eqb (BookingInterest.vendor_id (fields d)) u.

(** The listing's [vendor_id] is stored as a string, so it is copied as it
    is. *)
Definition create_booking (payload : BookingCreate.t) (user : AuthUser.t)
  : W SimpleOK :=
  user <- wlift (require_role ["user"] user) ;;
  o <- wlift (ObjectId (BookingCreate.apartment_id payload)) ;;
  apt <- in_core (find_one db_apartment (by_id o)) ;;
  match apt with
  | None => wraise (HTTPException 404 "Apartment not found")
  | Some apt =>
      let entry :=
        BookingInterest.mk (BookingCreate.apartment_id payload)
          (AuthUser.id user) (Apartment.vendor_id (fields apt))
          (BookingCreate.message payload) "pending" in
      _ <- winsert_one db_bookinginterest entry ;;
      wret (mkSimpleOK true)
  end.

Definition my_bookings (user : AuthUser.t)
  : W (list (with_id BookingInterest.t)) :=
  user <- wlift (require_role ["user"; "vendor"] user) ;;
  let filt :=
    if String.eqb (AuthUser.role user) "user"
    then booked_by (AuthUser.id user)
    else booked_with (AuthUser.id user) in
  cursor <- wfind db_bookinginterest filt ;;
  wret (list_with_id (sort (-1) cursor)).

(** *** Admin *)

Record Overview : Type := mkOverview {
  users : nat;
  vendors : nat;
  apartments : nat;
  active_listings : nat;
  bookings : nat;
  pending_kyc : nat
}.

(** [count_documents(filter)] *)
Definition count_documents {A} (filter : doc A -> bool) (l : list (doc A))
  : nat :=
  List.length (List.filter filter l).

(** The six counts of [admin_overview], each a [count_documents]. *)
Definition overview (s : Store) : Overview :=
  mkOverview
    (count_documents (fun _ => true) (user (core s)))
    (count_documents (fun d => String.eqb (User.role (fields d)) "vendor")
       (user (core s)))
    (count_documents (fun _ => true) (apartment (core s)))
    (count_documents (fun d => Apartment.is_available (fields d))
       (apartment (core s)))
    (count_documents (fun _ => true) (bookinginterest s))
    (count_documents kyc_pending (vendorkyc s)).

Definition admin_overview (user : AuthUser.t) : W Overview :=
  user <- wlift (require_role ["admin"] user) ;;
  (fun s => (Return (overview s), s)).

Definition admin_list_kyc (user : AuthUser.t)
  : W (list (with_id VendorKYC.t)) :=
  user <- wlift (require_role ["admin"] user) ;;
  cursor <- wfind db_vendorkyc kyc_pending ;;
  wret (list_with_id cursor).

Definition admin_kyc_decision (payload : AdminAction.t) (user : AuthUser.t)
  : W SimpleOK :=
  user <- wlift (require_role ["admin"] user) ;;
  let status := if AdminAction.approve payload then "approved" else "rejected" in
  o <- wlift (ObjectId (AdminAction.id payload)) ;;
  wupdate_one db_vendorkyc (by_id o)
              (VendorKYC.set_decision status (AdminAction.notes payload)) ;;;
  wret (mkSimpleOK true).

Definition admin_listings (user : AuthUser.t)
  : W (list (with_id Apartment.t)) :=
  user <- wlift (require_role ["admin"] user) ;;
  found <- in_core (find db_apartment (fun _ => true)) ;;
  wret (list_with_id found).

Close Scope wide_scope.

(** One request served on the whole store: a request of the handlers on
    the five collections, or one of the four writers above. *)
Inductive wide_step (s : Store) : Store -> Prop :=
| wide_core db' : step (core s) db' -> wide_step s (set_core db' s)
| wide_submit_kyc payload user :
    wide_step s (snd (submit_kyc payload user s))
| wide_save_favorite apt_id user :
    wide_step s (snd (save_favorite apt_id user s))
| wide_create_booking payload user :
    wide_step s (snd (create_booking payload user s))
| wide_admin_kyc_decision payload user :
    wide_step s (snd (admin_kyc_decision payload user s)).

Inductive wide_reachable : Store -> Prop :=
| wide_empty : wide_reachable empty_store
| wide_next s s' : wide_reachable s -> wide_step s s' -> wide_reachable s'.

(** At most one favorite per user and apartment id. *)
Definition one_favorite_per_pair (s : Store) : Prop :=
  forall apt_id u,
    (count_documents (favorite_of apt_id u) (favorite s) <= 1)%nat.

(** Every KYC record is pending, approved or rejected. *)
Definition kyc_status_known (s : Store) : Prop :=
  Forall (fun d => VendorKYC.status (fields d) = "pending"
                   \/ VendorKYC.status (fields d) = "approved"
                   \/ VendorKYC.status (fields d) = "rejected")
         (vendorkyc s).

Definition kyc_claiming_approval : VendorKYC.t :=
  VendorKYC.mk "someone-else" (Some "Rooms Ltd") None None None None
    "approved" (Some "self-approved").

Definition store_one_flat : Store := mkStore db_one_flat [] [] [].

(** The booking [create_booking] stores for a listing that was found. *)
Definition booking_for (payload : BookingCreate.t) (principal : AuthUser.t)
           (apt : doc Apartment.t) : BookingInterest.t :=
  BookingInterest.mk (BookingCreate.apartment_id payload)
    (AuthUser.id principal) (Apartment.vendor_id (fields apt))
    (BookingCreate.message payload) "pending".

(** The store [create_booking] leaves when the booking goes through. *)
Definition booked (entry : BookingInterest.t) (s : Store) : Store :=
  mkStore (bump_oid (core s)) (vendorkyc s) (favorite s)
    (bookinginterest s ++ [mkdoc (next_oid (core s)) None entry]).

Definition book_flat : BookingCreate.t :=
  BookingCreate.mk "000000000000000000000007" (Some "Is it free in May?").

(** The principal is the booking's user acting as user, or its vendor
    acting as vendor. *)
Definition party (principal : AuthUser.t) (b : BookingInterest.t) : Prop :=
  (AuthUser.role principal = "user"
   /\ BookingInterest.user_id b = AuthUser.id principal)
  \/ (AuthUser.role principal = "vendor"
      /\ BookingInterest.vendor_id b = AuthUser.id principal).

(** The status an admin decision sets. *)
Definition decided (approve : bool) : string :=
  if approve then "approved" else "rejected".

Definition approve_first : AdminAction.t :=
  AdminAction.mk "000000000000000000000001" true (Some "documents checked").

(** ** Strings that are surely no identifier *)

(** ASCII white space: tab, line feed, vertical tab, form feed, carriage
    return and space.  The [bson] package reads a 24-character string with
    [bytes.fromhex], which lets white space pass; [ObjectId] above does
    not, so where a statement below needs the package to refuse a string,
    it asks for one that is refused whatever is done with white space. *)
Definition is_space (c : ascii) : bool :=
  let n := N_of_ascii c in
  (((9 <=? n) && (n <=? 13)) || (n =? 32))%N.

Definition is_hex (c : ascii) : bool :=
  match hex_val c with
  | Some _ => true
  | None => false
  end.

(** Some character is neither a hexadecimal digit nor white space. *)
Fixpoint has_stray (s : string) : bool :=
  match s with
  | EmptyString => false
  | String c s' => (negb (is_hex c) && negb (is_space c)) || has_stray s'
  end.

(** The string is not 24 characters long, or has a stray character. *)
Definition never_an_id (s : string) : bool :=
  negb (String.length s =? 24)%nat || has_stray s.

(** A store built by the handlers in which a thread has an identifier with
    a letter among its digits: nine listings, then the thread. *)
Fixpoint listed (n : nat) (db : DB) : DB :=
  match n with
  | O => db
  | S k => snd (create_apartment (listing "Room") bob (listed k db))
  end.

Definition db_thread_a : DB :=
  snd (create_thread (AuthUser.id bob) alice (listed 9 empty_db)).

Definition thread_a : doc MessageThread.t :=
  mkdoc 10%N None
    (MessageThread.mk (AuthUser.id alice) (AuthUser.id bob) None None).
(* ================================================================== *)
(** * Properties *)

Example ObjectId_malformed : ObjectId "not-an-id" = Raise (InvalidId "not-an-id").
Proof. reflexivity. Qed.

Example ObjectId_wellformed :
  ObjectId "00000000000000000000002A" = Return 42%N
  /\ str 42%N = "00000000000000000000002a".
Proof. split; reflexivity. Qed.

Ltac unfold_handler :=
  unfold bind, lift, ret, raise, find_one, find, update_one, gets, modify,
    insert_one.

Lemma eqb_false_of_neq (a b : string) : a <> b -> String.eqb a b = false.
Proof. intro H. apply String.eqb_neq. exact H. Qed.

Lemma contains_user_vendor (r : string) :
  contains r ["user"; "vendor"] = String.eqb r "user" || String.eqb r "vendor".
Proof. unfold contains. simpl. rewrite orb_false_r. reflexivity. Qed.

(** ** Messaging: only the two participants read or post *)

Lemma send_message_guard now payload user db o thread :
  ObjectId (SendMessage.thread_id payload) = Return o ->
  List.find (by_id o) (messagethread db) = Some thread ->
  (participant user (fields thread) ->
   Succeeds (fst (send_message now payload user db)))
  /\ (~ participant user (fields thread) ->
      Forbidden (fst (send_message now payload user db))
      /\ snd (send_message now payload user db) = db).
Proof.
  intros Ho Hfind. unfold send_message, require_role, participant.
  rewrite contains_user_vendor. unfold_handler. simpl.
  destruct (String.eqb_spec (AuthUser.role user) "user") as [Hu | Hu];
    simpl.
  - rewrite Ho. simpl. rewrite Hfind. rewrite Hu. simpl.
    destruct (String.eqb_spec (MessageThread.student_id (fields thread))
                (AuthUser.id user)) as [Hs | Hs]; simpl.
    + split.
      * intros _. eexists. reflexivity.
      * intros Hn. exfalso. apply Hn. left. split; [reflexivity | congruence].
    + split.
      * intros [[_ Hp] | [Hp _]]; [congruence | discriminate].
      * intros _. split; [eexists; reflexivity | reflexivity].
  - destruct (String.eqb_spec (AuthUser.role user) "vendor") as [Hv | Hv];
      simpl.
    + rewrite Ho. simpl. rewrite Hfind.
      rewrite (eqb_false_of_neq _ _ Hu). rewrite Hv. simpl.
      destruct (String.eqb_spec (MessageThread.vendor_id (fields thread))
                  (AuthUser.id user)) as [Hs | Hs]; simpl.
      * split.
        -- intros _. eexists. reflexivity.
        -- intros Hn. exfalso. apply Hn. right.
           split; [reflexivity | congruence].
      * split.
        -- intros [[Hp _] | [_ Hp]]; [congruence | congruence].
        -- intros _. split; [eexists; reflexivity | reflexivity].
    + split.
      * intros [[Hp _] | [Hp _]]; contradiction.
      * intros _. split; [eexists; reflexivity | reflexivity].
Qed.

Lemma thread_messages_guard thread_id user db o thread :
  ObjectId thread_id = Return o ->
  List.find (by_id o) (messagethread db) = Some thread ->
  (participant user (fields thread) ->
   Succeeds (fst (thread_messages thread_id user db)))
  /\ (~ participant user (fields thread) ->
      Forbidden (fst (thread_messages thread_id user db))
      /\ snd (thread_messages thread_id user db) = db).
Proof.
  intros Ho Hfind. unfold thread_messages, require_role, participant.
  rewrite contains_user_vendor. unfold_handler. simpl.
  destruct (String.eqb_spec (AuthUser.role user) "user") as [Hu | Hu];
    simpl.
  - rewrite Ho. simpl. rewrite Hfind. rewrite Hu. simpl.
    destruct (String.eqb_spec (MessageThread.student_id (fields thread))
                (AuthUser.id user)) as [Hs | Hs]; simpl.
    + split.
      * intros _. eexists. reflexivity.
      * intros Hn. exfalso. apply Hn. left. split; [reflexivity | congruence].
    + split.
      * intros [[_ Hp] | [Hp _]]; [congruence | discriminate].
      * intros _. split; [eexists; reflexivity | reflexivity].
  - destruct (String.eqb_spec (AuthUser.role user) "vendor") as [Hv | Hv];
      simpl.
    + rewrite Ho. simpl. rewrite Hfind.
      rewrite (eqb_false_of_neq _ _ Hu). rewrite Hv. simpl.
      destruct (String.eqb_spec (MessageThread.vendor_id (fields thread))
                  (AuthUser.id user)) as [Hs | Hs]; simpl.
      * split.
        -- intros _. eexists. reflexivity.
        -- intros Hn. exfalso. apply Hn. right.
           split; [reflexivity | congruence].
      * split.
        -- intros [[Hp _] | [_ Hp]]; [congruence | congruence].
        -- intros _. split; [eexists; reflexivity | reflexivity].
    + split.
      * intros [[Hp _] | [Hp _]]; contradiction.
      * intros _. split; [eexists; reflexivity | reflexivity].
Qed.

(** C1. For a thread of the store and any principal, [send_message] and
    [thread_messages] are Forbidden (status 403) unless the principal is
    the thread's student acting with role user or the thread's vendor
    acting with role vendor; every other role or id combination is
    rejected, the store is left as it was, and in particular a principal
    whose id is neither the student's nor the vendor's is always Forbidden.
    The two participants themselves are let through. *)
Theorem messaging_authorization now payload user db o thread :
  ObjectId (SendMessage.thread_id payload) = Return o ->
  List.find (by_id o) (messagethread db) = Some thread ->
  (~ participant user (fields thread) ->
   (Forbidden (fst (send_message now payload user db))
    /\ snd (send_message now payload user db) = db)
   /\ (Forbidden
         (fst (thread_messages (SendMessage.thread_id payload) user db))
       /\ snd (thread_messages (SendMessage.thread_id payload) user db) = db))
  /\ (AuthUser.id user <> MessageThread.student_id (fields thread) ->
      AuthUser.id user <> MessageThread.vendor_id (fields thread) ->
      Forbidden (fst (send_message now payload user db))
      /\ Forbidden
           (fst (thread_messages (SendMessage.thread_id payload) user db)))
  /\ (participant user (fields thread) ->
      Succeeds (fst (send_message now payload user db))
      /\ Succeeds
           (fst (thread_messages (SendMessage.thread_id payload) user db))).
Proof.
  intros Ho Hfind.
  destruct (send_message_guard now payload user db o thread Ho Hfind)
    as [Hs_ok Hs_no].
  destruct (thread_messages_guard _ user db o thread Ho Hfind)
    as [Hr_ok Hr_no].
  split; [| split].
  - intros Hn. split; [apply Hs_no | apply Hr_no]; exact Hn.
  - intros Hs Hv.
    assert (Hn : ~ participant user (fields thread)).
    { intros [[_ H] | [_ H]]; contradiction. }
    split; [apply Hs_no | apply Hr_no]; exact Hn.
  - intros Hp. split; [apply Hs_ok | apply Hr_ok]; exact Hp.
Qed.

Lemma messaging_authorization_witness :
  Forbidden
    (fst (send_message 1700000000
            (SendMessage.mk "000000000000000000000001" "hi") mallory
            db_one_thread))
  /\ Forbidden
       (fst (thread_messages "000000000000000000000001" mallory
               db_one_thread)).
Proof.
  refine (proj1 (proj2
    (messaging_authorization 1700000000
       (SendMessage.mk "000000000000000000000001" "hi") mallory
       db_one_thread 1%N thread_ab eq_refl eq_refl)) _ _);
    simpl; discriminate.
Defined.

(** ** Lookup by id *)

Lemma get_apartment_invalid_id apt_id e db :
  ObjectId apt_id = Raise e -> get_apartment apt_id db = (Raise e, db).
Proof.
  intros H. unfold get_apartment. unfold_handler. rewrite H. reflexivity.
Qed.

(** C3. On an id string that is not a well-formed identifier the lookup
    does not end in NotFound or BadRequest: [ObjectId] raises [InvalidId]
    and [get_apartment] lets it escape. *)
Theorem get_apartment_malformed_id_escapes db :
  get_apartment "not-an-id" db = (Raise (InvalidId "not-an-id"), db)
  /\ ~ NotFound (fst (get_apartment "not-an-id" db))
  /\ ~ BadRequest (fst (get_apartment "not-an-id" db)).
Proof.
  assert (H : get_apartment "not-an-id" db
              = (Raise (InvalidId "not-an-id"), db)).
  { apply get_apartment_invalid_id. reflexivity. }
  rewrite H. simpl. split; [reflexivity |].
  split; intros [detail Hd]; discriminate.
Qed.

(** ** Reviews *)

Lemma add_review_reviews apt_id payload user db :
  review (snd (add_review apt_id payload user db)) = review db
  \/ review (snd (add_review apt_id payload user db))
     = review db ++ [stored_review payload user db].
Proof.
  unfold add_review, require_role.
  destruct (contains (AuthUser.role user) ["user"; "vendor"]);
    unfold_handler; simpl; [| left; reflexivity].
  destruct (String.eqb (Review.apartment_id payload) apt_id); simpl;
    [| left; reflexivity].
  unfold aggregate_rating, gets. simpl.
  destruct (ratings_of apt_id _); simpl; [right; reflexivity |].
  destruct (ObjectId apt_id); simpl; right; reflexivity.
Qed.

Lemma add_review_success_stores apt_id payload user db :
  Succeeds (fst (add_review apt_id payload user db)) ->
  review (snd (add_review apt_id payload user db))
  = review db ++ [stored_review payload user db].
Proof.
  unfold add_review, require_role.
  destruct (contains (AuthUser.role user) ["user"; "vendor"]);
    unfold_handler; simpl; [| intros [a H]; discriminate].
  destruct (String.eqb (Review.apartment_id payload) apt_id); simpl;
    [| intros [a H]; discriminate].
  unfold aggregate_rating, gets. simpl.
  destruct (ratings_of apt_id _); simpl; [reflexivity |].
  destruct (ObjectId apt_id); simpl; reflexivity.
Qed.

(** C10. Whatever [user_id] the payload carries, the only review an
    [add_review] call adds to the store has the principal's id as its
    [user_id]; a call that succeeds adds exactly that review. *)
Theorem add_review_user_id_is_principal apt_id payload user db :
  (forall d, In d (review (snd (add_review apt_id payload user db))) ->
             In d (review db)
             \/ (d = stored_review payload user db
                 /\ Review.user_id (fields d) = AuthUser.id user))
  /\ (forall s, fst (add_review apt_id payload user db) = Return s ->
        review (snd (add_review apt_id payload user db))
        = review db ++ [stored_review payload user db]
        /\ Review.user_id (fields (stored_review payload user db))
           = AuthUser.id user).
Proof.
  split.
  - intros d Hin.
    destruct (add_review_reviews apt_id payload user db) as [H | H];
      rewrite H in Hin.
    + left. exact Hin.
    + apply in_app_or in Hin. destruct Hin as [Hin | [Hin | []]].
      * left. exact Hin.
      * right. subst d. split; reflexivity.
  - intros s Hs. split; [| reflexivity].
    apply add_review_success_stores. exists s. exact Hs.
Qed.

(** A payload that names someone else is stored under the caller's id. *)
Lemma add_review_user_id_is_principal_witness :
  Review.user_id (review_of "000000000000000000000007" 5) = "someone-else"
  /\ review
       (snd (add_review "000000000000000000000007"
               (review_of "000000000000000000000007" 5) alice db_one_flat))
     = [mkdoc 8%N None
          (Review.mk "000000000000000000000007" (AuthUser.id alice) 5 None)].
Proof.
  split; [reflexivity |].
  exact (proj1 (proj2 (add_review_user_id_is_principal
                         "000000000000000000000007"
                         (review_of "000000000000000000000007" 5) alice
                         db_one_flat)
                 (mkSimpleOK true) eq_refl)).
Defined.

(** ** Registration and login *)

Lemma find_app_none {A} (f : A -> bool) (l l' : list A) :
  List.find f l = None -> List.find f (l ++ l') = List.find f l'.
Proof.
  induction l as [| x l IH]; simpl; [reflexivity |].
  destruct (f x); [discriminate | exact IH].
Qed.

Lemma find_none_iff {A} (f : A -> bool) (l : list A) :
  List.find f l = None <-> (forall x, In x l -> f x = false).
Proof.
  split.
  - apply List.find_none.
  - induction l as [| x l IH]; simpl; intros H; [reflexivity |].
    rewrite (H x (or_introl eq_refl)). apply IH.
    intros y Hy. apply H. right. exact Hy.
Qed.

Section AuthFacts.
Variable JWT_SECRET : string.
Context {pwd_context : CryptContext}.

Lemma register_duplicate now data db u :
  List.find (by_email (RegisterRequest.email data)) (user db) = Some u ->
  register JWT_SECRET now data db
  = (Raise (HTTPException 400 "Email already registered"), db).
Proof.
  intros H. unfold register. unfold_handler. simpl. rewrite H. reflexivity.
Qed.

Lemma register_fresh now data db :
  List.find (by_email (RegisterRequest.email data)) (user db) = None ->
  register JWT_SECRET now data db
  = (Return (create_access_token JWT_SECRET now
               (Claims.mk (str (next_oid db)) (RegisterRequest.role data)
                          (RegisterRequest.email data)
                          (RegisterRequest.full_name data))
               None),
     bump_oid (set_docs db_user
                 (user db ++ [mkdoc (next_oid db) None (registered_user data)])
                 db)).
Proof.
  intros H. unfold register. unfold_handler. simpl. rewrite H. reflexivity.
Qed.

Lemma login_registered now data db u :
  List.find (by_email (LoginRequest.email data)) (user db) = Some u ->
  verify (LoginRequest.password data) (User.password_hash (fields u)) = true ->
  login JWT_SECRET now data db
  = (Return (create_access_token JWT_SECRET now
               (Claims.mk (str (_id u)) (User.role (fields u))
                          (User.email (fields u)) (User.full_name (fields u)))
               None),
     db).
Proof.
  intros Hf Hv. unfold login. unfold_handler. simpl. rewrite Hf, Hv.
  reflexivity.
Qed.
Lemma fresh_email_find (email : string) (users : list (doc User.t)) :
  (forall u, In u users -> User.email (fields u) <> email) ->
  List.find (by_email email) users = None.
Proof.
  intros H. apply find_none_iff. intros u Hu. unfold by_email.
  apply String.eqb_neq. apply H. exact Hu.
Qed.

Lemma taken_email_find (email : string) (users : list (doc User.t)) u :
  In u users -> User.email (fields u) = email ->
  exists u', List.find (by_email email) users = Some u'.
Proof.
  intros Hin He.
  destruct (List.find (by_email email) users) as [u' |] eqn:Hf.
  - exists u'. reflexivity.
  - exfalso. pose proof (List.find_none _ _ Hf u Hin) as Hn.
    unfold by_email in Hn. rewrite He, String.eqb_refl in Hn. discriminate.
Qed.

Lemma find_registered (data : RegisterRequest.t) db :
  List.find (by_email (RegisterRequest.email data)) (user db) = None ->
  List.find (by_email (RegisterRequest.email data))
    (user db ++ [mkdoc (next_oid db) None (registered_user data)])
  = Some (mkdoc (next_oid db) None (registered_user data)).
Proof.
  intros H. rewrite (find_app_none _ _ _ H). simpl. unfold by_email. simpl.
  rewrite String.eqb_refl. reflexivity.
Qed.

Lemma token_decodes now now' data delta :
  (now' < now + minutes ACCESS_TOKEN_EXPIRE_MINUTES)%Z ->
  delta = None ->
  jwt_decode JWT_SECRET now' (create_access_token JWT_SECRET now data delta)
  = Some data.
Proof.
  intros Hlt ->. unfold jwt_decode, create_access_token. simpl.
  rewrite String.eqb_refl. simpl.
  apply Z.ltb_lt in Hlt. rewrite Hlt. reflexivity.
Qed.

(** C4. A registration whose email is that of a user already in the store
    fails with the duplicate-email error (the handler's status 400,
    "Email already registered") and leaves the store as it was.  With a
    fresh email it succeeds and inserts the user; from then on a login with
    the same email and password succeeds, and a second registration with
    that email fails with the duplicate-email error. *)
Theorem register_conflict_then_login now data db :
  (forall u, In u (user db) ->
     User.email (fields u) = RegisterRequest.email data ->
     register JWT_SECRET now data db
     = (Raise (HTTPException 400 "Email already registered"), db))
  /\ ((forall u, In u (user db) ->
         User.email (fields u) <> RegisterRequest.email data) ->
      exists token db',
        register JWT_SECRET now data db = (Return token, db')
        /\ user db'
           = user db ++ [mkdoc (next_oid db) None (registered_user data)]
        /\ (forall now', exists token',
              login JWT_SECRET now'
                (LoginRequest.mk (RegisterRequest.email data)
                                 (RegisterRequest.password data)) db'
              = (Return token', db'))
        /\ (forall now' data',
              RegisterRequest.email data' = RegisterRequest.email data ->
              register JWT_SECRET now' data' db'
              = (Raise (HTTPException 400 "Email already registered"), db'))).
Proof.
  split.
  - intros u Hin He.
    destruct (taken_email_find _ _ u Hin He) as [u' Hf].
    apply (register_duplicate now data db u' Hf).
  - intros Hfresh. apply fresh_email_find in Hfresh.
    eexists. eexists. split; [apply register_fresh; exact Hfresh |].
    split; [reflexivity |]. split.
    + intros now'. eexists. apply login_registered with
        (u := mkdoc (next_oid db) None (registered_user data)).
      * simpl. apply find_registered. exact Hfresh.
      * simpl. apply verify_hash.
    + intros now' data' He.
      apply register_duplicate with
        (u := mkdoc (next_oid db) None (registered_user data)).
      rewrite He. simpl. apply find_registered. exact Hfresh.
Qed.

(** C2. [register] copies the role string of the request, whatever it is,
    into the stored user and into the token: with a fresh email it
    succeeds for every role string, and until the token expires the token
    passes every [require_role] check whose list holds that string.  With
    role "admin" the token passes [require_role(["admin"])]. *)
Theorem register_role_unvalidated now data db :
  (forall u, In u (user db) ->
     User.email (fields u) <> RegisterRequest.email data) ->
  exists token db',
    register JWT_SECRET now data db = (Return token, db')
    /\ In (mkdoc (next_oid db) None (registered_user data)) (user db')
    /\ User.role (registered_user data) = RegisterRequest.role data
    /\ Claims.role (payload token) = RegisterRequest.role data
    /\ (forall required now',
          contains (RegisterRequest.role data) required = true ->
          (now' < now + minutes ACCESS_TOKEN_EXPIRE_MINUTES)%Z ->
          exists principal,
            checker JWT_SECRET required now' token = Return principal
            /\ AuthUser.role principal = RegisterRequest.role data)
    /\ (RegisterRequest.role data = "admin" ->
        forall now',
          (now' < now + minutes ACCESS_TOKEN_EXPIRE_MINUTES)%Z ->
          Succeeds (checker JWT_SECRET ["admin"] now' token)).
Proof.
  intros Hfresh. apply fresh_email_find in Hfresh.
  eexists. eexists. split; [apply register_fresh; exact Hfresh |].
  split; [simpl; apply in_or_app; right; left; reflexivity |].
  split; [reflexivity |]. split; [reflexivity |].
  assert (Hcheck : forall required now',
    contains (RegisterRequest.role data) required = true ->
    (now' < now + minutes ACCESS_TOKEN_EXPIRE_MINUTES)%Z ->
    exists principal,
      checker JWT_SECRET required now'
        (create_access_token JWT_SECRET now
           (Claims.mk (str (next_oid db)) (RegisterRequest.role data)
              (RegisterRequest.email data) (RegisterRequest.full_name data))
           None) = Return principal
      /\ AuthUser.role principal = RegisterRequest.role data).
  { intros required now' Hc Hlt. unfold checker, get_current_user.
    rewrite (token_decodes now now' _ None Hlt eq_refl).
    unfold require_role. simpl. rewrite Hc. simpl.
    eexists. split; reflexivity. }
  split; [exact Hcheck |].
  intros Hadmin now' Hlt.
  destruct (Hcheck ["admin"] now') as [principal [Hp _]].
  - rewrite Hadmin. reflexivity.
  - exact Hlt.
  - exists principal. exact Hp.
Qed.
End AuthFacts.

#[local] Existing Instance toy_context.

Lemma register_conflict_then_login_witness :
  register "devsecret" 1700000500 admin_request
    (snd (register "devsecret" 1700000000 admin_request empty_db))
  = (Raise (HTTPException 400 "Email already registered"),
     snd (register "devsecret" 1700000000 admin_request empty_db))
  /\ exists token db',
       register "devsecret" 1700000000 admin_request empty_db
       = (Return token, db')
       /\ exists token',
            login "devsecret" 1700000100
              (LoginRequest.mk "eve@example.com" "hunter2") db'
            = (Return token', db').
Proof.
  split.
  - refine (proj1 (register_conflict_then_login "devsecret" 1700000500
                     admin_request _) _ _ _).
    + simpl. left. reflexivity.
    + reflexivity.
  - destruct (proj2 (register_conflict_then_login "devsecret" 1700000000
                       admin_request empty_db))
      as [token [db' [Hr [_ [Hl _]]]]].
    + simpl. intros u [].
    + exists token, db'. split; [exact Hr |]. exact (Hl 1700000100%Z).
Defined.

Lemma register_role_unvalidated_witness :
  exists token db',
    register "devsecret" 1700000000 admin_request empty_db
    = (Return token, db')
    /\ Succeeds (checker "devsecret" ["admin"] 1700000100 token).
Proof.
  destruct (register_role_unvalidated "devsecret" 1700000000 admin_request
              empty_db) as [token [db' [Hr [_ [_ [_ [_ Hadmin]]]]]]].
  - simpl. intros u [].
  - exists token, db'. split; [exact Hr |].
    apply Hadmin; [reflexivity | reflexivity].
Defined.

(** ** Threads: creation is idempotent *)

Lemma find_some_filter_nonempty {A} (f : A -> bool) (l : list A) x :
  List.find f l = Some x -> (1 <= List.length (List.filter f l))%nat.
Proof.
  induction l as [| y l IH]; simpl; [discriminate |].
  destruct (f y); simpl; [lia | exact IH].
Qed.

Lemma find_none_filter_nil {A} (f : A -> bool) (l : list A) :
  List.find f l = None -> List.filter f l = [].
Proof.
  induction l as [| y l IH]; simpl; [reflexivity |].
  destruct (f y); [discriminate | exact IH].
Qed.

Lemma filter_length_le_find_none {A} (f : A -> bool) (l : list A) :
  List.length (List.filter f l) = O -> List.find f l = None.
Proof.
  induction l as [| y l IH]; simpl; [reflexivity |].
  destruct (f y); simpl; [discriminate | exact IH].
Qed.

Lemma by_pair_new_thread s v s' v' n :
  by_pair s' v' (mkdoc n None (MessageThread.mk s v None None)) = true ->
  s' = s /\ v' = v.
Proof.
  unfold by_pair. simpl. intros H. apply andb_true_iff in H.
  destruct H as [Hs Hv]. apply String.eqb_eq in Hs, Hv. split; congruence.
Qed.

Lemma create_thread_existing vendor_id user db e :
  AuthUser.role user = "user" ->
  List.find (by_pair (AuthUser.id user) vendor_id) (messagethread db) = Some e ->
  create_thread vendor_id user db = (Return (str (_id e)), db).
Proof.
  intros Hrole Hf. unfold create_thread, require_role. rewrite Hrole.
  unfold_handler. simpl. rewrite Hf. reflexivity.
Qed.

Lemma create_thread_new vendor_id user db :
  AuthUser.role user = "user" ->
  List.find (by_pair (AuthUser.id user) vendor_id) (messagethread db) = None ->
  create_thread vendor_id user db
  = (Return (str (next_oid db)),
     bump_oid (set_docs db_messagethread
       (messagethread db
        ++ [mkdoc (next_oid db) None
              (MessageThread.mk (AuthUser.id user) vendor_id None None)])
       db)).
Proof.
  intros Hrole Hf. unfold create_thread, require_role. rewrite Hrole.
  unfold_handler. simpl. rewrite Hf. reflexivity.
Qed.

Lemma create_thread_forbidden vendor_id user db :
  AuthUser.role user <> "user" ->
  create_thread vendor_id user db
  = (Raise (HTTPException 403 "Insufficient permissions"), db).
Proof.
  intros Hrole. unfold create_thread, require_role, contains. simpl.
  rewrite (eqb_false_of_neq _ _ Hrole). reflexivity.
Qed.

Lemma create_thread_keeps_invariant vendor_id user db :
  one_thread_per_pair db ->
  one_thread_per_pair (snd (create_thread vendor_id user db)).
Proof.
  intros Hinv.
  destruct (String.eqb_spec (AuthUser.role user) "user") as [Hrole | Hrole].
  - destruct (List.find (by_pair (AuthUser.id user) vendor_id)
                (messagethread db)) as [e |] eqn:Hf.
    + rewrite (create_thread_existing _ _ _ e Hrole Hf). exact Hinv.
    + rewrite (create_thread_new _ _ _ Hrole Hf). simpl.
      intros s v. unfold threads_of. simpl. rewrite List.filter_app.
      rewrite List.length_app. simpl.
      destruct (by_pair s v _) eqn:Hb; simpl.
      * apply by_pair_new_thread in Hb. destruct Hb as [-> ->].
        rewrite (find_none_filter_nil _ _ Hf). simpl. lia.
      * specialize (Hinv s v). unfold threads_of in Hinv. lia.
  - rewrite (create_thread_forbidden _ _ _ Hrole). exact Hinv.
Qed.

Lemma register_threads secret (ctx : CryptContext) now data db :
  messagethread (snd (register secret now data db)) = messagethread db.
Proof.
  unfold register. unfold_handler. simpl.
  destruct (List.find _ (user db)); reflexivity.
Qed.

Lemma create_apartment_threads data user db :
  messagethread (snd (create_apartment data user db)) = messagethread db.
Proof.
  unfold create_apartment. destruct (require_role ["vendor"] user);
    unfold_handler; reflexivity.
Qed.

Lemma add_review_threads apt_id payload user db :
  messagethread (snd (add_review apt_id payload user db)) = messagethread db.
Proof.
  unfold add_review. destruct (require_role ["user"; "vendor"] user);
    unfold_handler; simpl; [| reflexivity].
  destruct (String.eqb (Review.apartment_id payload) apt_id); simpl;
    [| reflexivity].
  unfold aggregate_rating, gets. simpl.
  destruct (ratings_of apt_id _); simpl; [reflexivity |].
  destruct (ObjectId apt_id); reflexivity.
Qed.

Lemma admin_toggle_listing_threads payload user db :
  messagethread (snd (admin_toggle_listing payload user db))
  = messagethread db.
Proof.
  unfold admin_toggle_listing. destruct (require_role ["admin"] user);
    unfold_handler; simpl; [| reflexivity].
  destruct (ObjectId (ListingDecision.id payload)); reflexivity.
Qed.

Lemma filter_update_first_length {A} (P f : doc A -> bool) (upd : A -> A) l :
  (forall d, P (mkdoc (_id d) (created_at d) (upd (fields d))) = P d) ->
  List.length (List.filter P (update_first f upd l))
  = List.length (List.filter P l).
Proof.
  intros HP. induction l as [| d l IH]; simpl; [reflexivity |].
  destruct (f d); simpl.
  - rewrite HP. destruct (P d); reflexivity.
  - destruct (P d); simpl; rewrite IH; reflexivity.
Qed.

Lemma send_message_threads_of now payload user db s v :
  List.length (threads_of s v (snd (send_message now payload user db)))
  = List.length (threads_of s v db).
Proof.
  unfold send_message. destruct (require_role ["user"; "vendor"] user);
    unfold_handler; simpl; [| reflexivity].
  destruct (ObjectId (SendMessage.thread_id payload)); simpl;
    [| reflexivity].
  destruct (List.find _ (messagethread db)); simpl; [| reflexivity].
  destruct (_ && _); simpl; [reflexivity |].
  destruct (_ && _); simpl; [reflexivity |].
  unfold threads_of. simpl. apply filter_update_first_length.
  intros updated. reflexivity.
Qed.

Lemma step_keeps_invariant db db' :
  step db db' -> one_thread_per_pair db -> one_thread_per_pair db'.
Proof.
  intros Hstep Hinv.
  destruct Hstep as [secret ctx now data | data who | apt_id payload who
                    | vendor_id who | now payload who | payload who].
  - intros s v. unfold threads_of. rewrite register_threads. apply Hinv.
  - intros s v. unfold threads_of. rewrite create_apartment_threads.
    apply Hinv.
  - intros s v. unfold threads_of. rewrite add_review_threads. apply Hinv.
  - apply create_thread_keeps_invariant. exact Hinv.
  - intros s v. rewrite send_message_threads_of. apply Hinv.
  - intros s v. unfold threads_of. rewrite admin_toggle_listing_threads.
    apply Hinv.
Qed.

Lemma reachable_one_thread_per_pair db :
  reachable db -> one_thread_per_pair db.
Proof.
  induction 1 as [| db db' _ IH Hstep].
  - intros s v. simpl. lia.
  - exact (step_keeps_invariant db db' Hstep IH).
Qed.

(** C7. For a principal with role user, two [create_thread] calls for the
    same vendor return the same thread id; when the pair already has a
    thread the call returns that thread's id and inserts nothing; the
    second call never inserts.  A store with at most one thread per pair
    keeps that property, so every store reached from the empty one by the
    handlers holds exactly one thread for the pair after the call. *)
Theorem create_thread_idempotent vendor_id user db :
  AuthUser.role user = "user" ->
  exists thread_id db1,
    create_thread vendor_id user db = (Return thread_id, db1)
    /\ create_thread vendor_id user db1 = (Return thread_id, db1)
    /\ (forall e,
          List.find (by_pair (AuthUser.id user) vendor_id) (messagethread db)
          = Some e ->
          thread_id = str (_id e) /\ db1 = db)
    /\ List.length (threads_of (AuthUser.id user) vendor_id db1)
       = Nat.max 1 (List.length (threads_of (AuthUser.id user) vendor_id db))
    /\ (one_thread_per_pair db -> one_thread_per_pair db1)
    /\ (reachable db ->
        reachable db1
        /\ List.length (threads_of (AuthUser.id user) vendor_id db1) = 1%nat).
Proof.
  intros Hrole.
  pose proof (create_thread_keeps_invariant vendor_id user db) as Hkeep.
  assert (Hreach : reachable db ->
                   reachable (snd (create_thread vendor_id user db))).
  { intros Hr. exact (reach_step db _ Hr (step_create_thread db _ _)). }
  destruct (List.find (by_pair (AuthUser.id user) vendor_id)
              (messagethread db)) as [e |] eqn:Hf.
  - rewrite (create_thread_existing _ _ _ e Hrole Hf) in Hkeep, Hreach.
    exists (str (_id e)), db.
    pose proof (find_some_filter_nonempty _ _ _ Hf) as Hlen.
    split; [apply create_thread_existing; assumption |].
    split; [apply create_thread_existing; assumption |].
    split; [intros e' He'; inversion He'; subst; split; reflexivity |].
    split; [unfold threads_of; lia |].
    split; [exact Hkeep |].
    intros Hr. split; [exact Hr |].
    pose proof (reachable_one_thread_per_pair db Hr (AuthUser.id user)
                  vendor_id) as Hle.
    unfold threads_of in *. lia.
  - rewrite (create_thread_new _ _ _ Hrole Hf) in Hkeep, Hreach.
    simpl in Hkeep, Hreach.
    eexists. eexists.
    split; [apply create_thread_new; assumption |].
    assert (Hlen1 : List.length
              (List.filter (by_pair (AuthUser.id user) vendor_id)
                 (messagethread db
                  ++ [mkdoc (next_oid db) None
                        (MessageThread.mk (AuthUser.id user) vendor_id
                           None None)])) = 1%nat).
    { rewrite List.filter_app, (find_none_filter_nil _ _ Hf). simpl.
      unfold by_pair. simpl. rewrite !String.eqb_refl. reflexivity. }
    split.
    { apply (create_thread_existing vendor_id user _
               (mkdoc (next_oid db) None
                  (MessageThread.mk (AuthUser.id user) vendor_id None None))
               Hrole).
      simpl. rewrite (find_app_none _ _ _ Hf). simpl. unfold by_pair. simpl.
      rewrite !String.eqb_refl. reflexivity. }
    split; [intros e He; discriminate |].
    split.
    { unfold threads_of at 1. simpl. rewrite Hlen1.
      unfold threads_of. rewrite (find_none_filter_nil _ _ Hf). reflexivity. }
    split; [exact Hkeep |].
    intros Hr. split; [exact (Hreach Hr) |].
    unfold threads_of. simpl. exact Hlen1.
Qed.

Lemma create_thread_idempotent_witness :
  exists thread_id db1,
    create_thread (AuthUser.id bob) alice empty_db = (Return thread_id, db1)
    /\ create_thread (AuthUser.id bob) alice db1 = (Return thread_id, db1).
Proof.
  destruct (create_thread_idempotent (AuthUser.id bob) alice empty_db eq_refl)
    as [thread_id [db1 [H1 [H2 _]]]].
  exists thread_id, db1. split; assumption.
Defined.

(** ** Reviews: the rating aggregate *)

Example mean_of_5_and_3 : mean [5; 3]%Z = 4%float.
Proof. reflexivity. Qed.

(** The quotient is rounded: 13/3 is stored as the double nearest to it,
    which prints as 4.333333333333333. *)
Example mean_is_rounded :
  mean [5; 4; 4]%Z = 0x1.1555555555555p+2%float.
Proof. reflexivity. Qed.

Lemma find_update_first {A} (o : oid) (upd : A -> A) (l : list (doc A)) d :
  List.find (by_id o) l = Some d ->
  List.find (by_id o) (update_first (by_id o) upd l)
  = Some (mkdoc (_id d) (created_at d) (upd (fields d))).
Proof.
  induction l as [| e l IH]; simpl; [discriminate |].
  destruct (by_id o e) eqn:He; simpl.
  - intros H. inversion H; subst e. unfold by_id at 1. simpl.
    unfold by_id in He. rewrite He. reflexivity.
  - rewrite He. exact IH.
Qed.

Lemma ratings_of_app apt_id l l' :
  ratings_of apt_id (l ++ l') = ratings_of apt_id l ++ ratings_of apt_id l'.
Proof.
  unfold ratings_of. rewrite List.filter_app, List.map_app. reflexivity.
Qed.

Lemma ratings_of_stored apt_id payload user db :
  Review.apartment_id payload = apt_id ->
  ratings_of apt_id (review db ++ [stored_review payload user db])
  = ratings_of apt_id (review db) ++ [Review.rating payload].
Proof.
  intros He. rewrite ratings_of_app. f_equal.
  unfold ratings_of, by_apartment. simpl. rewrite He, String.eqb_refl.
  reflexivity.
Qed.


Lemma add_review_goes_through apt_id payload user db o :
  contains (AuthUser.role user) ["user"; "vendor"] = true ->
  Review.apartment_id payload = apt_id ->
  ObjectId apt_id = Return o ->
  add_review apt_id payload user db
  = (Return (mkSimpleOK true), reviewed apt_id payload user o db).
Proof.
  intros Hrole Hid Ho. subst apt_id.
  unfold add_review, require_role. rewrite Hrole.
  unfold_handler. simpl. rewrite String.eqb_refl. simpl.
  unfold aggregate_rating, gets. simpl.
  change (mkdoc (next_oid db) None
            (Review.set_user_id (AuthUser.id user) payload))
    with (stored_review payload user db).
  rewrite (ratings_of_stored _ payload user db eq_refl).
  destruct (ratings_of (Review.apartment_id payload) (review db)
            ++ [Review.rating payload]) as [| z rs] eqn:Hrs.
  - destruct (ratings_of (Review.apartment_id payload) (review db));
      discriminate.
  - rewrite Ho. simpl. unfold reviewed. rewrite Hrs. reflexivity.
Qed.







(** ** Failures and the store *)

Lemma ObjectId_raises s e : ObjectId s = Raise e -> e = InvalidId s.
Proof.
  unfold ObjectId. destruct (String.length s =? 24)%nat.
  - destruct (from_hex s 0%N); intros H; inversion H; reflexivity.
  - intros H; inversion H; reflexivity.
Qed.

Lemma add_review_invalid_id apt_id payload user db :
  contains (AuthUser.role user) ["user"; "vendor"] = true ->
  Review.apartment_id payload = apt_id ->
  ObjectId apt_id = Raise (InvalidId apt_id) ->
  add_review apt_id payload user db
  = (Raise (InvalidId apt_id),
     bump_oid (set_docs db_review
                 (review db ++ [stored_review payload user db]) db)).
Proof.
  intros Hrole Hid Ho. subst apt_id.
  unfold add_review, require_role. rewrite Hrole.
  unfold_handler. simpl. rewrite String.eqb_refl. simpl.
  unfold aggregate_rating, gets. simpl.
  change (mkdoc (next_oid db) None
            (Review.set_user_id (AuthUser.id user) payload))
    with (stored_review payload user db).
  rewrite (ratings_of_stored _ payload user db eq_refl).
  destruct (ratings_of (Review.apartment_id payload) (review db)
            ++ [Review.rating payload]) as [| z rs] eqn:Hrs.
  - destruct (ratings_of (Review.apartment_id payload) (review db));
      discriminate.
  - rewrite Ho. reflexivity.
Qed.

(** A check that fails in [add_review] or [send_message] (an
    [HTTPException]) leaves the store as it was. *)
Lemma add_review_check_fails apt_id payload user db code detail :
  fst (add_review apt_id payload user db) = Raise (HTTPException code detail) ->
  snd (add_review apt_id payload user db) = db.
Proof.
  unfold add_review, require_role.
  destruct (contains (AuthUser.role user) ["user"; "vendor"]);
    unfold_handler; simpl; [| reflexivity].
  destruct (String.eqb (Review.apartment_id payload) apt_id); simpl;
    [| reflexivity].
  unfold aggregate_rating, gets. simpl.
  destruct (ratings_of apt_id _); simpl; [discriminate |].
  destruct (ObjectId apt_id) eqn:Ho; simpl; [discriminate |].
  apply ObjectId_raises in Ho. subst e. discriminate.
Qed.

Lemma send_message_check_fails now payload user db e :
  fst (send_message now payload user db) = Raise e ->
  snd (send_message now payload user db) = db.
Proof.
  unfold send_message. destruct (require_role ["user"; "vendor"] user);
    unfold_handler; simpl; [| reflexivity].
  destruct (ObjectId (SendMessage.thread_id payload)); simpl;
    [| reflexivity].
  destruct (List.find _ (messagethread db)); simpl; [| reflexivity].
  destruct (_ && _); simpl; [reflexivity |].
  destruct (_ && _); simpl; [reflexivity |].
  discriminate.
Qed.

(** C8. A failing [add_review] can leave a write behind: with a malformed
    apartment id that the payload repeats, the review is inserted first and
    only then does [ObjectId] raise, so the call fails and the review
    collection has grown. *)
Theorem add_review_fails_after_insert db :
  let call := add_review "not-an-id" (review_of "not-an-id" 5) alice db in
  fst call = Raise (InvalidId "not-an-id")
  /\ review (snd call)
     = review db ++ [stored_review (review_of "not-an-id" 5) alice db]
  /\ List.length (review (snd call)) = S (List.length (review db))
  /\ snd call <> db.
Proof.
  cbv zeta.
  rewrite (add_review_invalid_id "not-an-id" (review_of "not-an-id" 5) alice db
             eq_refl eq_refl eq_refl).
  cbn [fst snd]. split; [reflexivity |]. split; [reflexivity |].
  assert (Hlen : List.length
            (review db ++ [stored_review (review_of "not-an-id" 5) alice db])
          = S (List.length (review db))).
  { rewrite List.length_app. simpl. lia. }
  split; [exact Hlen |].
  intros Heq. apply (f_equal (fun d => List.length (review d))) in Heq.
  simpl in Heq. rewrite Hlen in Heq. lia.
Qed.

(** ** Order of the results *)

Section SortFacts.
Context {A : Type}.
Implicit Types (d e : doc A) (l : list (doc A)).

Lemma key_le_total a b : key_le a b = false -> key_le b a = true.
Proof.
  destruct a as [x |], b as [y |]; simpl; try reflexivity; try discriminate.
  intros H. apply Z.leb_gt in H. apply Z.leb_le. lia.
Qed.

Lemma before_total direction d e :
  before direction d e = false -> before direction e d = true.
Proof.
  unfold before. destruct (direction =? 1)%Z; apply key_le_total.
Qed.

Lemma insert_sorted_perm direction d l :
  Permutation (insert_sorted direction d l) (d :: l).
Proof.
  induction l as [| e l IH]; simpl; [apply Permutation_refl |].
  destruct (before direction d e); [apply Permutation_refl |].
  eapply Permutation_trans; [apply perm_skip; exact IH | apply perm_swap].
Qed.

Lemma sort_perm direction l : Permutation (sort direction l) l.
Proof.
  induction l as [| d l IH]; simpl; [apply perm_nil |].
  eapply Permutation_trans; [apply insert_sorted_perm |].
  apply perm_skip. exact IH.
Qed.

Lemma insert_sorted_sorted direction d l :
  Sorted (fun x y => before direction x y = true) l ->
  Sorted (fun x y => before direction x y = true) (insert_sorted direction d l).
Proof.
  induction l as [| e l IH]; simpl; intros Hs.
  - constructor; constructor.
  - destruct (before direction d e) eqn:Hb.
    + constructor; [exact Hs | constructor; exact Hb].
    + inversion Hs as [| ? ? Hs' Hhd]; subst.
      constructor; [apply IH; exact Hs' |].
      destruct l as [| f l]; simpl.
      * constructor. apply before_total. exact Hb.
      * destruct (before direction d f).
        -- constructor. apply before_total. exact Hb.
        -- inversion Hhd; subst. constructor. assumption.
Qed.

(** The cursor comes back ordered by the key, in the direction asked. *)
Lemma sort_sorted direction l :
  Sorted (fun x y => before direction x y = true) (sort direction l).
Proof.
  induction l as [| d l IH]; simpl; [constructor |].
  apply insert_sorted_sorted. exact IH.
Qed.

(** Without keys there is nothing to order by: the natural order stays. *)
Lemma sort_no_keys direction l :
  Forall (fun d => created_at d = None) l -> sort direction l = l.
Proof.
  induction 1 as [| d l Hd Hl IH]; simpl; [reflexivity |].
  rewrite IH. destruct l as [| e l']; simpl; [reflexivity |].
  inversion Hl as [| ? ? He _]; subst.
  unfold before. rewrite Hd, He. simpl.
  destruct (direction =? 1)%Z; reflexivity.
Qed.

Lemma update_first_no_keys (f : doc A -> bool) (upd : A -> A) l :
  Forall (fun d => created_at d = None) l ->
  Forall (fun d => created_at d = None) (update_first f upd l).
Proof.
  induction 1 as [| d l Hd Hl IH]; simpl; [constructor |].
  destruct (f d); constructor; assumption.
Qed.

Lemma insert_no_keys (x : A) (n : oid) l :
  Forall (fun d => created_at d = None) l ->
  Forall (fun d => created_at d = None) (l ++ [mkdoc n None x]).
Proof.
  intros H. apply Forall_app. split; [exact H |].
  constructor; [reflexivity | constructor].
Qed.
End SortFacts.

Ltac no_keys :=
  unfold no_created_at; simpl; repeat split;
  auto using @insert_no_keys, @update_first_no_keys.

Lemma step_no_created_at db db' :
  step db db' -> no_created_at db -> no_created_at db'.
Proof.
  intros Hstep (Hu & Ha & Hr & Ht & Hm).
  destruct Hstep as [secret ctx now data | data who | apt_id payload who
                    | vendor_id who | now payload who | payload who].
  - unfold register. unfold_handler. simpl.
    destruct (List.find _ (user db)); no_keys.
  - unfold create_apartment. destruct (require_role ["vendor"] who);
      unfold_handler; no_keys.
  - unfold add_review. destruct (require_role ["user"; "vendor"] who);
      unfold_handler; simpl; [| no_keys].
    destruct (String.eqb (Review.apartment_id payload) apt_id); simpl;
      [| no_keys].
    unfold aggregate_rating, gets. simpl.
    destruct (ratings_of apt_id _); simpl; [no_keys |].
    destruct (ObjectId apt_id); no_keys.
  - unfold create_thread. destruct (require_role ["user"] who);
      unfold_handler; simpl; [| no_keys].
    destruct (List.find _ (messagethread db)); no_keys.
  - unfold send_message. destruct (require_role ["user"; "vendor"] who);
      unfold_handler; simpl; [| no_keys].
    destruct (ObjectId (SendMessage.thread_id payload)); simpl;
      [| no_keys].
    destruct (List.find _ (messagethread db)); simpl; [| no_keys].
    destruct (_ && _); simpl; [no_keys |].
    destruct (_ && _); simpl; [no_keys |].
    no_keys.
  - unfold admin_toggle_listing. destruct (require_role ["admin"] who);
      unfold_handler; simpl; [| no_keys].
    destruct (ObjectId (ListingDecision.id payload)); no_keys.
Qed.

(** The handlers never write a [created_at] key. *)
Lemma reachable_no_created_at db : reachable db -> no_created_at db.
Proof.
  induction 1 as [| db db' _ IH Hstep].
  - repeat split; constructor.
  - exact (step_no_created_at db db' Hstep IH).
Qed.

Lemma filter_all {A} (l : list A) : List.filter (fun _ => true) l = l.
Proof. induction l as [| x l IH]; simpl; [| rewrite IH]; reflexivity. Qed.

(** So on every store the handlers produce, the unfiltered listing comes
    back in insertion order, oldest first. *)
Lemma list_apartments_insertion_order {engine : RegexEngine} db :
  reachable db ->
  list_apartments None None None None None db
  = (Return (list_with_id (apartment db)), db).
Proof.
  intros Hr. destruct (reachable_no_created_at db Hr) as (_ & Ha & _).
  unfold list_apartments. unfold_handler. simpl.
  change (fun d : doc Apartment.t => matches (mkquery None None None None)
                                       (fields d))
    with (fun _ : doc Apartment.t => true).
  rewrite filter_all, (sort_no_keys _ _ Ha). reflexivity.
Qed.

(** C9. [list_apartments] does not return the newest listing first: the
    documents the handlers insert have no [created_at] key, the sort on it
    has nothing to order by, and a listing created first is returned before
    one created after it. *)
Theorem list_apartments_oldest_first {engine : RegexEngine} :
  let db1 := snd (create_apartment (listing "first") bob empty_db) in
  let db2 := snd (create_apartment (listing "second") bob db1) in
  fst (create_apartment (listing "first") bob empty_db)
  = Return "000000000000000000000001"
  /\ fst (create_apartment (listing "second") bob db1)
     = Return "000000000000000000000002"
  /\ exists older newer,
       fst (list_apartments None None None None None db2)
       = Return [older; newer]
       /\ id older = "000000000000000000000001"
       /\ Apartment.title (pub_fields older) = "first"
       /\ pub_created_at older = None
       /\ id newer = "000000000000000000000002"
       /\ Apartment.title (pub_fields newer) = "second"
       /\ pub_created_at newer = None.
Proof.
  cbv zeta. split; [reflexivity |]. split; [reflexivity |].
  eexists. eexists. split; [reflexivity |].
  repeat split; reflexivity.
Qed.

(** ** The listing query *)

Lemma metachar_dot a : Ascii.eqb a "." = true -> metachar a = true.
Proof. intros H. apply Ascii.eqb_eq in H. subst a. reflexivity. Qed.

Lemma dot_prefix_plain p t :
  plain p = true -> dot_prefix true p t = ci_prefix p t.
Proof.
  revert t. induction p as [| a p IH]; intros t Hp; [destruct t; reflexivity |].
  simpl in Hp. apply andb_true_iff in Hp. destruct Hp as [Ha Hp].
  destruct t as [| c t]; simpl; [reflexivity |].
  unfold atom_matches. destruct (Ascii.eqb a ".") eqn:Hdot.
  - rewrite (metachar_dot a Hdot) in Ha. discriminate.
  - rewrite (IH t Hp). reflexivity.
Qed.

Lemma dot_engine_searches_plain_text : searches_plain_text dot_engine.
Proof.
  intros p t Hp. simpl.
  induction t as [| c t IH]; simpl.
  - rewrite (dot_prefix_plain p EmptyString Hp). reflexivity.
  - rewrite (dot_prefix_plain p (String c t) Hp), IH. reflexivity.
Qed.

Section ListingFacts.
Context {engine : RegexEngine}.

Lemma truthy_some (o : option string) s :
  o = Some s -> s <> EmptyString -> truthy o = o.
Proof. intros -> Hs. destruct s; [contradiction | reflexivity]. Qed.

Lemma build_query_keys school q min_price max_price amenities :
  let query := build_query school q min_price max_price amenities in
  q_school query = truthy school
  /\ q_or query
     = option_map (fun q => [mkregex title q "i"; mkregex location q "i";
                             mkregex description q "i"]) (truthy q)
  /\ q_price_monthly query
     = match min_price, max_price with
       | None, None => None
       | _, _ => Some (mkrange min_price max_price)
       end
  /\ q_amenities_all query = option_map (split ",") (truthy amenities).
Proof.
  unfold build_query.
  destruct (truthy school), (truthy q), min_price, max_price,
    (truthy amenities); simpl; repeat split; reflexivity.
Qed.

Lemma split_not_nil sep s : split sep s <> [].
Proof.
  destruct s as [| c s]; simpl; [discriminate |].
  destruct (Ascii.eqb c sep); [discriminate |].
  destruct (split sep s); discriminate.
Qed.

Lemma clauses_text_term q a :
  existsb (clause_matches a)
    [mkregex title q "i"; mkregex location q "i"; mkregex description q "i"]
  = text_term (regex_search q "i") a.
Proof.
  unfold text_term, clause_matches. simpl.
  destruct (Apartment.description a); rewrite ?orb_false_r, ?orb_assoc;
    reflexivity.
Qed.

Lemma matches_build_query school q min_price max_price amenities a :
  matches (build_query school q min_price max_price amenities) a
  = listing_predicate school q min_price max_price amenities a.
Proof.
  destruct (build_query_keys school q min_price max_price amenities)
    as (Hs & Hq & Hp & Ha).
  unfold matches, listing_predicate, when_present. rewrite Hs, Hq, Hp, Ha.
  assert (Hall : forall am,
            match split "," am with
            | [] => false
            | _ :: _ =>
                forallb (fun v => contains v (Apartment.amenities a))
                        (split "," am)
            end = has_all (split "," am) a).
  { intros am. destruct (split "," am) eqn:Hsplit; [| reflexivity].
    exfalso. exact (split_not_nil _ _ Hsplit). }
  destruct (truthy school), (truthy q), min_price, max_price,
    (truthy amenities) as [am |];
    cbn [option_map]; unfold in_range; cbn [gte lte];
    rewrite ?clauses_text_term, ?andb_true_r; try reflexivity;
    try (change (match split "," am with
                 | [] => false
                 | _ :: _ =>
                     forallb (fun v => contains v (Apartment.amenities a))
                             (split "," am)
                 end)
           with ((fun l => match l with
                           | [] => false
                           | _ :: _ =>
                               forallb
                                 (fun v => contains v (Apartment.amenities a)) l
                           end) (split "," am)));
    cbv beta;
    rewrite ?Hall, ?andb_true_l, ?andb_assoc, ?andb_true_r; reflexivity.
Qed.
Lemma ci_substring_empty t : ci_substring EmptyString t = true.
Proof. destruct t; reflexivity. Qed.

Lemma text_term_ext (f g : string -> bool) a :
  (forall t, f t = g t) -> text_term f a = text_term g a.
Proof.
  intros H. unfold text_term. rewrite !H.
  destruct (Apartment.description a); [rewrite H |]; reflexivity.
Qed.

Lemma listing_predicate_stated school q min_price max_price amenities :
  searches_plain_text engine ->
  school <> Some EmptyString ->
  amenities <> Some EmptyString ->
  (forall q', q = Some q' -> plain q' = true) ->
  forall a,
    listing_predicate school q min_price max_price amenities a
    = stated_predicate school q min_price max_price amenities a.
Proof.
  intros Hengine Hschool Ham Hq a. unfold listing_predicate, stated_predicate.
  assert (Hts : truthy school = school).
  { destruct school as [[| c s] |]; [contradiction | |]; reflexivity. }
  assert (Hta : truthy amenities = amenities).
  { destruct amenities as [[| c s] |]; [contradiction | |]; reflexivity. }
  rewrite Hts, Hta. f_equal. f_equal. f_equal. f_equal.
  destruct q as [[| c q'] |]; simpl.
  - unfold text_term. rewrite ci_substring_empty. reflexivity.
  - apply text_term_ext. intros t. apply Hengine. apply Hq. reflexivity.
  - reflexivity.
Qed.

(** C5 (amended). The query [list_apartments] builds is the conjunction of
    the terms of the filters that are given and are not the empty string;
    a filter that is absent, or an empty [school], [q] or [amenities],
    imposes nothing.  [school] is equality; [q] is searched as a
    case-insensitive regular expression in the title, the location or the
    description; [min_price] and [max_price] are inclusive bounds on
    [price_monthly], each on its own; [amenities] is split at commas and
    every piece must be among the listing's amenities.  The handler returns
    exactly the apartments of the store that satisfy the conjunction.  When
    [q] has no regular-expression metacharacter and neither [school] nor
    [amenities] is the empty string, this is the predicate of the
    specification, with [q] a case-insensitive substring test. *)
Theorem list_apartments_query school q min_price max_price amenities :
  (forall a,
     matches (build_query school q min_price max_price amenities) a
     = listing_predicate school q min_price max_price amenities a)
  /\ (forall db x,
        In x (match fst (list_apartments school q min_price max_price
                           amenities db) with
              | Return items => items
              | Raise _ => []
              end)
        <-> exists d,
              In d (apartment db)
              /\ listing_predicate school q min_price max_price amenities
                   (fields d) = true
              /\ x = pop_id d)
  /\ (forall db,
        snd (list_apartments school q min_price max_price amenities db) = db)
  /\ (searches_plain_text engine ->
      school <> Some EmptyString ->
      amenities <> Some EmptyString ->
      (forall q', q = Some q' -> plain q' = true) ->
      forall a,
        matches (build_query school q min_price max_price amenities) a
        = stated_predicate school q min_price max_price amenities a).
Proof.
  split; [intros a; apply matches_build_query |].
  split; [| split; [reflexivity |]].
  - intros db x. unfold list_apartments. unfold_handler. cbn [fst].
    unfold list_with_id. rewrite in_map_iff. split.
    + intros [d [Hx Hd]]. exists d.
      apply (Permutation_in _ (sort_perm _ _)) in Hd.
      apply filter_In in Hd. destruct Hd as [Hin Hm].
      rewrite matches_build_query in Hm. repeat split; auto.
    + intros [d [Hin [Hm Hx]]]. exists d. split; [auto |].
      apply (Permutation_in _ (Permutation_sym (sort_perm _ _))).
      apply filter_In. rewrite matches_build_query. split; assumption.
  - intros Hengine Hschool Ham Hq a. rewrite matches_build_query.
    apply listing_predicate_stated; assumption.
Qed.
End ListingFacts.

Lemma list_apartments_query_witness :
  matches (engine := dot_engine)
    (build_query (Some "MIT") (Some "sun") (Some (800 # 1)%Q) None
       (Some "wifi,ac")) (fields flat)
  = stated_predicate (Some "MIT") (Some "sun") (Some (800 # 1)%Q) None
      (Some "wifi,ac") (fields flat).
Proof.
  refine (proj2 (proj2 (proj2
    (list_apartments_query (engine := dot_engine) (Some "MIT") (Some "sun")
       (Some (800 # 1)%Q) None (Some "wifi,ac"))))
    dot_engine_searches_plain_text _ _ _ (fields flat)).
  - discriminate.
  - discriminate.
  - intros q' Hq. inversion Hq. reflexivity.
Defined.

(** The free text is a regular expression, not a substring: ["."] finds
    every listing with a non-empty title although no title contains a dot.
    And an empty [school] or [amenities] is dropped, not compared. *)
Lemma free_text_is_not_a_substring_test :
  ~ (forall school q min_price max_price amenities a,
       matches (engine := dot_engine)
         (build_query school q min_price max_price amenities) a
       = stated_predicate school q min_price max_price amenities a)
  /\ matches (engine := dot_engine)
       (build_query None (Some ".") None None None) (fields flat) = true
  /\ stated_predicate None (Some ".") None None None (fields flat) = false
  /\ matches (engine := dot_engine)
       (build_query (Some "") None None None (Some "")) (fields flat) = true
  /\ stated_predicate (Some "") None None None None (fields flat) = false
  /\ stated_predicate None None None None (Some "") (fields flat) = false.
Proof.
  split.
  - intros H.
    specialize (H None (Some ".") None None None (fields flat)).
    vm_compute in H. discriminate.
  - repeat split; vm_compute; reflexivity.
Qed.

Example list_apartments_min_price :
  fst (list_apartments (engine := dot_engine) None None (Some (800 # 1)%Q) None
         None db_three_prices)
  = Return (list_with_id [priced 2 1000 ["wifi"; "ac"]; priced 3 1500 ["ac"]]).
Proof. reflexivity. Qed.

Example list_apartments_amenities :
  fst (list_apartments (engine := dot_engine) None None None None
         (Some "wifi,ac") db_three_prices)
  = Return (list_with_id [priced 2 1000 ["wifi"; "ac"]]).
Proof. reflexivity. Qed.


(* ================================================================== *)
(** * Further properties of the handlers *)

(** ** Identifiers and their string form *)

Lemma hex_val_digit d : (d < 16)%N -> hex_val (hex_digit d) = Some d.
Proof.
  intros H.
  assert (Hd : (d = 0 \/ d = 1 \/ d = 2 \/ d = 3 \/ d = 4 \/ d = 5 \/ d = 6
                \/ d = 7 \/ d = 8 \/ d = 9 \/ d = 10 \/ d = 11 \/ d = 12
                \/ d = 13 \/ d = 14 \/ d = 15)%N) by lia.
  repeat (destruct Hd as [Hd | Hd]; [subst d; reflexivity |]).
  subst d; reflexivity.
Qed.

Lemma to_hex_length k n acc :
  String.length (to_hex k n acc) = (k + String.length acc)%nat.
Proof.
  revert n acc. induction k as [| k IH]; intros n acc; simpl; [reflexivity |].
  rewrite IH. simpl. lia.
Qed.

Lemma from_to_hex k n acc a :
  from_hex (to_hex k n acc) a
  = from_hex acc (a * 16 ^ N.of_nat k + n mod 16 ^ N.of_nat k)%N.
Proof.
  revert n acc a. induction k as [| k IH]; intros n acc a.
  - simpl. rewrite N.mod_1_r. f_equal. lia.
  - cbn [to_hex]. rewrite IH. cbn [from_hex].
    rewrite hex_val_digit by (apply N.mod_lt; discriminate).
    f_equal. rewrite Nat2N.inj_succ, N.pow_succ_r'.
    rewrite (N.Div0.mod_mul_r n 16 (16 ^ N.of_nat k)). lia.
Qed.

(** An identifier printed by [str] is read back by [ObjectId]. *)
Lemma ObjectId_str n : (n < oid_bound)%N -> ObjectId (str n) = Return n.
Proof.
  intros Hn. unfold ObjectId, str. rewrite to_hex_length. simpl Nat.eqb.
  rewrite from_to_hex. cbn [from_hex].
  rewrite N.mod_small by exact Hn. reflexivity.
Qed.

(** ** What a request can do to the store *)

Lemma step_write db db' : step db db' -> write db db'.
Proof.
  intros Hstep.
  destruct Hstep as [secret ctx now data | data who | apt_id payload who
                    | vendor_id who | now payload who | payload who].
  - unfold register. unfold_handler. simpl.
    destruct (List.find _ (user db)) eqn:Hf; simpl; [apply write_nothing |].
    apply (write_user db (registered_user data)). exact Hf.
  - unfold create_apartment. destruct (require_role ["vendor"] who);
      unfold_handler; simpl; [apply write_apartment | apply write_nothing].
  - unfold add_review. destruct (require_role ["user"; "vendor"] who);
      unfold_handler; simpl; [| apply write_nothing].
    destruct (String.eqb (Review.apartment_id payload) apt_id); simpl;
      [| apply write_nothing].
    unfold aggregate_rating, gets. simpl.
    destruct (ratings_of apt_id _); simpl; [apply write_review |].
    destruct (ObjectId apt_id); simpl;
      [apply write_review_rated | apply write_review].
  - unfold create_thread. destruct (require_role ["user"] who);
      unfold_handler; simpl; [| apply write_nothing].
    destruct (List.find _ (messagethread db)); simpl;
      [apply write_nothing | apply write_thread].
  - unfold send_message. destruct (require_role ["user"; "vendor"] who);
      unfold_handler; simpl; [| apply write_nothing].
    destruct (ObjectId (SendMessage.thread_id payload)); simpl;
      [| apply write_nothing].
    destruct (List.find _ (messagethread db)); simpl;
      [| apply write_nothing].
    destruct (_ && _); simpl; [apply write_nothing |].
    destruct (_ && _); simpl; [apply write_nothing |].
    apply write_message.
  - unfold admin_toggle_listing. destruct (require_role ["admin"] who);
      unfold_handler; simpl; [| apply write_nothing].
    destruct (ObjectId (ListingDecision.id payload)); simpl;
      [apply write_availability | apply write_nothing].
Qed.

Section IdFacts.
Context {A : Type}.
Implicit Types (l : list (doc A)) (n : oid).

Lemma ids_below_succ n l : ids_below n l -> ids_below (N.succ n) l.
Proof.
  unfold ids_below. intros H. eapply Forall_impl; [| exact H].
  simpl. intros d Hd. lia.
Qed.

Lemma ids_below_insert n c (x : A) l :
  ids_below n l -> ids_below (N.succ n) (l ++ [mkdoc n c x]).
Proof.
  intros H. apply Forall_app. split; [apply ids_below_succ; exact H |].
  constructor; [simpl; lia | constructor].
Qed.

Lemma ids_below_update n (f : doc A -> bool) (upd : A -> A) l :
  ids_below n l -> ids_below n (update_first f upd l).
Proof.
  induction 1 as [| d l Hd Hl IH]; simpl; [constructor |].
  destruct (f d); constructor; assumption.
Qed.

(** The identifier about to be handed out is held by no document. *)
Lemma find_fresh n l : ids_below n l -> List.find (by_id n) l = None.
Proof.
  intros H. apply find_none_iff. intros d Hd.
  unfold ids_below in H. rewrite Forall_forall in H. specialize (H d Hd).
  unfold by_id. apply N.eqb_neq. lia.
Qed.
End IdFacts.

Lemma write_ids_issued db db' : write db db' -> ids_issued db -> ids_issued db'.
Proof.
  intros Hw (Hu & Ha & Hr & Ht & Hm).
  destruct Hw; unfold ids_issued; simpl; repeat split;
    auto using @ids_below_succ, @ids_below_insert, @ids_below_update.
Qed.

Lemma reachable_ids_issued db : reachable db -> ids_issued db.
Proof.
  induction 1 as [| db db' _ IH Hstep].
  - repeat split; constructor.
  - exact (write_ids_issued db db' (step_write db db' Hstep) IH).
Qed.

Lemma write_emails_unique db db' :
  write db db' -> emails_unique db -> emails_unique db'.
Proof.
  intros Hw Hinv. destruct Hw; unfold emails_unique in *; simpl; auto.
  rewrite List.map_app. simpl.
  apply (Permutation_NoDup (l := User.email x
                                   :: List.map (fun d => User.email (fields d))
                                        (user db))).
  - apply Permutation_cons_append.
  - constructor; [| exact Hinv].
    intros Hin. apply in_map_iff in Hin. destruct Hin as [d [He Hd]].
    pose proof (List.find_none _ _ H d Hd) as Hn.
    unfold by_email in Hn. rewrite He, String.eqb_refl in Hn. discriminate.
Qed.

Section IdsDistinct.
Context {A : Type}.
Implicit Types (l : list (doc A)) (n : oid).

Lemma update_first_ids (f : doc A -> bool) (upd : A -> A) l :
  List.map _id (update_first f upd l) = List.map _id l.
Proof.
  induction l as [| d l IH]; simpl; [reflexivity |].
  destruct (f d); simpl; [reflexivity | rewrite IH; reflexivity].
Qed.

Lemma insert_ids_distinct n c (x : A) l :
  ids_below n l -> NoDup (List.map _id l) ->
  NoDup (List.map _id (l ++ [mkdoc n c x])).
Proof.
  intros Hb Hn. rewrite List.map_app. simpl.
  apply (Permutation_NoDup (l := n :: List.map _id l)).
  - apply Permutation_cons_append.
  - constructor; [| exact Hn].
    intros Hin. apply in_map_iff in Hin. destruct Hin as [d [Hd Hin]].
    unfold ids_below in Hb. rewrite Forall_forall in Hb.
    specialize (Hb d Hin). lia.
Qed.

(** With distinct identifiers, looking a document up by its own
    identifier finds that document. *)
Lemma find_by_own_id l d :
  NoDup (List.map _id l) -> In d l -> List.find (by_id (_id d)) l = Some d.
Proof.
  induction l as [| e l IH]; simpl; intros Hn Hin; [contradiction |].
  inversion Hn as [| ? ? Hnot Hn']; subst.
  destruct Hin as [-> | Hin].
  - unfold by_id. rewrite N.eqb_refl. reflexivity.
  - destruct (by_id (_id d) e) eqn:He; [| apply IH; assumption].
    unfold by_id in He. apply N.eqb_eq in He. exfalso. apply Hnot.
    rewrite He. apply in_map. exact Hin.
Qed.
End IdsDistinct.

Lemma write_ids_distinct db db' :
  write db db' -> ids_issued db -> ids_distinct db -> ids_distinct db'.
Proof.
  intros Hw (Hu & Ha & Hr & Ht & Hm) (Du & Da & Dr & Dt & Dm).
  destruct Hw; unfold ids_distinct; simpl;
    rewrite ?update_first_ids; repeat split;
    auto using @insert_ids_distinct.
Qed.

Lemma reachable_ids_distinct db : reachable db -> ids_distinct db.
Proof.
  induction 1 as [| db db' Hr IH Hstep].
  - repeat split; constructor.
  - exact (write_ids_distinct db db' (step_write db db' Hstep)
             (reachable_ids_issued db Hr) IH).
Qed.

(** ** Accounts *)

(** X1. Whatever requests are served, no two users of the store share an
    email: [register] inserts a user only after finding none with it. *)
Theorem reachable_emails_unique db : reachable db -> emails_unique db.
Proof.
  induction 1 as [| db db' _ IH Hstep].
  - constructor.
  - exact (write_emails_unique db db' (step_write db db' Hstep) IH).
Qed.

Lemma reachable_emails_unique_witness :
  emails_unique
    (snd (register "devsecret" 1700000500 admin_request
            (snd (register "devsecret" 1700000000 admin_request empty_db)))).
Proof.
  apply reachable_emails_unique.
  eapply reach_step; [| apply step_register].
  eapply reach_step; [apply reach_empty | apply step_register].
Defined.

Section AccountFacts.
Variable JWT_SECRET : string.
Context {pwd_context : CryptContext}.


(** X3. [login] never writes.  An unknown email and a wrong password get
    the same 401; a right password gets a token whose subject and role are
    those of the stored user, not of the request. *)
Theorem login_outcomes now data db :
  snd (login JWT_SECRET now data db) = db
  /\ (List.find (by_email (LoginRequest.email data)) (user db) = None ->
      fst (login JWT_SECRET now data db)
      = Raise (HTTPException 401 "Invalid credentials"))
  /\ (forall u,
        List.find (by_email (LoginRequest.email data)) (user db) = Some u ->
        (verify (LoginRequest.password data) (User.password_hash (fields u))
         = false ->
         fst (login JWT_SECRET now data db)
         = Raise (HTTPException 401 "Invalid credentials"))
        /\ (verify (LoginRequest.password data)
                   (User.password_hash (fields u)) = true ->
            forall now', (now' < now + 604800)%Z ->
              exists token,
                fst (login JWT_SECRET now data db) = Return token
                /\ get_current_user JWT_SECRET now' token
                   = Return (AuthUser.mk (str (_id u)) (User.role (fields u))
                               (User.email (fields u))
                               (User.full_name (fields u))))).
Proof.
  unfold login. unfold_handler. simpl.
  destruct (List.find _ (user db)) as [u |] eqn:Hf.
  - split.
    { destruct (verify _ _); reflexivity. }
    split; [discriminate |].
    intros u' Hu'. inversion Hu'; subst u'. split.
    + intros Hv. rewrite Hv. reflexivity.
    + intros Hv now' Hlt. rewrite Hv. simpl. eexists. split; [reflexivity |].
      unfold get_current_user.
      rewrite (token_decodes JWT_SECRET now now' _ None Hlt eq_refl).
      reflexivity.
  - split; [reflexivity |]. split; [reflexivity |]. discriminate.
Qed.
End AccountFacts.


Lemma login_outcomes_witness :
  fst (login "devsecret" 1700000000 eve_login empty_db)
  = Raise (HTTPException 401 "Invalid credentials")
  /\ fst (login "devsecret" 1700000600
            (LoginRequest.mk "eve@example.com" "wrong")
            (snd (register "devsecret" 1700000000 admin_request empty_db)))
     = Raise (HTTPException 401 "Invalid credentials").
Proof.
  split.
  - refine (proj1 (proj2 (login_outcomes "devsecret" 1700000000 eve_login
                            empty_db)) _).
    reflexivity.
  - refine (proj1 (proj2 (proj2
              (login_outcomes "devsecret" 1700000600
                 (LoginRequest.mk "eve@example.com" "wrong")
                 (snd (register "devsecret" 1700000000 admin_request
                         empty_db))))
              (mkdoc 1%N None (registered_user admin_request)) eq_refl) _).
    reflexivity.
Defined.

(** ** Strings the identifier parser refuses *)

Lemma from_hex_stray s acc : has_stray s = true -> from_hex s acc = None.
Proof.
  revert acc. induction s as [| c s IH]; intros acc H; [discriminate |].
  simpl in H. simpl. unfold is_hex in H.
  destruct (hex_val c) as [v |]; [| reflexivity].
  simpl in H. apply IH. exact H.
Qed.

(** A string that is not 24 characters long, or has a character that is
    neither a hexadecimal digit nor white space, is refused. *)
Lemma never_an_id_raises s :
  never_an_id s = true -> ObjectId s = Raise (InvalidId s).
Proof.
  unfold never_an_id, ObjectId. intros H.
  destruct (String.length s =? 24)%nat; [| reflexivity].
  simpl in H. rewrite (from_hex_stray s 0%N H). reflexivity.
Qed.

(** ** The role gates *)

Lemma require_role_rejects required user :
  contains (AuthUser.role user) required = false ->
  require_role required user = Raise forbidden.
Proof. intros H. unfold require_role. rewrite H. reflexivity. Qed.

Lemma require_role_accepts required user :
  contains (AuthUser.role user) required = true ->
  require_role required user = Return user.
Proof. intros H. unfold require_role. rewrite H. reflexivity. Qed.

Lemma contains_one r a : r <> a -> contains r [a] = false.
Proof.
  intros H. unfold contains. simpl. rewrite (eqb_false_of_neq _ _ H).
  reflexivity.
Qed.

Lemma contains_two r a b : r <> a -> r <> b -> contains r [a; b] = false.
Proof.
  intros Ha Hb. unfold contains. simpl.
  rewrite (eqb_false_of_neq _ _ Ha), (eqb_false_of_neq _ _ Hb). reflexivity.
Qed.

(** X4. Every handler admits exactly the roles it lists and no role
    inherits from another: a principal who is not a vendor cannot create a
    listing, one who is not a user cannot open a thread, one who is not an
    admin cannot toggle a listing, and one who is neither user nor vendor
    (an admin, say) cannot review, post, read a thread or list threads.
    Each refusal is a 403 and leaves the store as it was. *)
Theorem role_gates user db :
  (AuthUser.role user <> "vendor" ->
   forall data, create_apartment data user db = (Raise forbidden, db))
  /\ (AuthUser.role user <> "user" ->
      forall vendor_id, create_thread vendor_id user db = (Raise forbidden, db))
  /\ (AuthUser.role user <> "admin" ->
      forall payload,
        admin_toggle_listing payload user db = (Raise forbidden, db))
  /\ (AuthUser.role user <> "user" -> AuthUser.role user <> "vendor" ->
      (forall apt_id payload,
         add_review apt_id payload user db = (Raise forbidden, db))
      /\ (forall now payload,
            send_message now payload user db = (Raise forbidden, db))
      /\ (forall thread_id,
            thread_messages thread_id user db = (Raise forbidden, db))
      /\ my_threads user db = (Raise forbidden, db)).
Proof.
  split; [| split; [| split]].
  - intros H data. unfold create_apartment.
    rewrite (require_role_rejects _ _ (contains_one _ _ H)). reflexivity.
  - intros H v. unfold create_thread.
    rewrite (require_role_rejects _ _ (contains_one _ _ H)). reflexivity.
  - intros H p. unfold admin_toggle_listing.
    rewrite (require_role_rejects _ _ (contains_one _ _ H)). reflexivity.
  - intros Hu Hv.
    pose proof (require_role_rejects _ _ (contains_two _ _ _ Hu Hv)) as Hr.
    repeat split; intros;
      unfold add_review, send_message, thread_messages, my_threads;
      rewrite Hr; reflexivity.
Qed.

Lemma role_gates_witness :
  create_apartment (listing "Loft") carol empty_db = (Raise forbidden, empty_db)
  /\ create_thread (AuthUser.id bob) carol db_one_thread
     = (Raise forbidden, db_one_thread)
  /\ admin_toggle_listing (ListingDecision.mk "000000000000000000000007" false)
       bob db_one_flat = (Raise forbidden, db_one_flat)
  /\ thread_messages "000000000000000000000001" carol db_one_thread
     = (Raise forbidden, db_one_thread).
Proof.
  split; [| split; [| split]].
  - refine (proj1 (role_gates carol empty_db) _ _). discriminate.
  - refine (proj1 (proj2 (role_gates carol db_one_thread)) _ _). discriminate.
  - refine (proj1 (proj2 (proj2 (role_gates bob db_one_flat))) _ _).
    discriminate.
  - refine (proj1 (proj2 (proj2 (proj2 (proj2 (proj2
              (role_gates carol db_one_thread))) _ _))) _);
      discriminate.
Defined.

(** ** Listings: insert and look up *)

Lemma find_inserted {A} (n : oid) (x : A) (l : list (doc A)) :
  ids_below n l ->
  List.find (by_id n) (l ++ [mkdoc n None x]) = Some (mkdoc n None x).
Proof.
  intros H. rewrite (find_app_none _ _ _ (find_fresh n l H)). simpl.
  unfold by_id. simpl. rewrite N.eqb_refl. reflexivity.
Qed.

Lemma get_apartment_found apt_id o d db :
  ObjectId apt_id = Return o ->
  List.find (by_id o) (apartment db) = Some d ->
  get_apartment apt_id db = (Return (pop_id d), db).
Proof.
  intros Ho Hf. unfold get_apartment. unfold_handler. rewrite Ho. simpl.
  rewrite Hf. reflexivity.
Qed.

Lemma find_by_id_some {A} o (l : list (doc A)) d :
  List.find (by_id o) l = Some d -> In d l /\ _id d = o.
Proof.
  intros H. apply List.find_some in H. destruct H as [Hin Hb].
  split; [exact Hin |]. unfold by_id in Hb. apply N.eqb_eq. exact Hb.
Qed.

Section ListingRoundTrip.
Context {engine : RegexEngine}.

Lemma list_apartments_all db x :
  In x (items (fst (list_apartments None None None None None db)))
  <-> exists d, In d (apartment db) /\ x = pop_id d.
Proof.
  unfold list_apartments. unfold_handler. cbn [fst items].
  unfold list_with_id. rewrite in_map_iff.
  change (fun d : doc Apartment.t =>
            matches (build_query None None None None None) (fields d))
    with (fun _ : doc Apartment.t => true).
  rewrite filter_all. split.
  - intros [d [Hx Hd]]. exists d. split; [| auto].
    exact (Permutation_in _ (sort_perm _ _) Hd).
  - intros [d [Hd Hx]]. exists d. split; [auto |].
    exact (Permutation_in _ (Permutation_sym (sort_perm _ _)) Hd).
Qed.

(** X5. On a store built by the handlers, a vendor who creates a listing
    gets back an id under which [get_apartment] returns that listing: the
    vendor's own id as [vendor_id], the fields of the request, available,
    and with rating 0 and count 0 whatever the request said.  The listing
    is also among those [list_apartments] returns without filters. *)
Theorem create_then_get_apartment data user db :
  reachable db ->
  (next_oid db < oid_bound)%N ->
  AuthUser.role user = "vendor" ->
  exists apt_id db',
    create_apartment data user db = (Return apt_id, db')
    /\ get_apartment apt_id db'
       = (Return (mkpub apt_id None (created_listing data user)), db')
    /\ In (mkpub apt_id None (created_listing data user))
          (items (fst (list_apartments None None None None None db'))).
Proof.
  intros Hr Hb Hrole.
  destruct (reachable_ids_issued db Hr) as (_ & Ha & _).
  exists (str (next_oid db)).
  eexists. split; [| split].
  - unfold create_apartment.
    rewrite require_role_accepts by (rewrite Hrole; reflexivity).
    unfold_handler. reflexivity.
  - apply (get_apartment_found _ (next_oid db)
             (mkdoc (next_oid db) None (created_listing data user))).
    + apply ObjectId_str. exact Hb.
    + simpl. apply find_inserted. exact Ha.
  - apply list_apartments_all.
    exists (mkdoc (next_oid db) None (created_listing data user)).
    split; [| reflexivity].
    simpl. apply in_or_app. right. left. reflexivity.
Qed.
End ListingRoundTrip.

Lemma create_then_get_apartment_witness :
  exists apt_id db',
    create_apartment (listing "Loft") bob empty_db = (Return apt_id, db')
    /\ get_apartment apt_id db'
       = (Return (mkpub apt_id None (created_listing (listing "Loft") bob)),
          db').
Proof.
  destruct (create_then_get_apartment (engine := dot_engine) (listing "Loft")
              bob empty_db reach_empty eq_refl eq_refl)
    as [apt_id [db' [Hc [Hg _]]]].
  exists apt_id, db'. split; assumption.
Defined.

(** X6. [get_apartment] never writes.  For a well-formed id it answers 404
    when no listing has it, and otherwise returns the listing under the
    canonical (lower-case) string of its identifier. *)
Theorem get_apartment_outcomes apt_id db :
  snd (get_apartment apt_id db) = db
  /\ forall o, ObjectId apt_id = Return o ->
       (List.find (by_id o) (apartment db) = None ->
        fst (get_apartment apt_id db) = Raise (HTTPException 404 "Not found"))
       /\ (forall d, List.find (by_id o) (apartment db) = Some d ->
             fst (get_apartment apt_id db)
             = Return (mkpub (str o) (created_at d) (fields d))).
Proof.
  split.
  - unfold get_apartment. unfold_handler.
    destruct (ObjectId apt_id); simpl; [| reflexivity].
    destruct (List.find _ (apartment db)); reflexivity.
  - intros o Ho. split.
    + intros Hf. unfold get_apartment. unfold_handler. rewrite Ho. simpl.
      rewrite Hf. reflexivity.
    + intros d Hf. rewrite (get_apartment_found _ _ _ _ Ho Hf). simpl.
      destruct (find_by_id_some _ _ _ Hf) as [_ Hid].
      unfold pop_id. rewrite Hid. reflexivity.
Qed.

Lemma get_apartment_outcomes_witness :
  fst (get_apartment "00000000000000000000000F" db_one_flat)
  = Raise (HTTPException 404 "Not found")
  /\ fst (get_apartment "000000000000000000000007" db_one_flat)
     = Return (mkpub "000000000000000000000007" None (fields flat)).
Proof.
  split.
  - exact (proj1 (proj2 (get_apartment_outcomes "00000000000000000000000F"
                           db_one_flat) 15%N eq_refl)
             eq_refl).
  - exact (proj2 (proj2 (get_apartment_outcomes "000000000000000000000007"
                           db_one_flat) 7%N eq_refl)
             flat eq_refl).
Defined.

(** ** Messaging: what a post does, and reading it back *)

Lemma participant_role user th :
  participant user th -> contains (AuthUser.role user) ["user"; "vendor"] = true.
Proof.
  intros [[Hr _] | [Hr _]]; rewrite Hr; reflexivity.
Qed.

Lemma participant_passes user th :
  participant user th ->
  String.eqb (AuthUser.role user) "user"
  && negb (String.eqb (MessageThread.student_id th) (AuthUser.id user)) = false
  /\ String.eqb (AuthUser.role user) "vendor"
     && negb (String.eqb (MessageThread.vendor_id th) (AuthUser.id user))
     = false.
Proof.
  intros [[Hr Hi] | [Hr Hi]]; rewrite Hr, Hi, !String.eqb_refl; simpl;
    split; reflexivity.
Qed.

Lemma send_message_goes_through now payload user db o thread :
  ObjectId (SendMessage.thread_id payload) = Return o ->
  List.find (by_id o) (messagethread db) = Some thread ->
  participant user (fields thread) ->
  send_message now payload user db
  = (Return (mkSimpleOK true),
     posted (message_from user (fields thread) payload) o now db).
Proof.
  intros Ho Hf Hp. unfold send_message.
  rewrite (require_role_accepts _ _ (participant_role _ _ Hp)).
  unfold_handler. simpl. rewrite Ho. simpl. rewrite Hf.
  destruct (participant_passes _ _ Hp) as [H1 H2]. rewrite H1, H2.
  reflexivity.
Qed.

Lemma thread_messages_goes_through thread_id user db o thread :
  ObjectId thread_id = Return o ->
  List.find (by_id o) (messagethread db) = Some thread ->
  participant user (fields thread) ->
  thread_messages thread_id user db
  = (Return (list_with_id
               (sort 1 (List.filter (by_thread thread_id) (message db)))),
     db).
Proof.
  intros Ho Hf Hp. unfold thread_messages.
  rewrite (require_role_accepts _ _ (participant_role _ _ Hp)).
  unfold_handler. simpl. rewrite Ho. simpl. rewrite Hf.
  destruct (participant_passes _ _ Hp) as [H1 H2]. rewrite H1, H2.
  reflexivity.
Qed.

Lemma posted_thread msg o now db thread :
  List.find (by_id o) (messagethread db) = Some thread ->
  List.find (by_id o) (messagethread (posted msg o now db))
  = Some (mkdoc (_id thread) (created_at thread)
            (MessageThread.mk (MessageThread.student_id (fields thread))
               (MessageThread.vendor_id (fields thread))
               (Some (Message.body msg)) (Some now))).
Proof.
  intros Hf. unfold posted. simpl.
  rewrite (find_update_first o _ _ thread Hf). reflexivity.
Qed.

(** X7. When a participant posts to a thread, exactly one message is
    appended: it comes from the principal, goes to the thread's other
    participant (the vendor when a user posts, the student when a vendor
    posts; the caller names no recipient) and carries the body.  The
    thread's [last_message] and [last_time] become the body and the time
    of the post, its participants stay, and users, listings and reviews
    are untouched. *)
Theorem send_message_effect now payload principal db o thread :
  ObjectId (SendMessage.thread_id payload) = Return o ->
  List.find (by_id o) (messagethread db) = Some thread ->
  participant principal (fields thread) ->
  let db' := snd (send_message now payload principal db) in
  exists msg,
    fst (send_message now payload principal db) = Return (mkSimpleOK true)
    /\ message db' = message db ++ [mkdoc (next_oid db) None msg]
    /\ Message.thread_id msg = SendMessage.thread_id payload
    /\ Message.from_user_id msg = AuthUser.id principal
    /\ Message.body msg = SendMessage.body payload
    /\ (AuthUser.role principal = "user" ->
        Message.to_user_id msg = MessageThread.vendor_id (fields thread))
    /\ (AuthUser.role principal = "vendor" ->
        Message.to_user_id msg = MessageThread.student_id (fields thread))
    /\ List.find (by_id o) (messagethread db')
       = Some (mkdoc (_id thread) (created_at thread)
                 (MessageThread.mk (MessageThread.student_id (fields thread))
                    (MessageThread.vendor_id (fields thread))
                    (Some (SendMessage.body payload)) (Some now)))
    /\ user db' = user db /\ apartment db' = apartment db
    /\ review db' = review db.
Proof.
  intros Ho Hf Hp. cbv zeta.
  rewrite (send_message_goes_through _ _ _ _ _ _ Ho Hf Hp). cbn [fst snd].
  exists (message_from principal (fields thread) payload).
  split; [reflexivity |]. split; [reflexivity |].
  split; [reflexivity |]. split; [reflexivity |]. split; [reflexivity |].
  split; [intros Hr; simpl; rewrite Hr; reflexivity |].
  split; [intros Hr; simpl; rewrite Hr; reflexivity |].
  split;
    [exact (posted_thread (message_from principal (fields thread) payload)
              o now db thread Hf) |].
  repeat split; reflexivity.
Qed.

Lemma send_message_effect_witness :
  exists msg,
    message (snd (send_message 1700000000
                    (SendMessage.mk "000000000000000000000001" "hi") bob
                    db_one_thread))
    = [mkdoc 2%N None msg]
    /\ Message.from_user_id msg = AuthUser.id bob
    /\ Message.to_user_id msg = AuthUser.id alice.
Proof.
  destruct (send_message_effect 1700000000
              (SendMessage.mk "000000000000000000000001" "hi") bob
              db_one_thread 1%N thread_ab eq_refl eq_refl)
    as [msg (_ & Hm & _ & Hfrom & _ & _ & Hto & _)].
  - right. split; reflexivity.
  - exists msg. split; [exact Hm |]. split; [exact Hfrom |].
    exact (Hto eq_refl).
Defined.

(** X8. [thread_messages] never writes, and what it returns is exactly the
    stored messages whose [thread_id] is the string it was called with. *)
Theorem thread_messages_contents thread_id user db :
  snd (thread_messages thread_id user db) = db
  /\ forall l, fst (thread_messages thread_id user db) = Return l ->
       forall x,
         In x l
         <-> exists d, In d (message db)
                       /\ Message.thread_id (fields d) = thread_id
                       /\ x = pop_id d.
Proof.
  unfold thread_messages. destruct (require_role ["user"; "vendor"] user);
    unfold_handler; simpl; [| split; [reflexivity | discriminate]].
  destruct (ObjectId thread_id); simpl;
    [| split; [reflexivity | discriminate]].
  destruct (List.find _ (messagethread db)) as [thread |]; simpl;
    [| split; [reflexivity | discriminate]].
  destruct (_ && _); [split; [reflexivity | discriminate] |].
  destruct (_ && _); [split; [reflexivity | discriminate] |].
  split; [reflexivity |]. cbn [fst]. intros l Hl. inversion Hl; subst l.
  intros x. unfold list_with_id. rewrite in_map_iff. split.
  - intros [d [Hx Hd]]. exists d.
    apply (Permutation_in _ (sort_perm _ _)) in Hd.
    apply filter_In in Hd. destruct Hd as [Hin Hb].
    unfold by_thread in Hb. apply String.eqb_eq in Hb. auto.
  - intros [d [Hin [Hb Hx]]]. exists d. split; [auto |].
    apply (Permutation_in _ (Permutation_sym (sort_perm _ _))).
    apply filter_In. split; [exact Hin |].
    unfold by_thread. apply String.eqb_eq. exact Hb.
Qed.

Lemma thread_messages_contents_witness :
  In (mkpub "000000000000000000000002" None
        (Message.mk "000000000000000000000001" (AuthUser.id bob)
           (AuthUser.id alice) "hi"))
     (items (fst (thread_messages "000000000000000000000001" alice
                    db_one_message))).
Proof.
  refine (proj2 (proj2 (thread_messages_contents "000000000000000000000001"
                          alice db_one_message)
                   _ eq_refl _) _).
  exists (mkdoc 2%N None
            (Message.mk "000000000000000000000001" (AuthUser.id bob)
               (AuthUser.id alice) "hi")).
  split; [left; reflexivity |]. split; reflexivity.
Defined.

Lemma sort_no_keys_filter {A} direction (f : doc A -> bool) l :
  Forall (fun d => created_at d = None) l ->
  sort direction (List.filter f l) = List.filter f l.
Proof.
  intros H. apply sort_no_keys. rewrite Forall_forall in *.
  intros d Hd. apply filter_In in Hd. apply H. exact (proj1 Hd).
Qed.

Lemma posted_reachable now payload user db o thread :
  reachable db ->
  ObjectId (SendMessage.thread_id payload) = Return o ->
  List.find (by_id o) (messagethread db) = Some thread ->
  participant user (fields thread) ->
  reachable (posted (message_from user (fields thread) payload) o now db).
Proof.
  intros Hr Ho Hf Hp.
  pose proof (reach_step db _ Hr (step_send_message db now payload user)) as H.
  rewrite (send_message_goes_through _ _ _ _ _ _ Ho Hf Hp) in H. exact H.
Qed.

(** X9. On a store built by the handlers, a participant who posts under a
    thread id string and then reads under that same string gets the
    messages that were returned before, in the same order, followed by the
    new one.  Under any other string that names the same thread (the same
    identifier in another letter case) the read returns what it returned
    before the post: the new message is not there. *)
Theorem send_then_read now payload user db o thread :
  reachable db ->
  ObjectId (SendMessage.thread_id payload) = Return o ->
  List.find (by_id o) (messagethread db) = Some thread ->
  participant user (fields thread) ->
  exists earlier msg,
    fst (thread_messages (SendMessage.thread_id payload) user db)
    = Return earlier
    /\ fst (thread_messages (SendMessage.thread_id payload) user
              (snd (send_message now payload user db)))
       = Return (earlier ++ [mkpub (str (next_oid db)) None msg])
    /\ Message.from_user_id msg = AuthUser.id user
    /\ Message.body msg = SendMessage.body payload
    /\ (forall other,
          other <> SendMessage.thread_id payload ->
          ObjectId other = Return o ->
          fst (thread_messages other user
                 (snd (send_message now payload user db)))
          = fst (thread_messages other user db)).
Proof.
  intros Hr Ho Hf Hp.
  pose proof (posted_reachable now payload user db o thread Hr Ho Hf Hp) as Hr'.
  destruct (reachable_no_created_at db Hr) as (_ & _ & _ & _ & Hm).
  destruct (reachable_no_created_at _ Hr') as (_ & _ & _ & _ & Hm').
  exists (list_with_id
            (List.filter (by_thread (SendMessage.thread_id payload))
               (message db))).
  exists (message_from user (fields thread) payload).
  rewrite (send_message_goes_through _ _ _ _ _ _ Ho Hf Hp). cbn [fst snd].
  rewrite (thread_messages_goes_through _ _ db o thread Ho Hf Hp).
  rewrite (thread_messages_goes_through _ _ _ o _ Ho
             (posted_thread _ o now db thread Hf) Hp).
  cbn [fst]. rewrite !sort_no_keys_filter by assumption.
  split; [reflexivity |]. split; [| split; [| split]]; try reflexivity.
  - f_equal. unfold posted. cbn [message]. rewrite List.filter_app.
    unfold list_with_id. rewrite List.map_app. f_equal.
    simpl. unfold by_thread. simpl. rewrite String.eqb_refl. reflexivity.
  - intros other Hne Hother.
    rewrite (thread_messages_goes_through _ _ db o thread Hother Hf Hp).
    rewrite (thread_messages_goes_through _ _ _ o _ Hother
               (posted_thread _ o now db thread Hf) Hp).
    cbn [fst]. do 3 f_equal. unfold posted. cbn [message].
    rewrite List.filter_app. simpl. unfold by_thread at 2. simpl.
    rewrite (eqb_false_of_neq _ _ (not_eq_sym Hne)).
    apply List.app_nil_r.
Qed.

Lemma listed_reachable n : reachable (listed n empty_db).
Proof.
  induction n as [| n IH]; cbn [listed].
  - apply reach_empty.
  - exact (reach_step _ _ IH (step_create_apartment _ (listing "Room") bob)).
Defined.

Lemma send_then_read_witness :
  (exists msg,
     fst (thread_messages "00000000000000000000000A" alice
            (snd (send_message 1700000900
                    (SendMessage.mk "00000000000000000000000A" "hello") alice
                    db_thread_a)))
     = Return [mkpub "00000000000000000000000b" None msg]
     /\ Message.body msg = "hello")
  /\ fst (thread_messages "00000000000000000000000a" alice
            (snd (send_message 1700000900
                    (SendMessage.mk "00000000000000000000000A" "hello") alice
                    db_thread_a)))
     = Return [].
Proof.
  destruct (send_then_read 1700000900
              (SendMessage.mk "00000000000000000000000A" "hello") alice
              db_thread_a 10%N thread_a
              (reach_step _ _ (listed_reachable 9)
                 (step_create_thread _ (AuthUser.id bob) alice))
              eq_refl eq_refl (or_introl (conj eq_refl eq_refl)))
    as [earlier [msg (He & Hl & _ & Hb & Hother)]].
  split.
  - exists msg. split; [| exact Hb].
    inversion He; subst earlier. exact Hl.
  - rewrite (Hother "00000000000000000000000a"); [reflexivity | | reflexivity].
    discriminate.
Defined.

Lemma by_pair_true s v d :
  by_pair s v d = true ->
  MessageThread.student_id (fields d) = s
  /\ MessageThread.vendor_id (fields d) = v.
Proof.
  unfold by_pair. intros H. apply andb_true_iff in H. destruct H as [Hs Hv].
  apply String.eqb_eq in Hs, Hv. split; assumption.
Qed.

Lemma ids_below_in {A} n (l : list (doc A)) d :
  ids_below n l -> In d l -> (_id d < n)%N.
Proof.
  unfold ids_below. rewrite Forall_forall. intros H Hin. exact (H d Hin).
Qed.

(** X10. On a store built by the handlers, the id [create_thread] returns
    to a user is one [send_message] accepts from that user right away, and
    the message posted under it goes to the vendor the thread was opened
    with. *)
Theorem open_thread_then_post vendor_id principal db now body :
  reachable db ->
  (next_oid db < oid_bound)%N ->
  AuthUser.role principal = "user" ->
  exists thread_id db1 msg,
    create_thread vendor_id principal db = (Return thread_id, db1)
    /\ fst (send_message now (SendMessage.mk thread_id body) principal db1)
       = Return (mkSimpleOK true)
    /\ message (snd (send_message now (SendMessage.mk thread_id body)
                       principal db1))
       = message db1 ++ [mkdoc (next_oid db1) None msg]
    /\ Message.from_user_id msg = AuthUser.id principal
    /\ Message.to_user_id msg = vendor_id
    /\ Message.body msg = body.
Proof.
  intros Hr Hb Hrole.
  destruct (reachable_ids_issued db Hr) as (_ & _ & _ & Ht & _).
  destruct (reachable_ids_distinct db Hr) as (_ & _ & _ & Dt & _).
  destruct (List.find (by_pair (AuthUser.id principal) vendor_id)
              (messagethread db)) as [e |] eqn:Hf.
  - apply List.find_some in Hf as Hfe. destruct Hfe as [Hin Hpair].
    apply by_pair_true in Hpair. destruct Hpair as [Hs Hv].
    assert (Ho : ObjectId (str (_id e)) = Return (_id e)).
    { apply ObjectId_str. pose proof (ids_below_in _ _ _ Ht Hin). lia. }
    assert (Hp : participant principal (fields e)).
    { left. split; [exact Hrole | symmetry; exact Hs]. }
    exists (str (_id e)), db,
      (message_from principal (fields e) (SendMessage.mk (str (_id e)) body)).
    split; [apply create_thread_existing; assumption |].
    rewrite (send_message_goes_through now (SendMessage.mk (str (_id e)) body)
               principal db (_id e) e Ho (find_by_own_id _ _ Dt Hin) Hp).
    cbn [fst snd]. split; [reflexivity |]. split; [reflexivity |].
    split; [reflexivity |]. split; [| reflexivity].
    simpl. rewrite Hrole. simpl. exact Hv.
  - set (th := mkdoc (next_oid db) None
                 (MessageThread.mk (AuthUser.id principal) vendor_id None None)).
    set (db1 := bump_oid (set_docs db_messagethread
                            (messagethread db ++ [th]) db)).
    assert (Ho : ObjectId (str (next_oid db)) = Return (next_oid db)).
    { apply ObjectId_str. exact Hb. }
    assert (Hp : participant principal (fields th)).
    { left. split; [exact Hrole | reflexivity]. }
    assert (Hfind : List.find (by_id (next_oid db)) (messagethread db1)
                    = Some th).
    { unfold db1. simpl. apply find_inserted. exact Ht. }
    exists (str (next_oid db)), db1,
      (message_from principal (fields th)
         (SendMessage.mk (str (next_oid db)) body)).
    split; [apply create_thread_new; assumption |].
    rewrite (send_message_goes_through now
               (SendMessage.mk (str (next_oid db)) body)
               principal db1 (next_oid db) th Ho Hfind Hp).
    cbn [fst snd]. split; [reflexivity |]. split; [reflexivity |].
    split; [reflexivity |]. split; [| reflexivity].
    simpl. rewrite Hrole. reflexivity.
Qed.

Lemma open_thread_then_post_witness :
  exists thread_id db1 msg,
    create_thread (AuthUser.id bob) alice empty_db = (Return thread_id, db1)
    /\ fst (send_message 1700000000 (SendMessage.mk thread_id "hello") alice
              db1)
       = Return (mkSimpleOK true)
    /\ Message.to_user_id msg = AuthUser.id bob.
Proof.
  destruct (open_thread_then_post (AuthUser.id bob) alice empty_db 1700000000
              "hello" reach_empty eq_refl eq_refl)
    as [thread_id [db1 [msg (Hc & Hs & _ & _ & Hto & _)]]].
  exists thread_id, db1, msg. repeat split; assumption.
Defined.

(** ** Threads of a principal *)

Section SortOnFacts.
Context {A : Type} (key : doc A -> option Z).
Implicit Types (d e : doc A) (l : list (doc A)).

Lemma before_on_total direction d e :
  before_on key direction d e = false -> before_on key direction e d = true.
Proof.
  unfold before_on. destruct (direction =? 1)%Z; apply key_le_total.
Qed.

Lemma insert_on_perm direction d l :
  Permutation (insert_on key direction d l) (d :: l).
Proof.
  induction l as [| e l IH]; simpl; [apply Permutation_refl |].
  destruct (before_on key direction d e); [apply Permutation_refl |].
  eapply Permutation_trans; [apply perm_skip; exact IH | apply perm_swap].
Qed.

Lemma sort_on_perm direction l : Permutation (sort_on key direction l) l.
Proof.
  induction l as [| d l IH]; simpl; [apply perm_nil |].
  eapply Permutation_trans; [apply insert_on_perm |].
  apply perm_skip. exact IH.
Qed.

Lemma insert_on_sorted direction d l :
  Sorted (fun x y => before_on key direction x y = true) l ->
  Sorted (fun x y => before_on key direction x y = true)
         (insert_on key direction d l).
Proof.
  induction l as [| e l IH]; simpl; intros Hs.
  - constructor; constructor.
  - destruct (before_on key direction d e) eqn:Hb.
    + constructor; [exact Hs | constructor; exact Hb].
    + inversion Hs as [| ? ? Hs' Hhd]; subst.
      constructor; [apply IH; exact Hs' |].
      destruct l as [| f l]; simpl.
      * constructor. apply before_on_total. exact Hb.
      * destruct (before_on key direction d f).
        -- constructor. apply before_on_total. exact Hb.
        -- inversion Hhd; subst. constructor. assumption.
Qed.

Lemma sort_on_sorted direction l :
  Sorted (fun x y => before_on key direction x y = true)
         (sort_on key direction l).
Proof.
  induction l as [| d l IH]; simpl; [constructor |].
  apply insert_on_sorted. exact IH.
Qed.
End SortOnFacts.

Lemma Sorted_map {A B} (f : A -> B) (R : B -> B -> Prop) (l : list A) :
  Sorted (fun x y => R (f x) (f y)) l -> Sorted R (List.map f l).
Proof.
  induction 1 as [| a l Hs IH Hhd]; simpl; constructor; [exact IH |].
  destruct Hhd; simpl; constructor. assumption.
Qed.

(** X11. [my_threads] never writes.  It returns exactly the threads in
    which the principal takes part in their own role (as student for a
    user, as vendor for a vendor), the most recently active first and the
    threads without any message last. *)
Theorem my_threads_visibility principal db :
  snd (my_threads principal db) = db
  /\ forall l, fst (my_threads principal db) = Return l ->
       (forall x,
          In x l
          <-> exists d, In d (messagethread db)
                        /\ participant principal (fields d)
                        /\ x = pop_id d)
       /\ Sorted (fun x y =>
                    key_le (MessageThread.last_time (pub_fields y))
                           (MessageThread.last_time (pub_fields x)) = true) l.
Proof.
  unfold my_threads, require_role.
  destruct (contains (AuthUser.role principal) ["user"; "vendor"]) eqn:Hc;
    unfold_handler; simpl; [| split; [reflexivity | discriminate]].
  split; [reflexivity |]. intros l Hl. inversion Hl; subst l. clear Hl.
  rewrite contains_user_vendor in Hc. split.
  - intros x. unfold list_with_id. rewrite in_map_iff. split.
    + intros [d [Hx Hd]]. exists d.
      apply (Permutation_in _ (sort_on_perm _ _ _)) in Hd.
      apply filter_In in Hd. destruct Hd as [Hin Hb].
      split; [exact Hin |]. split; [| auto].
      destruct (String.eqb_spec (AuthUser.role principal) "user") as [Hu | Hu].
      * left. split; [exact Hu |]. unfold by_student in Hb.
        apply String.eqb_eq in Hb. auto.
      * right. simpl in Hc. apply String.eqb_eq in Hc.
        split; [exact Hc |]. unfold by_vendor in Hb.
        apply String.eqb_eq in Hb. auto.
    + intros [d [Hin [Hp Hx]]]. exists d. split; [auto |].
      apply (Permutation_in _ (Permutation_sym (sort_on_perm _ _ _))).
      apply filter_In. split; [exact Hin |].
      destruct Hp as [[Hr Hi] | [Hr Hi]]; rewrite Hr; simpl.
      * unfold by_student. apply String.eqb_eq. auto.
      * unfold by_vendor. apply String.eqb_eq. auto.
  - unfold list_with_id. apply Sorted_map.
    exact (sort_on_sorted last_time_of (-1) _).
Qed.

Lemma my_threads_visibility_witness :
  In (pop_id thread_ab) (items (fst (my_threads bob db_one_thread)))
  /\ ~ In (pop_id thread_ab) (items (fst (my_threads mallory db_one_thread))).
Proof.
  split.
  - refine (proj2 (proj1 (proj2 (my_threads_visibility bob db_one_thread)
                            _ eq_refl) _) _).
    exists thread_ab. split; [left; reflexivity |].
    split; [right; split; reflexivity | reflexivity].
  - intros Hin.
    destruct (proj1 (proj1 (proj2 (my_threads_visibility mallory db_one_thread)
                              _ eq_refl) _) Hin)
      as [d [Hd [Hp _]]].
    destruct Hd as [<- | []].
    destruct Hp as [[_ Hi] | [Hr _]]; discriminate.
Defined.

(** ** Reviews and listings *)

Lemma update_first_none {A} (f : doc A -> bool) (upd : A -> A) l :
  List.find f l = None -> update_first f upd l = l.
Proof.
  induction l as [| d l IH]; simpl; [reflexivity |].
  destruct (f d); [discriminate |]. intros H. rewrite (IH H). reflexivity.
Qed.

(** X12. [add_review] does not ask whether the apartment exists: for a
    well-formed id that no listing has, it succeeds, stores the review
    under the principal's id and changes no listing. *)
Theorem add_review_unknown_apartment apt_id payload principal db o :
  contains (AuthUser.role principal) ["user"; "vendor"] = true ->
  Review.apartment_id payload = apt_id ->
  ObjectId apt_id = Return o ->
  List.find (by_id o) (apartment db) = None ->
  let db' := snd (add_review apt_id payload principal db) in
  fst (add_review apt_id payload principal db) = Return (mkSimpleOK true)
  /\ review db' = review db ++ [stored_review payload principal db]
  /\ apartment db' = apartment db.
Proof.
  intros Hrole Hid Ho Hf. cbv zeta.
  rewrite (add_review_goes_through _ _ _ db o Hrole Hid Ho). cbn [fst snd].
  split; [reflexivity |]. split; [reflexivity |].
  unfold reviewed. simpl. apply update_first_none. exact Hf.
Qed.

Lemma add_review_unknown_apartment_witness :
  fst (add_review "0000000000000000000000ff" unknown_flat_review alice
         db_one_flat) = Return (mkSimpleOK true)
  /\ List.length
       (review (snd (add_review "0000000000000000000000ff" unknown_flat_review
                       alice db_one_flat))) = 1%nat
  /\ apartment (snd (add_review "0000000000000000000000ff"
                       unknown_flat_review alice db_one_flat))
     = [flat].
Proof.
  destruct (add_review_unknown_apartment "0000000000000000000000ff"
              unknown_flat_review alice db_one_flat 255%N
              eq_refl eq_refl eq_refl eq_refl) as (Hok & Hr & Ha).
  split; [exact Hok |]. split; [rewrite Hr; reflexivity | exact Ha].
Defined.

Lemma update_first_without_rating f average number l :
  List.map without_rating
    (update_first f (Apartment.set_rating average number) l)
  = List.map without_rating l.
Proof.
  induction l as [| d l IH]; simpl; [reflexivity |].
  destruct (f d); simpl; [reflexivity | rewrite IH; reflexivity].
Qed.

(** X13. Whatever it is called with, [add_review] adds and removes no
    listing and changes nothing of a listing but [rating_avg] and
    [rating_count]; users, threads and messages stay as they were. *)
Theorem add_review_touches_only_ratings apt_id payload principal db :
  let db' := snd (add_review apt_id payload principal db) in
  List.map without_rating (apartment db')
  = List.map without_rating (apartment db)
  /\ user db' = user db
  /\ messagethread db' = messagethread db
  /\ message db' = message db.
Proof.
  cbv zeta. unfold add_review.
  destruct (require_role ["user"; "vendor"] principal);
    unfold_handler; simpl; [| repeat split; reflexivity].
  destruct (String.eqb (Review.apartment_id payload) apt_id); simpl;
    [| repeat split; reflexivity].
  unfold aggregate_rating, gets. simpl.
  destruct (ratings_of apt_id _); simpl; [repeat split; reflexivity |].
  destruct (ObjectId apt_id); simpl; [| repeat split; reflexivity].
  split; [apply update_first_without_rating |]. repeat split; reflexivity.
Qed.

Lemma admin_toggle_goes_through payload principal db o :
  AuthUser.role principal = "admin" ->
  ObjectId (ListingDecision.id payload) = Return o ->
  admin_toggle_listing payload principal db
  = (Return (mkSimpleOK true),
     set_docs db_apartment
       (update_first (by_id o)
          (Apartment.set_available (ListingDecision.is_available payload))
          (apartment db)) db).
Proof.
  intros Hrole Ho. unfold admin_toggle_listing.
  rewrite require_role_accepts by (rewrite Hrole; reflexivity).
  unfold_handler. simpl. rewrite Ho. reflexivity.
Qed.

(** X14. For an admin, [admin_toggle_listing] sets [is_available] of the
    listing with the given id and leaves every other field and every other
    listing alone.  When no listing has the id it still answers ok and
    changes nothing.  An id that is not 24 characters long, or that has a
    character which is neither a hexadecimal digit nor white space, raises
    [InvalidId] before any write. *)
Theorem admin_toggle_listing_outcomes payload principal db :
  AuthUser.role principal = "admin" ->
  (never_an_id (ListingDecision.id payload) = true ->
   admin_toggle_listing payload principal db
   = (Raise (InvalidId (ListingDecision.id payload)), db))
  /\ (forall o, ObjectId (ListingDecision.id payload) = Return o ->
        let db' := snd (admin_toggle_listing payload principal db) in
        fst (admin_toggle_listing payload principal db)
        = Return (mkSimpleOK true)
        /\ (List.find (by_id o) (apartment db) = None -> db' = db)
        /\ (forall d, List.find (by_id o) (apartment db) = Some d ->
              List.find (by_id o) (apartment db')
              = Some (mkdoc (_id d) (created_at d)
                        (Apartment.set_available
                           (ListingDecision.is_available payload) (fields d))))
        /\ ids_of (apartment db') = ids_of (apartment db)
        /\ (forall d, In d (apartment db) -> _id d <> o -> In d (apartment db'))).
Proof.
  intros Hrole. split.
  - intros Hbad. apply never_an_id_raises in Hbad as Ho.
    unfold admin_toggle_listing.
    rewrite require_role_accepts by (rewrite Hrole; reflexivity).
    unfold_handler. simpl. rewrite Ho. reflexivity.
  - intros o Ho. cbv zeta.
    rewrite (admin_toggle_goes_through _ _ db o Hrole Ho). cbn [fst snd].
    split; [reflexivity |]. split; [| split; [| split]].
    + intros Hf. simpl. rewrite (update_first_none _ _ _ Hf).
      destruct db; reflexivity.
    + intros d Hf. simpl. apply find_update_first. exact Hf.
    + simpl. apply update_first_ids.
    + intros d Hin Hne. simpl.
      induction (apartment db) as [| e l IH]; simpl; [contradiction |].
      destruct (by_id o e) eqn:He.
      * destruct Hin as [-> | Hin]; [| right; exact Hin].
        unfold by_id in He. apply N.eqb_eq in He. contradiction.
      * destruct Hin as [-> | Hin]; [left; reflexivity | right; auto].
Qed.

Lemma admin_toggle_listing_outcomes_witness :
  fst (admin_toggle_listing hide_flat carol db_one_flat)
  = Return (mkSimpleOK true)
  /\ List.find (by_id 7%N)
       (apartment (snd (admin_toggle_listing hide_flat carol db_one_flat)))
     = Some (mkdoc 7%N None (Apartment.set_available false (fields flat)))
  /\ snd (admin_toggle_listing
            (ListingDecision.mk "0000000000000000000000ff" false) carol
            db_one_flat) = db_one_flat
  /\ admin_toggle_listing (ListingDecision.mk "not-an-id" false) carol
       db_one_flat
     = (Raise (InvalidId "not-an-id"), db_one_flat).
Proof.
  split; [| split; [| split]].
  - exact (proj1 (proj2 (admin_toggle_listing_outcomes hide_flat carol
                           db_one_flat eq_refl) 7%N eq_refl)).
  - exact (proj1 (proj2 (proj2 (proj2 (admin_toggle_listing_outcomes hide_flat
                           carol db_one_flat eq_refl) 7%N eq_refl)))
             flat eq_refl).
  - exact (proj1 (proj2 (proj2 (admin_toggle_listing_outcomes
                           (ListingDecision.mk "0000000000000000000000ff" false)
                           carol db_one_flat eq_refl) 255%N eq_refl))
             eq_refl).
  - exact (proj1 (admin_toggle_listing_outcomes
                    (ListingDecision.mk "not-an-id" false) carol db_one_flat
                    eq_refl) eq_refl).
Defined.

Section ListingOrder.
Context {A : Type}.
Implicit Types (d e : doc A) (l : list (doc A)).

Lemma cons_eq_inv {X} (a b : X) (l l' : list X) :
  a :: l = b :: l' -> a = b /\ l = l'.
Proof. intros H. injection H. auto. Qed.

Lemma sort_key_eq d d' :
  sort_key d = sort_key d' -> created_at d = created_at d'.
Proof. unfold sort_key. intros H. injection H. auto. Qed.

Lemma insert_sorted_keys direction d d' l l' :
  sort_key d = sort_key d' ->
  List.map sort_key l = List.map sort_key l' ->
  List.map sort_key (insert_sorted direction d l)
  = List.map sort_key (insert_sorted direction d' l').
Proof.
  intros Hd. revert l'. induction l as [| e l IH]; intros [| e' l'] Hl;
    cbn [List.map] in Hl; try discriminate.
  - cbn [insert_sorted List.map]. rewrite Hd. reflexivity.
  - apply cons_eq_inv in Hl. destruct Hl as [He Hl']. cbn [insert_sorted].
    assert (Hb : before direction d e = before direction d' e').
    { unfold before. rewrite (sort_key_eq _ _ Hd), (sort_key_eq _ _ He).
      reflexivity. }
    rewrite Hb. destruct (before direction d' e'); cbn [List.map].
    + rewrite Hd, He, Hl'. reflexivity.
    + rewrite He. f_equal. apply IH. exact Hl'.
Qed.

Lemma sort_keys direction l l' :
  List.map sort_key l = List.map sort_key l' ->
  List.map sort_key (sort direction l) = List.map sort_key (sort direction l').
Proof.
  revert l'. induction l as [| d l IH]; intros [| d' l'] Hl;
    cbn [List.map] in Hl; try discriminate; [reflexivity |].
  apply cons_eq_inv in Hl. destruct Hl as [Hd Hl']. simpl.
  apply insert_sorted_keys; [exact Hd | apply IH; exact Hl'].
Qed.

Lemma filter_update_first_keys (P f : doc A -> bool) (upd : A -> A) l :
  (forall d, P (mkdoc (_id d) (created_at d) (upd (fields d))) = P d) ->
  List.map sort_key (List.filter P (update_first f upd l))
  = List.map sort_key (List.filter P l).
Proof.
  intros HP. induction l as [| d l IH]; simpl; [reflexivity |].
  destruct (f d); simpl.
  - rewrite HP. destruct (P d); reflexivity.
  - destruct (P d); simpl; rewrite IH; reflexivity.
Qed.

Lemma ids_from_keys l :
  List.map id (list_with_id l)
  = List.map (fun k => str (fst k)) (List.map sort_key l).
Proof.
  unfold list_with_id. rewrite !List.map_map. reflexivity.
Qed.
End ListingOrder.

Section ListingMore.
Context {engine : RegexEngine}.

Lemma matches_ignores_availability qr b a :
  matches qr (Apartment.set_available b a) = matches qr a.
Proof. reflexivity. Qed.

Lemma list_apartments_items school q min_price max_price amenities db x :
  In x (items (fst (list_apartments school q min_price max_price amenities db)))
  <-> exists d,
        In d (apartment db)
        /\ matches (build_query school q min_price max_price amenities)
             (fields d) = true
        /\ x = pop_id d.
Proof.
  unfold list_apartments. unfold_handler. cbn [fst items].
  unfold list_with_id. rewrite in_map_iff. split.
  - intros [d [Hx Hd]]. exists d.
    apply (Permutation_in _ (sort_perm _ _)) in Hd.
    apply filter_In in Hd. destruct Hd as [Hin Hm]. auto.
  - intros [d [Hin [Hm Hx]]]. exists d. split; [auto |].
    apply (Permutation_in _ (Permutation_sym (sort_perm _ _))).
    apply filter_In. split; assumption.
Qed.

(** X15. The listing query never looks at [is_available]: whatever the
    filters, a listing matches whether or not it is available, and
    [list_apartments] returns the same listings in the same order before
    and after an [admin_toggle_listing], a listing switched off
    included. *)
Theorem list_apartments_ignores_availability
        school q min_price max_price amenities :
  (forall b a,
     matches (build_query school q min_price max_price amenities)
       (Apartment.set_available b a)
     = matches (build_query school q min_price max_price amenities) a)
  /\ (forall payload principal db,
        List.map id
          (items (fst (list_apartments school q min_price max_price amenities
                         (snd (admin_toggle_listing payload principal db)))))
        = List.map id
            (items (fst (list_apartments school q min_price max_price
                           amenities db)))).
Proof.
  split; [intros b a; apply matches_ignores_availability |].
  intros payload principal db. unfold admin_toggle_listing.
  destruct (require_role ["admin"] principal); unfold_handler; simpl;
    [| reflexivity].
  destruct (ObjectId (ListingDecision.id payload)); simpl; [| reflexivity].
  unfold list_apartments. unfold_handler. cbn [fst items].
  rewrite !ids_from_keys. f_equal. apply sort_keys. simpl.
  apply (filter_update_first_keys
           (fun d => matches (build_query school q min_price max_price
                                amenities) (fields d))).
  intros d. reflexivity.
Qed.

(** X16. Filters only narrow: whatever [list_apartments] returns under
    some filters it also returns without any, and it never returns more
    items than the store has listings. *)
Theorem list_apartments_filters_narrow
        school q min_price max_price amenities db :
  (forall x,
     In x (items (fst (list_apartments school q min_price max_price amenities
                         db))) ->
     In x (items (fst (list_apartments None None None None None db))))
  /\ (List.length
        (items (fst (list_apartments school q min_price max_price amenities
                       db)))
      <= List.length (apartment db))%nat.
Proof.
  split.
  - intros x Hx. apply list_apartments_items in Hx.
    destruct Hx as [d [Hin [_ Hx]]].
    apply list_apartments_items. exists d. split; [exact Hin |].
    split; [reflexivity | exact Hx].
  - unfold list_apartments. unfold_handler. cbn [fst items].
    unfold list_with_id. rewrite List.length_map.
    rewrite (Permutation_length (sort_perm _ _)).
    apply List.filter_length_le.
Qed.

(** X17. Where documents do carry [created_at], the order asked for is the
    order returned: [list_apartments] returns its items by non-increasing
    [created_at] and [thread_messages] by non-decreasing [created_at], a
    missing key counting as lowest. *)
Theorem results_ordered_by_created_at :
  (forall school q min_price max_price amenities db,
     Sorted (fun x y => key_le (pub_created_at y) (pub_created_at x) = true)
       (items (fst (list_apartments school q min_price max_price amenities
                      db))))
  /\ (forall thread_id principal db,
        Sorted (fun x y => key_le (pub_created_at x) (pub_created_at y) = true)
          (items (fst (thread_messages thread_id principal db)))).
Proof.
  split.
  - intros. unfold list_apartments. unfold_handler. cbn [fst items].
    unfold list_with_id. apply Sorted_map.
    exact (sort_sorted (-1) _).
  - intros thread_id principal db. unfold thread_messages.
    destruct (require_role ["user"; "vendor"] principal);
      unfold_handler; simpl; [| constructor].
    destruct (ObjectId thread_id); simpl; [| constructor].
    destruct (List.find _ (messagethread db)); simpl; [| constructor].
    destruct (_ && _); simpl; [constructor |].
    destruct (_ && _); simpl; [constructor |].
    unfold list_with_id. apply Sorted_map.
    exact (sort_sorted 1 _).
Qed.
End ListingMore.

(** ** Nothing is deleted *)

Lemma grown_refl {A} (l : list (doc A)) : grown_from l l.
Proof. exists []. rewrite List.app_nil_r. split; [reflexivity | simpl; lia]. Qed.

Lemma grown_insert {A} (l : list (doc A)) d : grown_from l (l ++ [d]).
Proof.
  exists [_id d]. unfold ids_of. rewrite List.map_app.
  split; [reflexivity | simpl; lia].
Qed.

Lemma grown_update {A} (f : doc A -> bool) (upd : A -> A) l :
  grown_from l (update_first f upd l).
Proof.
  exists []. unfold ids_of. rewrite update_first_ids, List.app_nil_r.
  split; [reflexivity | simpl; lia].
Qed.

(** X18. No request deletes or reorders anything: after any one request
    each of the five collections holds the documents it held, identifier
    by identifier and in the same order, followed by at most one new
    document. *)
Theorem handlers_never_delete db db' :
  step db db' ->
  grown_from (user db) (user db')
  /\ grown_from (apartment db) (apartment db')
  /\ grown_from (review db) (review db')
  /\ grown_from (messagethread db) (messagethread db')
  /\ grown_from (message db) (message db').
Proof.
  intros Hstep. apply step_write in Hstep.
  destruct Hstep; simpl; repeat split;
    auto using @grown_refl, @grown_insert, @grown_update.
Qed.

Lemma handlers_never_delete_witness :
  grown_from (review db_one_flat)
    (review (snd (add_review "000000000000000000000007"
                    (review_of "000000000000000000000007" 5) alice
                    db_one_flat)))
  /\ grown_from (apartment db_one_flat)
       (apartment (snd (add_review "000000000000000000000007"
                          (review_of "000000000000000000000007" 5) alice
                          db_one_flat))).
Proof.
  destruct (handlers_never_delete db_one_flat _
              (step_add_review db_one_flat "000000000000000000000007"
                 (review_of "000000000000000000000007" 5) alice))
    as (_ & Ha & Hr & _).
  split; assumption.
Defined.

(** ** The current user *)

Section MeFacts.
Variable JWT_SECRET : string.
Context {pwd_context : CryptContext}.

Lemma me_found principal db o d :
  ObjectId (AuthUser.id principal) = Return o ->
  List.find (by_id o) (user db) = Some d ->
  me principal db = (Return (Some (pop_id d)), db).
Proof.
  intros Ho Hf. unfold me, find_one_with_id. unfold_handler.
  rewrite Ho. simpl. rewrite Hf. reflexivity.
Qed.

(** X19. On a store built by the handlers, the token [register] returns
    identifies the new user: decoded, its principal gets from [me] the
    record just stored, under the new user's id, with the role and email
    of the request, and with the password hash in it.  [me] itself never
    writes. *)
Theorem register_then_me now data db :
  reachable db ->
  (next_oid db < oid_bound)%N ->
  (forall u, In u (user db) ->
     User.email (fields u) <> RegisterRequest.email data) ->
  exists token db',
    register JWT_SECRET now data db = (Return token, db')
    /\ forall now', (now' < now + 604800)%Z ->
         exists principal,
           get_current_user JWT_SECRET now' token = Return principal
           /\ me principal db'
              = (Return (Some (mkpub (str (next_oid db)) None
                                 (registered_user data))), db')
           /\ User.password_hash (registered_user data)
              = hash (RegisterRequest.password data).
Proof.
  intros Hr Hb Hfresh. apply fresh_email_find in Hfresh.
  destruct (reachable_ids_issued db Hr) as (Hu & _).
  eexists. eexists. split; [apply register_fresh; exact Hfresh |].
  intros now' Hlt. eexists. split; [| split; [| reflexivity]].
  - unfold get_current_user.
    rewrite (token_decodes JWT_SECRET now now' _ None Hlt eq_refl).
    reflexivity.
  - apply (me_found _ _ (next_oid db)
             (mkdoc (next_oid db) None (registered_user data))).
    + simpl. apply ObjectId_str. exact Hb.
    + simpl. apply find_inserted. exact Hu.
Qed.
End MeFacts.

Lemma register_then_me_witness :
  exists token db' principal,
    register "devsecret" 1700000000 admin_request empty_db
    = (Return token, db')
    /\ get_current_user "devsecret" 1700000100 token = Return principal
    /\ me principal db'
       = (Return (Some (mkpub "000000000000000000000001" None
                          (registered_user admin_request))), db').
Proof.
  destruct (register_then_me "devsecret" 1700000000 admin_request empty_db
              reach_empty eq_refl) as [token [db' [Hreg Hme]]].
  - simpl. intros u [].
  - destruct (Hme 1700000100%Z eq_refl) as [principal (Hp & Hm & _)].
    exists token, db', principal. repeat split; assumption.
Defined.

(* ================================================================== *)
(** * Favorites, bookings and KYC records *)

Ltac unfold_wide :=
  unfold wbind, wlift, wret, wraise, wfind_one, wfind, winsert_one,
    wupdate_one, in_core.

Lemma set_core_same s : set_core (core s) s = s.
Proof. destruct s; reflexivity. Qed.

(** ** Favorites *)

Lemma save_favorite_existing apt_id principal s e :
  contains (AuthUser.role principal) ["user"; "vendor"] = true ->
  List.find (favorite_of apt_id (AuthUser.id principal)) (favorite s) = Some e ->
  save_favorite apt_id principal s = (Return (mkSimpleOK true), s).
Proof.
  intros Hrole Hf. unfold save_favorite.
  rewrite (require_role_accepts _ _ Hrole). unfold_wide. simpl.
  rewrite Hf. reflexivity.
Qed.

Lemma save_favorite_new apt_id principal s :
  contains (AuthUser.role principal) ["user"; "vendor"] = true ->
  List.find (favorite_of apt_id (AuthUser.id principal)) (favorite s) = None ->
  save_favorite apt_id principal s
  = (Return (mkSimpleOK true),
     mkStore (bump_oid (core s)) (vendorkyc s)
       (favorite s
        ++ [mkdoc (next_oid (core s)) None
              (Favorite.mk apt_id (AuthUser.id principal))])
       (bookinginterest s)).
Proof.
  intros Hrole Hf. unfold save_favorite.
  rewrite (require_role_accepts _ _ Hrole). unfold_wide. simpl.
  rewrite Hf. reflexivity.
Qed.

Lemma save_favorite_rejected apt_id principal s :
  contains (AuthUser.role principal) ["user"; "vendor"] = false ->
  save_favorite apt_id principal s = (Raise forbidden, s).
Proof.
  intros Hrole. unfold save_favorite.
  rewrite (require_role_rejects _ _ Hrole). reflexivity.
Qed.

Lemma favorite_of_new a u a' u' n :
  favorite_of a' u' (mkdoc n None (Favorite.mk a u)) = true ->
  a' = a /\ u' = u.
Proof.
  unfold favorite_of. simpl. intros H. apply andb_true_iff in H.
  destruct H as [Ha Hu]. apply String.eqb_eq in Ha, Hu. split; congruence.
Qed.

Lemma save_favorite_keeps_invariant apt_id principal s :
  one_favorite_per_pair s ->
  one_favorite_per_pair (snd (save_favorite apt_id principal s)).
Proof.
  intros Hinv.
  destruct (contains (AuthUser.role principal) ["user"; "vendor"]) eqn:Hrole.
  - destruct (List.find (favorite_of apt_id (AuthUser.id principal))
                (favorite s)) as [e |] eqn:Hf.
    + rewrite (save_favorite_existing _ _ _ e Hrole Hf). exact Hinv.
    + rewrite (save_favorite_new _ _ _ Hrole Hf). simpl.
      intros a u. unfold count_documents. simpl.
      rewrite List.filter_app, List.length_app. simpl.
      destruct (favorite_of a u _) eqn:Hb; simpl.
      * apply favorite_of_new in Hb. destruct Hb as [-> ->].
        rewrite (find_none_filter_nil _ _ Hf). simpl. lia.
      * specialize (Hinv a u). unfold count_documents in Hinv. lia.
  - rewrite (save_favorite_rejected _ _ _ Hrole). exact Hinv.
Qed.

Lemma submit_kyc_favorite payload principal s :
  favorite (snd (submit_kyc payload principal s)) = favorite s.
Proof.
  unfold submit_kyc. destruct (require_role ["vendor"] principal);
    unfold_wide; reflexivity.
Qed.

Lemma create_booking_favorite payload principal s :
  favorite (snd (create_booking payload principal s)) = favorite s.
Proof.
  unfold create_booking. destruct (require_role ["user"] principal);
    unfold_wide; simpl; [| reflexivity].
  destruct (ObjectId (BookingCreate.apartment_id payload)); simpl;
    [| reflexivity].
  destruct (List.find _ (apartment (core s))); reflexivity.
Qed.

Lemma admin_kyc_decision_favorite payload principal s :
  favorite (snd (admin_kyc_decision payload principal s)) = favorite s.
Proof.
  unfold admin_kyc_decision. destruct (require_role ["admin"] principal);
    unfold_wide; simpl; [| reflexivity].
  destruct (ObjectId (AdminAction.id payload)); reflexivity.
Qed.

Lemma wide_step_keeps_favorites s s' :
  wide_step s s' -> one_favorite_per_pair s -> one_favorite_per_pair s'.
Proof.
  intros Hstep Hinv.
  destruct Hstep as [db' Hcore | payload who | apt_id who | payload who
                    | payload who]; intros a u.
  - exact (Hinv a u).
  - rewrite submit_kyc_favorite. exact (Hinv a u).
  - apply save_favorite_keeps_invariant. exact Hinv.
  - rewrite create_booking_favorite. exact (Hinv a u).
  - rewrite admin_kyc_decision_favorite. exact (Hinv a u).
Qed.

Lemma wide_reachable_favorites s :
  wide_reachable s -> one_favorite_per_pair s.
Proof.
  induction 1 as [| s s' _ IH Hstep].
  - intros a u. unfold count_documents. simpl. lia.
  - exact (wide_step_keeps_favorites s s' Hstep IH).
Qed.

(** X20. Saving a favorite is idempotent: for a user or vendor, a second
    [save_favorite] of the same apartment id answers ok again and writes
    nothing, so the pair has one favorite however often it is saved; on
    every store the handlers build there is exactly one after the call.
    Any string is accepted as the apartment id. *)
Theorem save_favorite_idempotent apt_id principal s :
  contains (AuthUser.role principal) ["user"; "vendor"] = true ->
  exists s1,
    save_favorite apt_id principal s = (Return (mkSimpleOK true), s1)
    /\ save_favorite apt_id principal s1 = (Return (mkSimpleOK true), s1)
    /\ count_documents (favorite_of apt_id (AuthUser.id principal))
         (favorite s1)
       = Nat.max 1 (count_documents
                      (favorite_of apt_id (AuthUser.id principal))
                      (favorite s))
    /\ (wide_reachable s ->
        count_documents (favorite_of apt_id (AuthUser.id principal))
          (favorite s1) = 1%nat).
Proof.
  intros Hrole.
  destruct (List.find (favorite_of apt_id (AuthUser.id principal))
              (favorite s)) as [e |] eqn:Hf.
  - exists s. pose proof (find_some_filter_nonempty _ _ _ Hf) as Hlen.
    split; [apply (save_favorite_existing _ _ _ e Hrole Hf) |].
    split; [apply (save_favorite_existing _ _ _ e Hrole Hf) |].
    unfold count_documents. split; [lia |].
    intros Hr. pose proof (wide_reachable_favorites s Hr apt_id
                             (AuthUser.id principal)) as Hle.
    unfold count_documents in Hle. lia.
  - eexists. split; [apply (save_favorite_new _ _ _ Hrole Hf) |].
    assert (Hone : count_documents
                     (favorite_of apt_id (AuthUser.id principal))
                     (favorite s
                      ++ [mkdoc (next_oid (core s)) None
                            (Favorite.mk apt_id (AuthUser.id principal))])
                   = 1%nat).
    { unfold count_documents.
      rewrite List.filter_app, (find_none_filter_nil _ _ Hf). simpl.
      unfold favorite_of. simpl. rewrite !String.eqb_refl. reflexivity. }
    split.
    { apply (save_favorite_existing _ _ _
               (mkdoc (next_oid (core s)) None
                  (Favorite.mk apt_id (AuthUser.id principal))) Hrole).
      simpl. rewrite (find_app_none _ _ _ Hf). simpl.
      unfold favorite_of. simpl. rewrite !String.eqb_refl. reflexivity. }
    simpl. rewrite Hone. split; [| intros _; reflexivity].
    unfold count_documents. rewrite (find_none_filter_nil _ _ Hf). reflexivity.
Qed.

Lemma save_favorite_idempotent_witness :
  exists s1,
    save_favorite "000000000000000000000007" alice store_one_flat
    = (Return (mkSimpleOK true), s1)
    /\ save_favorite "000000000000000000000007" alice s1
       = (Return (mkSimpleOK true), s1)
    /\ List.length (favorite s1) = 1%nat.
Proof.
  destruct (save_favorite_idempotent "000000000000000000000007" alice
              store_one_flat eq_refl) as [s1 (H1 & H2 & _)].
  exists s1. split; [exact H1 |]. split; [exact H2 |].
  inversion H1. reflexivity.
Defined.

Lemma traverse_raises {X Y} (f : X -> result Y) xs x e :
  In x xs -> f x = Raise e ->
  exists x' e', In x' xs /\ f x' = Raise e' /\ traverse f xs = Raise e'.
Proof.
  induction xs as [| y xs IH]; simpl; intros Hin Hx; [contradiction |].
  destruct (f y) as [v | e0] eqn:Hy.
  - destruct Hin as [-> | Hin]; [congruence |].
    destruct (IH Hin Hx) as [x' [e' (Hin' & Hx' & Ht)]].
    exists x', e'. rewrite Ht. auto.
  - exists y, e0. auto.
Qed.

Lemma traverse_returns {X Y} (f : X -> result Y) xs ys :
  traverse f xs = Return ys ->
  forall y, In y ys <-> exists x, In x xs /\ f x = Return y.
Proof.
  revert ys. induction xs as [| x xs IH]; simpl; intros ys H.
  - inversion H; subst ys. intros y. split; [intros [] | intros [x [[] _]]].
  - destruct (f x) as [v |] eqn:Hx; [| discriminate].
    destruct (traverse f xs) as [vs |] eqn:Ht; [| discriminate].
    inversion H; subst ys. intros y. simpl. rewrite (IH vs eq_refl y). split.
    + intros [<- | [x' [Hin Hx']]]; [exists x; auto | exists x'; auto].
    + intros [x' [[<- | Hin] Hx']].
      * left. congruence.
      * right. exists x'. auto.
Qed.

(** What [my_favorites] computes for a user or vendor. *)
Lemma my_favorites_eq principal s :
  contains (AuthUser.role principal) ["user"; "vendor"] = true ->
  my_favorites principal s
  = (match traverse
             (fun f => ObjectId (Favorite.apartment_id (pub_fields f)))
             (list_with_id
                (List.filter (favorites_of (AuthUser.id principal))
                   (favorite s))) with
     | Raise e => Raise e
     | Return [] => Return []
     | Return apt_ids =>
         Return (list_with_id
                   (List.filter (id_in apt_ids) (apartment (core s))))
     end, s).
Proof.
  intros Hrole. unfold my_favorites.
  rewrite (require_role_accepts _ _ Hrole). unfold_wide. simpl.
  destruct (traverse _ _) as [[| o ids] | e]; simpl; try reflexivity.
  unfold find, gets. simpl. rewrite set_core_same. reflexivity.
Qed.

Lemma saved_favorite_present apt_id principal s :
  contains (AuthUser.role principal) ["user"; "vendor"] = true ->
  exists f,
    In f (List.filter (favorites_of (AuthUser.id principal))
            (favorite (snd (save_favorite apt_id principal s))))
    /\ Favorite.apartment_id (fields f) = apt_id.
Proof.
  intros Hrole.
  destruct (List.find (favorite_of apt_id (AuthUser.id principal))
              (favorite s)) as [e |] eqn:Hf.
  - rewrite (save_favorite_existing _ _ _ e Hrole Hf). simpl.
    apply List.find_some in Hf. destruct Hf as [Hin Hb].
    unfold favorite_of in Hb. apply andb_true_iff in Hb.
    destruct Hb as [Ha Hu]. apply String.eqb_eq in Ha.
    exists e. split; [| exact Ha]. apply filter_In. split; [exact Hin |].
    exact Hu.
  - rewrite (save_favorite_new _ _ _ Hrole Hf). simpl.
    exists (mkdoc (next_oid (core s)) None
              (Favorite.mk apt_id (AuthUser.id principal))).
    split; [| reflexivity]. apply filter_In. split.
    + apply in_or_app. right. left. reflexivity.
    + unfold favorites_of. simpl. apply String.eqb_refl.
Qed.

(** X21. [save_favorite] stores an apartment id it never parses, and
    [my_favorites] parses every stored id: when a user saves a string that
    is not 24 characters long, or that has a character which is neither a
    hexadecimal digit nor white space, the save answers ok and the
    [my_favorites] of that user then raises [InvalidId]. *)
Theorem malformed_favorite_breaks_my_favorites apt_id principal s :
  contains (AuthUser.role principal) ["user"; "vendor"] = true ->
  never_an_id apt_id = true ->
  let s1 := snd (save_favorite apt_id principal s) in
  fst (save_favorite apt_id principal s) = Return (mkSimpleOK true)
  /\ exists bad,
       my_favorites principal s1 = (Raise (InvalidId bad), s1).
Proof.
  intros Hrole Hbad. apply never_an_id_raises in Hbad as He.
  cbv zeta. split.
  - destruct (List.find (favorite_of apt_id (AuthUser.id principal))
                (favorite s)) as [f |] eqn:Hf.
    + rewrite (save_favorite_existing _ _ _ f Hrole Hf). reflexivity.
    + rewrite (save_favorite_new _ _ _ Hrole Hf). reflexivity.
  - destruct (saved_favorite_present apt_id principal s Hrole)
      as [f [Hin Ha]].
    rewrite (my_favorites_eq _ _ Hrole).
    destruct (traverse_raises
                (fun f => ObjectId (Favorite.apartment_id (pub_fields f)))
                (list_with_id
                   (List.filter (favorites_of (AuthUser.id principal))
                      (favorite (snd (save_favorite apt_id principal s)))))
                (pop_id f) (InvalidId apt_id)) as [x' [e' (_ & Hx' & Ht)]].
    + unfold list_with_id. apply in_map. exact Hin.
    + simpl. rewrite Ha. exact He.
    + rewrite Ht. apply ObjectId_raises in Hx'. subst e'.
      eexists. reflexivity.
Qed.

Lemma malformed_favorite_breaks_my_favorites_witness :
  fst (save_favorite "not-an-id" alice store_one_flat)
  = Return (mkSimpleOK true)
  /\ exists bad,
       fst (my_favorites alice
              (snd (save_favorite "not-an-id" alice store_one_flat)))
       = Raise (InvalidId bad).
Proof.
  destruct (malformed_favorite_breaks_my_favorites "not-an-id" alice
              store_one_flat eq_refl eq_refl)
    as [Hok [bad Hbad]].
  split; [exact Hok |]. exists bad. rewrite Hbad. reflexivity.
Defined.

(** X22. [my_favorites] never writes.  When it returns, it returns exactly
    the listings of the store whose identifier is spelled by one of the
    principal's own favorites; a favorite of a listing that does not exist
    contributes nothing. *)
Theorem my_favorites_contents principal s :
  snd (my_favorites principal s) = s
  /\ forall l, fst (my_favorites principal s) = Return l ->
       forall x,
         In x l
         <-> exists d f,
               In d (apartment (core s))
               /\ In f (favorite s)
               /\ Favorite.user_id (fields f) = AuthUser.id principal
               /\ ObjectId (Favorite.apartment_id (fields f)) = Return (_id d)
               /\ x = pop_id d.
Proof.
  destruct (contains (AuthUser.role principal) ["user"; "vendor"]) eqn:Hrole.
  - rewrite (my_favorites_eq _ _ Hrole). split; [reflexivity |].
    cbn [fst]. intros l Hl x.
    destruct (traverse _ _) as [ids |] eqn:Ht; [| discriminate].
    pose proof (traverse_returns _ _ _ Ht) as Hids.
    assert (Hmem : forall d : doc Apartment.t,
              id_in ids d = true
              <-> exists f,
                    In f (favorite s)
                    /\ Favorite.user_id (fields f) = AuthUser.id principal
                    /\ ObjectId (Favorite.apartment_id (fields f))
                       = Return (_id d)).
    { intros d. unfold id_in. rewrite existsb_exists. split.
      - intros [o [Ho Heq]]. apply N.eqb_eq in Heq. subst o.
        apply Hids in Ho. destruct Ho as [pf [Hpf Hparse]].
        unfold list_with_id in Hpf. apply in_map_iff in Hpf.
        destruct Hpf as [f [<- Hf]]. apply filter_In in Hf.
        destruct Hf as [Hin Hu]. unfold favorites_of in Hu.
        apply String.eqb_eq in Hu. exists f. auto.
      - intros [f (Hin & Hu & Hparse)]. exists (_id d).
        split; [| apply N.eqb_refl]. apply Hids. exists (pop_id f).
        split; [| exact Hparse]. unfold list_with_id. apply in_map.
        apply filter_In. split; [exact Hin |].
        unfold favorites_of. apply String.eqb_eq. exact Hu. }
    destruct ids as [| o ids].
    + inversion Hl; subst l. split; [intros [] |].
      intros [d [f (Hd & Hf & Hu & Hparse & _)]].
      assert (Hin : id_in [] d = true) by (apply Hmem; exists f; auto).
      discriminate.
    + inversion Hl; subst l. unfold list_with_id. rewrite in_map_iff. split.
      * intros [d [Hx Hd]]. apply filter_In in Hd. destruct Hd as [Hd Hin].
        apply Hmem in Hin. destruct Hin as [f (Hf & Hu & Hparse)].
        exists d, f. auto.
      * intros [d [f (Hd & Hf & Hu & Hparse & Hx)]]. exists d.
        split; [auto |]. apply filter_In. split; [exact Hd |].
        apply Hmem. exists f. auto.
  - unfold my_favorites. rewrite (require_role_rejects _ _ Hrole).
    split; [reflexivity | discriminate].
Qed.

Lemma my_favorites_contents_witness :
  In (pop_id flat)
     (items (fst (my_favorites alice
                    (snd (save_favorite "000000000000000000000007" alice
                            store_one_flat))))).
Proof.
  refine (proj2 (proj2 (my_favorites_contents alice
                          (snd (save_favorite "000000000000000000000007" alice
                                  store_one_flat)))
                   _ eq_refl _) _).
  exists flat, (mkdoc 8%N None
                  (Favorite.mk "000000000000000000000007" (AuthUser.id alice))).
  split; [left; reflexivity |]. split; [left; reflexivity |].
  split; [reflexivity |]. split; reflexivity.
Defined.

(** ** Booking interests *)

Lemma create_booking_goes_through payload principal s o apt :
  AuthUser.role principal = "user" ->
  ObjectId (BookingCreate.apartment_id payload) = Return o ->
  List.find (by_id o) (apartment (core s)) = Some apt ->
  create_booking payload principal s
  = (Return (mkSimpleOK true), booked (booking_for payload principal apt) s).
Proof.
  intros Hrole Ho Hf. unfold create_booking.
  rewrite require_role_accepts by (rewrite Hrole; reflexivity).
  unfold_wide. simpl. rewrite Ho. simpl. unfold find_one, gets. simpl.
  rewrite Hf. simpl. reflexivity.
Qed.

(** X23. For a user, [create_booking] stores a booking only for a listing
    that exists: the booking carries the principal as [user_id], the
    listing's own [vendor_id], the request's message and status pending,
    and nothing else in the store changes.  A well-formed id of no listing
    gets 404; an id that is not 24 characters long, or that has a character
    which is neither a hexadecimal digit nor white space, raises
    [InvalidId]; neither writes. *)
Theorem create_booking_outcomes payload principal s :
  AuthUser.role principal = "user" ->
  (never_an_id (BookingCreate.apartment_id payload) = true ->
   create_booking payload principal s
   = (Raise (InvalidId (BookingCreate.apartment_id payload)), s))
  /\ (forall o, ObjectId (BookingCreate.apartment_id payload) = Return o ->
        (List.find (by_id o) (apartment (core s)) = None ->
         create_booking payload principal s
         = (Raise (HTTPException 404 "Apartment not found"), s))
        /\ (forall apt,
              List.find (by_id o) (apartment (core s)) = Some apt ->
              let s' := snd (create_booking payload principal s) in
              fst (create_booking payload principal s)
              = Return (mkSimpleOK true)
              /\ bookinginterest s'
                 = bookinginterest s
                   ++ [mkdoc (next_oid (core s)) None
                         (BookingInterest.mk
                            (BookingCreate.apartment_id payload)
                            (AuthUser.id principal)
                            (Apartment.vendor_id (fields apt))
                            (BookingCreate.message payload) "pending")]
              /\ apartment (core s') = apartment (core s)
              /\ user (core s') = user (core s)
              /\ favorite s' = favorite s
              /\ vendorkyc s' = vendorkyc s)).
Proof.
  intros Hrole. split.
  - intros Hbad. apply never_an_id_raises in Hbad as He.
    unfold create_booking.
    rewrite require_role_accepts by (rewrite Hrole; reflexivity).
    unfold_wide. simpl. rewrite He. reflexivity.
  - intros o Ho. split.
    + intros Hf. unfold create_booking.
      rewrite require_role_accepts by (rewrite Hrole; reflexivity).
      unfold_wide. simpl. rewrite Ho. simpl. unfold find_one, gets. simpl.
      rewrite Hf. simpl. rewrite set_core_same. reflexivity.
    + intros apt Hf. cbv zeta.
      rewrite (create_booking_goes_through _ _ _ o apt Hrole Ho Hf).
      cbn [fst snd]. repeat split; reflexivity.
Qed.

Lemma create_booking_outcomes_witness :
  bookinginterest (snd (create_booking book_flat alice store_one_flat))
  = [mkdoc 8%N None
       (BookingInterest.mk "000000000000000000000007" (AuthUser.id alice)
          (AuthUser.id bob) (Some "Is it free in May?") "pending")]
  /\ create_booking (BookingCreate.mk "0000000000000000000000ff" None) alice
       store_one_flat
     = (Raise (HTTPException 404 "Apartment not found"), store_one_flat)
  /\ create_booking (BookingCreate.mk "not-an-id" None) alice store_one_flat
     = (Raise (InvalidId "not-an-id"), store_one_flat).
Proof.
  split; [| split].
  - exact (proj1 (proj2 (proj2 (proj2 (create_booking_outcomes book_flat alice
                           store_one_flat eq_refl) 7%N eq_refl)
                     flat eq_refl))).
  - exact (proj1 (proj2 (create_booking_outcomes
                           (BookingCreate.mk "0000000000000000000000ff" None)
                           alice store_one_flat eq_refl) 255%N eq_refl)
             eq_refl).
  - exact (proj1 (create_booking_outcomes (BookingCreate.mk "not-an-id" None)
                    alice store_one_flat eq_refl) eq_refl).
Defined.

Lemma my_bookings_spec principal s :
  snd (my_bookings principal s) = s
  /\ forall l, fst (my_bookings principal s) = Return l ->
       forall x,
         In x l
         <-> exists d, In d (bookinginterest s)
                       /\ party principal (fields d)
                       /\ x = pop_id d.
Proof.
  unfold my_bookings, require_role.
  destruct (contains (AuthUser.role principal) ["user"; "vendor"]) eqn:Hc;
    unfold_wide; simpl; [| split; [reflexivity | discriminate]].
  split; [reflexivity |]. intros l Hl. inversion Hl; subst l. clear Hl.
  rewrite contains_user_vendor in Hc.
  intros x. unfold list_with_id. rewrite in_map_iff. split.
  - intros [d [Hx Hd]]. exists d.
    apply (Permutation_in _ (sort_perm _ _)) in Hd.
    apply filter_In in Hd. destruct Hd as [Hin Hb].
    split; [exact Hin |]. split; [| auto].
    destruct (String.eqb_spec (AuthUser.role principal) "user") as [Hu | Hu].
    + left. split; [exact Hu |]. unfold booked_by in Hb.
      apply String.eqb_eq in Hb. exact Hb.
    + right. simpl in Hc. apply String.eqb_eq in Hc.
      split; [exact Hc |]. unfold booked_with in Hb.
      apply String.eqb_eq in Hb. exact Hb.
  - intros [d [Hin [Hp Hx]]]. exists d. split; [auto |].
    apply (Permutation_in _ (Permutation_sym (sort_perm _ _))).
    apply filter_In. split; [exact Hin |].
    destruct Hp as [[Hr Hi] | [Hr Hi]]; rewrite Hr; simpl.
    + unfold booked_by. apply String.eqb_eq. exact Hi.
    + unfold booked_with. apply String.eqb_eq. exact Hi.
Qed.


(** X24. [my_bookings] never writes, and it returns exactly the bookings
    in which the principal takes part in their own role: those a user
    made, or those made with a vendor's listings. *)
Theorem my_bookings_visibility principal s :
  snd (my_bookings principal s) = s
  /\ forall l, fst (my_bookings principal s) = Return l ->
       forall x,
         In x l
         <-> exists d, In d (bookinginterest s)
                       /\ party principal (fields d)
                       /\ x = pop_id d.
Proof. exact (my_bookings_spec principal s). Qed.

Lemma my_bookings_visibility_witness :
  In (mkpub "000000000000000000000008" None
        (booking_for book_flat alice flat))
     (items (fst (my_bookings bob
                    (snd (create_booking book_flat alice store_one_flat)))))
  /\ fst (my_bookings mallory
            (snd (create_booking book_flat alice store_one_flat)))
     = Return [].
Proof.
  split.
  - refine (proj2 (proj2 (my_bookings_visibility bob
                            (snd (create_booking book_flat alice
                                    store_one_flat)))
                     _ eq_refl _) _).
    exists (mkdoc 8%N None (booking_for book_flat alice flat)).
    split; [left; reflexivity |].
    split; [right; split; reflexivity | reflexivity].
  - reflexivity.
Defined.

(** X25. A booking reaches both sides: after a user books a listing, the
    booking is among the user's [my_bookings] and among those of the vendor
    whose id the listing carries. *)
Theorem booking_reaches_both_parties payload booker vendor s o apt :
  AuthUser.role booker = "user" ->
  ObjectId (BookingCreate.apartment_id payload) = Return o ->
  List.find (by_id o) (apartment (core s)) = Some apt ->
  AuthUser.role vendor = "vendor" ->
  AuthUser.id vendor = Apartment.vendor_id (fields apt) ->
  let s' := snd (create_booking payload booker s) in
  let booking :=
    mkpub (str (next_oid (core s))) None (booking_for payload booker apt) in
  In booking (items (fst (my_bookings booker s')))
  /\ In booking (items (fst (my_bookings vendor s'))).
Proof.
  intros Hrole Ho Hf Hv Hid. cbv zeta.
  rewrite (create_booking_goes_through _ _ _ o apt Hrole Ho Hf). cbn [snd].
  assert (Hin : In (mkdoc (next_oid (core s)) None
                      (booking_for payload booker apt))
                   (bookinginterest
                      (booked (booking_for payload booker apt) s))).
  { simpl. apply in_or_app. right. left. reflexivity. }
  split.
  - destruct (my_bookings_spec booker
                (booked (booking_for payload booker apt) s)) as [_ Hspec].
    destruct (fst (my_bookings booker _)) as [l |] eqn:Hl.
    + apply (Hspec l eq_refl). eexists. split; [exact Hin |].
      split; [left; split; [exact Hrole | reflexivity] | reflexivity].
    + exfalso. unfold my_bookings in Hl.
      rewrite require_role_accepts in Hl by (rewrite Hrole; reflexivity).
      discriminate.
  - destruct (my_bookings_spec vendor
                (booked (booking_for payload booker apt) s)) as [_ Hspec].
    destruct (fst (my_bookings vendor _)) as [l |] eqn:Hl.
    + apply (Hspec l eq_refl). eexists. split; [exact Hin |].
      split; [right; split; [exact Hv | symmetry; exact Hid] | reflexivity].
    + exfalso. unfold my_bookings in Hl.
      rewrite require_role_accepts in Hl by (rewrite Hv; reflexivity).
      discriminate.
Qed.

Lemma booking_reaches_both_parties_witness :
  In (mkpub "000000000000000000000008" None (booking_for book_flat alice flat))
     (items (fst (my_bookings alice
                    (snd (create_booking book_flat alice store_one_flat)))))
  /\ In (mkpub "000000000000000000000008" None
           (booking_for book_flat alice flat))
        (items (fst (my_bookings bob
                       (snd (create_booking book_flat alice
                               store_one_flat))))).
Proof.
  exact (booking_reaches_both_parties book_flat alice bob store_one_flat 7%N
           flat eq_refl eq_refl eq_refl eq_refl eq_refl).
Defined.

(** ** KYC records *)

Lemma submit_kyc_goes_through payload principal s :
  AuthUser.role principal = "vendor" ->
  submit_kyc payload principal s
  = (Return (mkSimpleOK true),
     mkStore (bump_oid (core s))
       (vendorkyc s
        ++ [mkdoc (next_oid (core s)) None
              (VendorKYC.set_submitted (AuthUser.id principal) payload)])
       (favorite s) (bookinginterest s)).
Proof.
  intros Hrole. unfold submit_kyc.
  rewrite require_role_accepts by (rewrite Hrole; reflexivity).
  unfold_wide. reflexivity.
Qed.

(** X26. For a vendor, [submit_kyc] stores the record under the vendor's
    own id and with status pending, whatever [user_id] and [status] the
    payload carried; the other fields are the payload's.  The vendor then
    finds the record in [get_my_kyc].  Anyone who is not a vendor gets 403
    and nothing is written. *)
Theorem submit_kyc_owner_and_pending payload principal s :
  (AuthUser.role principal <> "vendor" ->
   submit_kyc payload principal s = (Raise forbidden, s))
  /\ (AuthUser.role principal = "vendor" ->
      let s' := snd (submit_kyc payload principal s) in
      exists k,
        fst (submit_kyc payload principal s) = Return (mkSimpleOK true)
        /\ vendorkyc s' = vendorkyc s ++ [mkdoc (next_oid (core s)) None k]
        /\ VendorKYC.user_id k = AuthUser.id principal
        /\ VendorKYC.status k = "pending"
        /\ VendorKYC.business_name k = VendorKYC.business_name payload
        /\ VendorKYC.gov_id_type k = VendorKYC.gov_id_type payload
        /\ VendorKYC.gov_id_number k = VendorKYC.gov_id_number payload
        /\ VendorKYC.cac_number k = VendorKYC.cac_number payload
        /\ VendorKYC.address k = VendorKYC.address payload
        /\ VendorKYC.notes k = VendorKYC.notes payload
        /\ In (mkpub (str (next_oid (core s))) None k)
              (items (fst (get_my_kyc principal s')))).
Proof.
  split.
  - intros Hrole. unfold submit_kyc.
    rewrite (require_role_rejects _ _ (contains_one _ _ Hrole)). reflexivity.
  - intros Hrole. cbv zeta. rewrite (submit_kyc_goes_through _ _ _ Hrole).
    cbn [fst snd].
    exists (VendorKYC.set_submitted (AuthUser.id principal) payload).
    repeat (split; [reflexivity |]).
    unfold get_my_kyc.
    rewrite require_role_accepts by (rewrite Hrole; reflexivity).
    unfold_wide. cbn [fst items]. unfold list_with_id.
    apply in_map_iff.
    exists (mkdoc (next_oid (core s)) None
              (VendorKYC.set_submitted (AuthUser.id principal) payload)).
    split; [reflexivity |]. apply filter_In. split.
    + simpl. apply in_or_app. right. left. reflexivity.
    + unfold kyc_of. simpl. apply String.eqb_refl.
Qed.

Lemma submit_kyc_owner_and_pending_witness :
  exists k,
    vendorkyc (snd (submit_kyc kyc_claiming_approval bob empty_store))
    = [mkdoc 1%N None k]
    /\ VendorKYC.user_id k = AuthUser.id bob
    /\ VendorKYC.status k = "pending".
Proof.
  destruct (proj2 (submit_kyc_owner_and_pending kyc_claiming_approval bob
                     empty_store) eq_refl)
    as [k (_ & Hk & Hu & Hs & _)].
  exists k. repeat split; assumption.
Defined.

Lemma save_favorite_vendorkyc apt_id principal s :
  vendorkyc (snd (save_favorite apt_id principal s)) = vendorkyc s.
Proof.
  unfold save_favorite. destruct (require_role ["user"; "vendor"] principal);
    unfold_wide; simpl; [| reflexivity].
  destruct (List.find _ (favorite s)); reflexivity.
Qed.

Lemma create_booking_vendorkyc payload principal s :
  vendorkyc (snd (create_booking payload principal s)) = vendorkyc s.
Proof.
  unfold create_booking. destruct (require_role ["user"] principal);
    unfold_wide; simpl; [| reflexivity].
  destruct (ObjectId (BookingCreate.apartment_id payload)); simpl;
    [| reflexivity].
  destruct (List.find _ (apartment (core s))); reflexivity.
Qed.

Lemma kyc_update_known status notes f l :
  status = "approved" \/ status = "rejected" ->
  Forall (fun d => VendorKYC.status (fields d) = "pending"
                   \/ VendorKYC.status (fields d) = "approved"
                   \/ VendorKYC.status (fields d) = "rejected") l ->
  Forall (fun d => VendorKYC.status (fields d) = "pending"
                   \/ VendorKYC.status (fields d) = "approved"
                   \/ VendorKYC.status (fields d) = "rejected")
         (update_first f (VendorKYC.set_decision status notes) l).
Proof.
  intros Hs. induction 1 as [| d l Hd Hl IH]; simpl; [constructor |].
  destruct (f d); constructor; try assumption.
  simpl. right. exact Hs.
Qed.

Lemma wide_step_kyc_status s s' :
  wide_step s s' -> kyc_status_known s -> kyc_status_known s'.
Proof.
  intros Hstep Hinv. unfold kyc_status_known in *.
  destruct Hstep as [db' Hcore | payload who | apt_id who | payload who
                    | payload who].
  - exact Hinv.
  - unfold submit_kyc. destruct (require_role ["vendor"] who);
      unfold_wide; simpl; [| exact Hinv].
    apply Forall_app. split; [exact Hinv |].
    constructor; [left; reflexivity | constructor].
  - rewrite save_favorite_vendorkyc. exact Hinv.
  - rewrite create_booking_vendorkyc. exact Hinv.
  - unfold admin_kyc_decision. destruct (require_role ["admin"] who);
      unfold_wide; simpl; [| exact Hinv].
    destruct (ObjectId (AdminAction.id payload)); simpl; [| exact Hinv].
    apply kyc_update_known; [| exact Hinv].
    destruct (AdminAction.approve payload); [left | right]; reflexivity.
Qed.

(** X27. Whatever requests are served, every KYC record is pending,
    approved or rejected: a submission starts pending, whatever status it
    was sent with, and only an admin decision moves it, to approved or to
    rejected. *)
Theorem kyc_status_always_known s : wide_reachable s -> kyc_status_known s.
Proof.
  induction 1 as [| s s' _ IH Hstep].
  - constructor.
  - exact (wide_step_kyc_status s s' Hstep IH).
Qed.

Lemma kyc_status_always_known_witness :
  kyc_status_known
    (snd (admin_kyc_decision approve_first carol
            (snd (submit_kyc kyc_claiming_approval bob empty_store)))).
Proof.
  apply kyc_status_always_known.
  eapply wide_next; [| apply wide_admin_kyc_decision].
  eapply wide_next; [apply wide_empty | apply wide_submit_kyc].
Defined.

(** X28. For an admin, [admin_kyc_decision] sets the status of the record
    with the given id to approved or rejected, as the payload says, and
    its notes to the payload's; the record's owner and other fields stay,
    and the record is no longer pending.  No user record is touched: an
    approval does not set [is_verified].  When no record has the id the
    answer is still ok and nothing changes.  An id that is not 24
    characters long, or that has a character which is neither a
    hexadecimal digit nor white space, raises [InvalidId] before any
    write. *)
Theorem admin_kyc_decision_outcomes payload principal s :
  AuthUser.role principal = "admin" ->
  (never_an_id (AdminAction.id payload) = true ->
   admin_kyc_decision payload principal s
   = (Raise (InvalidId (AdminAction.id payload)), s))
  /\ (forall o, ObjectId (AdminAction.id payload) = Return o ->
        let s' := snd (admin_kyc_decision payload principal s) in
        fst (admin_kyc_decision payload principal s) = Return (mkSimpleOK true)
        /\ core s' = core s
        /\ (List.find (by_id o) (vendorkyc s) = None -> s' = s)
        /\ (forall d, List.find (by_id o) (vendorkyc s) = Some d ->
              exists d',
                List.find (by_id o) (vendorkyc s') = Some d'
                /\ VendorKYC.status (fields d')
                   = decided (AdminAction.approve payload)
                /\ VendorKYC.notes (fields d') = AdminAction.notes payload
                /\ VendorKYC.user_id (fields d')
                   = VendorKYC.user_id (fields d)
                /\ VendorKYC.business_name (fields d')
                   = VendorKYC.business_name (fields d)
                /\ kyc_pending d' = false)).
Proof.
  intros Hrole. split.
  - intros Hbad. apply never_an_id_raises in Hbad as He.
    unfold admin_kyc_decision.
    rewrite require_role_accepts by (rewrite Hrole; reflexivity).
    unfold_wide. simpl. rewrite He. reflexivity.
  - intros o Ho. cbv zeta. unfold admin_kyc_decision.
    rewrite require_role_accepts by (rewrite Hrole; reflexivity).
    unfold_wide. simpl. rewrite Ho. simpl.
    split; [reflexivity |]. split; [reflexivity |]. split.
    + intros Hf. rewrite (update_first_none _ _ _ Hf). destruct s; reflexivity.
    + intros d Hf. eexists. split; [apply find_update_first; exact Hf |].
      simpl. repeat split; try reflexivity.
      unfold kyc_pending. simpl.
      destruct (AdminAction.approve payload); reflexivity.
Qed.

Lemma admin_kyc_decision_outcomes_witness :
  exists d',
    List.find (by_id 1%N)
      (vendorkyc
         (snd (admin_kyc_decision approve_first carol
                 (snd (submit_kyc kyc_claiming_approval bob empty_store)))))
    = Some d'
    /\ VendorKYC.status (fields d') = "approved"
    /\ VendorKYC.user_id (fields d') = AuthUser.id bob
    /\ admin_kyc_decision (AdminAction.mk "not-an-id" true None) carol
         empty_store
       = (Raise (InvalidId "not-an-id"), empty_store).
Proof.
  pose proof (proj1 (admin_kyc_decision_outcomes
                       (AdminAction.mk "not-an-id" true None) carol
                       empty_store eq_refl) eq_refl) as Hbad.
  destruct (proj2 (proj2 (proj2 (proj2
              (admin_kyc_decision_outcomes approve_first carol
                 (snd (submit_kyc kyc_claiming_approval bob empty_store))
                 eq_refl) 1%N eq_refl)))
              (mkdoc 1%N None
                 (VendorKYC.set_submitted (AuthUser.id bob)
                    kyc_claiming_approval))
              eq_refl)
    as [d' (Hf & Hs & _ & Hu & _)].
  exists d'. split; [exact Hf |]. split; [exact Hs |].
  split; [exact Hu | exact Hbad].
Defined.

(** ** What an admin reads *)

(** X29. The three admin reads never write and are closed to every other
    role.  For an admin, [admin_list_kyc] returns exactly the pending KYC
    records and [admin_overview] counts as many; [admin_listings] returns
    every listing of the store in natural order, the unavailable ones
    too; and the overview never counts more vendors than users nor more
    active listings than listings. *)
Theorem admin_reads principal s :
  (AuthUser.role principal <> "admin" ->
   admin_overview principal s = (Raise forbidden, s)
   /\ admin_list_kyc principal s = (Raise forbidden, s)
   /\ admin_listings principal s = (Raise forbidden, s))
  /\ (AuthUser.role principal = "admin" ->
      exists ov pending,
        admin_overview principal s = (Return ov, s)
        /\ admin_list_kyc principal s = (Return pending, s)
        /\ admin_listings principal s
           = (Return (list_with_id (apartment (core s))), s)
        /\ (forall x,
              In x pending
              <-> exists d, In d (vendorkyc s)
                            /\ VendorKYC.status (fields d) = "pending"
                            /\ x = pop_id d)
        /\ pending_kyc ov = List.length pending
        /\ users ov = List.length (user (core s))
        /\ apartments ov = List.length (apartment (core s))
        /\ bookings ov = List.length (bookinginterest s)
        /\ (vendors ov <= users ov)%nat
        /\ (active_listings ov <= apartments ov)%nat).
Proof.
  split.
  - intros Hrole.
    pose proof (require_role_rejects _ _ (contains_one _ _ Hrole)) as Hr.
    unfold admin_overview, admin_list_kyc, admin_listings.
    rewrite Hr. repeat split; reflexivity.
  - intros Hrole.
    assert (Hr : require_role ["admin"] principal = Return principal).
    { apply require_role_accepts. rewrite Hrole. reflexivity. }
    exists (overview s), (list_with_id (List.filter kyc_pending (vendorkyc s))).
    unfold admin_overview, admin_list_kyc, admin_listings. rewrite Hr.
    unfold_wide. unfold find, gets. simpl.
    rewrite filter_all, set_core_same.
    split; [reflexivity |]. split; [reflexivity |]. split; [reflexivity |].
    split.
    { intros x. unfold list_with_id. rewrite in_map_iff. split.
      - intros [d [Hx Hd]]. apply filter_In in Hd. destruct Hd as [Hin Hp].
        unfold kyc_pending in Hp. apply String.eqb_eq in Hp. exists d. auto.
      - intros [d (Hin & Hp & Hx)]. exists d. split; [auto |].
        apply filter_In. split; [exact Hin |].
        unfold kyc_pending. apply String.eqb_eq. exact Hp. }
    unfold count_documents, list_with_id.
    rewrite !filter_all, List.length_map.
    repeat split; try reflexivity; apply List.filter_length_le.
Qed.

Lemma admin_reads_witness :
  admin_list_kyc bob empty_store = (Raise forbidden, empty_store)
  /\ exists ov,
       fst (admin_overview carol
              (snd (submit_kyc kyc_claiming_approval bob empty_store)))
       = Return ov
       /\ pending_kyc ov = 1%nat.
Proof.
  split.
  - refine (proj1 (proj2 (proj1 (admin_reads bob empty_store) _))).
    discriminate.
  - destruct (proj2 (admin_reads carol
                       (snd (submit_kyc kyc_claiming_approval bob
                               empty_store))) eq_refl)
      as [ov [pending (Hov & Hl & _ & _ & Hp & _)]].
    exists ov. split; [rewrite Hov; reflexivity |].
    rewrite Hp. inversion Hl. reflexivity.
Defined.

Lemma list_apartments_filters_narrow_witness :
  In (pop_id (priced 2 1000 ["wifi"; "ac"]))
     (items (fst (list_apartments (engine := dot_engine) None None None None
                    None db_three_prices))).
Proof.
  refine (proj1 (list_apartments_filters_narrow (engine := dot_engine)
                   None None (Some (800 # 1)%Q) None None db_three_prices)
            _ _).
  left. reflexivity.
Defined.
